(** * Subscription backend: pricing, billing dates, lifecycle and order guard

    A shallow embedding of the Mongoose models [Service] and [Subscription],
    of the [validateSubscriptionLimits] middleware and of the subscription
    routes (create, cancel, pause, resume, admin status override), followed by
    the properties stated about them.

    Conventions of the embedding.
    - A JavaScript [Number] that holds money is an exact rational ([Qc]); a
      [Number] that holds a count or a quantity is an integer ([Z]).  The
      IEEE-754 rounding of the arithmetic itself is not modelled.
    - A [Date] is its time value: milliseconds since the epoch, as in
      ECMA-262, within the range a Date can hold.  Local time is UTC shifted
      by a constant offset [tza].
    - An [_id] is its 24-digit hexadecimal string.
    - A document collection is a finite map from [_id] to document.
    - A missing ([undefined]/[null]) property is [None]. *)

From Stdlib Require Import ZArith QArith Qcanon Qround Lia Lqa.
From stdpp Require Import base option list gmap strings numbers.

Local Open Scope Z_scope.

(** ** JavaScript values *)

Module JS.

(** [Number(z)] for an integer that meets a money amount. *)
Definition ofZ (z : Z) : Qc := Q2Qc (inject_Z z).

(** [Math.round]: the nearest integer, a tie going towards +infinity. *)
Definition Math_round (x : Qc) : Z := Qfloor (x + Q2Qc (1 # 2))%Qc.

(** Truthiness of an optional number: [null], [undefined] and [0] are falsy. *)
Definition truthyZ (o : option Z) : bool :=
  match o with
  | Some n => negb (n =? 0)
  | None => false
  end.

Definition truthyQc (o : option Qc) : bool :=
  match o with
  | Some q => negb (Qc_eq_bool q 0%Qc)
  | None => false
  end.

(** Truthiness of an optional string: the empty string is falsy. *)
Definition truthyStr (o : option string) : bool :=
  match o with
  | Some s => negb (String.eqb s "")
  | None => false
  end.

Definition newline : string := String (Ascii.ascii_of_nat 10) "".

Definition isSpace (c : Ascii.ascii) : bool :=
  let n := Ascii.nat_of_ascii c in
  ((9 <=? n)%nat && (n <=? 13)%nat) || (n =? 32)%nat.

Fixpoint trimStart (s : string) : string :=
  match s with
  | String c rest => if isSpace c then trimStart rest else s
  | EmptyString => EmptyString
  end.

Fixpoint rev (s : string) : string :=
  match s with
  | String c rest => String.append (rev rest) (String c "")
  | EmptyString => EmptyString
  end.

(** [String.prototype.trim] on the ASCII white space. *)
Definition trim (s : string) : string := rev (trimStart (rev (trimStart s))).

Fixpoint all (p : Ascii.ascii -> bool) (s : string) : bool :=
  match s with
  | String c rest => p c && all p rest
  | EmptyString => true
  end.

Definition isDigit (c : Ascii.ascii) : bool :=
  let n := Ascii.nat_of_ascii c in (48 <=? n)%nat && (n <=? 57)%nat.

Definition isHexDigit (c : Ascii.ascii) : bool :=
  let n := Ascii.nat_of_ascii c in
  isDigit c || ((65 <=? n)%nat && (n <=? 70)%nat)
            || ((97 <=? n)%nat && (n <=? 102)%nat).

End JS.

(** ** Date arithmetic (ECMA-262, Date objects) *)

Module JSDate.

(** A time value, in milliseconds since 1970-01-01T00:00:00Z. *)
Definition Date := Z.

Definition msPerDay : Z := 86400000.

Definition Day (t : Z) : Z := t / msPerDay.

Definition TimeWithinDay (t : Z) : Z := t mod msPerDay.

Definition DaysInYear (y : Z) : Z :=
  if negb (y mod 4 =? 0) then 365
  else if negb (y mod 100 =? 0) then 366
  else if negb (y mod 400 =? 0) then 365
  else 366.

Definition DayFromYear (y : Z) : Z :=
  365 * (y - 1970) + (y - 1969) / 4 - (y - 1901) / 100 + (y - 1601) / 400.

(** The largest year whose first day is not after day [d]: an estimate from
    the mean year length, corrected by at most one. *)
Definition YearFromDay (d : Z) : Z :=
  let y0 := 1970 + (400 * d) / 146097 in
  if d <? DayFromYear y0 then y0 - 1
  else if DayFromYear (y0 + 1) <=? d then y0 + 1
  else y0.

Definition YearFromTime (t : Z) : Z := YearFromDay (Day t).

Definition InLeapYear (t : Z) : Z :=
  if DaysInYear (YearFromTime t) =? 366 then 1 else 0.

Definition DayWithinYear (t : Z) : Z := Day t - DayFromYear (YearFromTime t).

(** Day number, within a year, of the first day of month [m] (0..11);
    [leap] is 1 in a leap year and 0 otherwise. *)
Definition monthStart (m leap : Z) : Z :=
  if m =? 0 then 0
  else if m =? 1 then 31
  else if m =? 2 then 59 + leap
  else if m =? 3 then 90 + leap
  else if m =? 4 then 120 + leap
  else if m =? 5 then 151 + leap
  else if m =? 6 then 181 + leap
  else if m =? 7 then 212 + leap
  else if m =? 8 then 243 + leap
  else if m =? 9 then 273 + leap
  else if m =? 10 then 304 + leap
  else 334 + leap.

Definition MonthFromTime (t : Z) : Z :=
  let d := DayWithinYear t in
  let l := InLeapYear t in
  if d <? 31 then 0
  else if d <? 59 + l then 1
  else if d <? 90 + l then 2
  else if d <? 120 + l then 3
  else if d <? 151 + l then 4
  else if d <? 181 + l then 5
  else if d <? 212 + l then 6
  else if d <? 243 + l then 7
  else if d <? 273 + l then 8
  else if d <? 304 + l then 9
  else if d <? 334 + l then 10
  else 11.

Definition DateFromTime (t : Z) : Z :=
  DayWithinYear t - monthStart (MonthFromTime t) (InLeapYear t) + 1.

(** [MakeDay(year, month, date)]: [month] and [date] may lie outside their
    calendar range; the excess carries over. *)
Definition MakeDay (year month date : Z) : Z :=
  let ym := year + month / 12 in
  let mn := month mod 12 in
  let leap := if DaysInYear ym =? 366 then 1 else 0 in
  DayFromYear ym + monthStart mn leap + date - 1.

Definition MakeDate (day time : Z) : Z := day * msPerDay + time.

Definition LocalTime (tza t : Z) : Z := t + tza.
Definition UTC (tza t : Z) : Z := t - tza.

Definition getMonth (tza : Z) (d : Date) : Z := MonthFromTime (LocalTime tza d).

Definition getFullYear (tza : Z) (d : Date) : Z := YearFromTime (LocalTime tza d).

Definition getDate (tza : Z) (d : Date) : Z := DateFromTime (LocalTime tza d).

(** [d.setMonth(month)]: the time value [d] holds afterwards. *)
Definition setMonth (tza : Z) (d : Date) (month : Z) : Date :=
  let t := LocalTime tza d in
  UTC tza (MakeDate (MakeDay (YearFromTime t) month (DateFromTime t))
                    (TimeWithinDay t)).

(** [d.setFullYear(year)]: the time value [d] holds afterwards. *)
Definition setFullYear (tza : Z) (d : Date) (year : Z) : Date :=
  let t := LocalTime tza d in
  UTC tza (MakeDate (MakeDay year (MonthFromTime t) (DateFromTime t))
                    (TimeWithinDay t)).

(** The time value of a local calendar date and time of day. *)
Definition ofCivil (tza year month date time : Z) : Date :=
  UTC tza (MakeDate (MakeDay year month date) time).

End JSDate.

(** ** models/Service *)

Module Service.

Inductive Category :=
  Cable | Silver | Snacks | Internet | Gaming | Design | Development.

Inductive BillingCycle := one_time | monthly | quarterly | yearly.

#[global] Instance Category_eq_dec : EqDecision Category.
Proof. solve_decision. Defined.

#[global] Instance BillingCycle_eq_dec : EqDecision BillingCycle.
Proof. solve_decision. Defined.

Record Price := {
  amount : Qc;
  currency : string;
  billingCycle : BillingCycle
}.

Record Availability := {
  isActive : bool;
  maxSubscriptions : option Z;
  currentSubscriptions : Z
}.

Record Constraints := {
  maxQuantityPerUser : Z;
  minSubscriptionPeriod : Z;
  maxOnlineOrderValue : option Qc;
  requiresQuote : bool
}.

Record t := {
  name : string;
  category : Category;
  price : Price;
  availability : Availability;
  constraints : Constraints
}.

Definition setCurrentSubscriptions (n : Z) (s : t) : t :=
  {| name := name s;
     category := category s;
     price := price s;
     availability :=
       {| isActive := isActive (availability s);
          maxSubscriptions := maxSubscriptions (availability s);
          currentSubscriptions := n |};
     constraints := constraints s |}.

(** [serviceSchema.virtual('isAvailable')] *)
Definition isAvailable (s : t) : bool :=
  if negb (isActive (availability s)) then false
  else if JS.truthyZ (maxSubscriptions (availability s))
          && (default 0 (maxSubscriptions (availability s))
                <=? currentSubscriptions (availability s))
  then false
  else true.

(** [serviceSchema.methods.canOrderOnline] *)
Definition canOrderOnline (s : t) (orderValue : Qc) : bool :=
  if negb (isActive (availability s)) then false
  else if JS.truthyQc (maxOnlineOrderValue (constraints s))
          && bool_decide
               (default 0%Qc (maxOnlineOrderValue (constraints s)) < orderValue)%Qc
  then false
  else true.

(** [serviceSchema.methods.incrementSubscriptions]: the document as saved. *)
Definition incrementSubscriptions (s : t) : t :=
  setCurrentSubscriptions (currentSubscriptions (availability s) + 1) s.

(** [serviceSchema.methods.decrementSubscriptions]: the document as saved. *)
Definition decrementSubscriptions (s : t) : t :=
  if 0 <? currentSubscriptions (availability s)
  then setCurrentSubscriptions (currentSubscriptions (availability s) - 1) s
  else s.

End Service.

(** ** The platform a request runs on *)

Module Platform.

(** What a request reads from outside the program: the constant offset of
    local time from UTC, the clock ([new Date()], [Date.now], read once for
    the whole request), the [_id] generated for a new document, and
    [new Date().toLocaleDateString()]. *)
Record Env := {
  tza : Z;
  now : JSDate.Date;
  freshId : string;
  localeDate : string
}.

End Platform.

(** ** models/Subscription *)

Module Subscription.

Inductive Status := pending | active | paused | cancelled | expired | failed.

Inductive PaymentStatus :=
  payment_pending | paid | payment_failed | refunded | partial.

Inductive PaymentMethod := card | upi | netbanking | wallet | cash | cheque.

(** The [status] of an entry of [paymentHistory]. *)
Inductive PaymentOutcome :=
  outcome_pending | success | outcome_failed | outcome_refunded.

Inductive InstallationStatus :=
  not_required | scheduled | in_progress | completed | installation_failed.

Inductive Source := web | mobile | admin | api.

#[global] Instance Status_eq_dec : EqDecision Status.
Proof. solve_decision. Defined.

#[global] Instance PaymentOutcome_eq_dec : EqDecision PaymentOutcome.
Proof. solve_decision. Defined.

Record LineItem := {
  serviceId : string;
  quantity : Z;
  customizations : gmap string string;
  priceAtSubscription : Service.Price
}.

Record Pricing := {
  subtotal : Qc;
  taxes : Qc;
  discounts : Qc;
  total : Qc;
  currency : string
}.

Record Dates := {
  startDate : option JSDate.Date;
  endDate : option JSDate.Date;
  nextBillingDate : option JSDate.Date;
  lastPaymentDate : option JSDate.Date;
  cancelledDate : option JSDate.Date;
  pausedDate : option JSDate.Date
}.

Record Installation := {
  isRequired : bool;
  scheduledDate : option JSDate.Date;
  installationStatus : InstallationStatus
}.

Record Address := {
  street : string;
  city : string;
  state : string;
  pincode : string;
  landmark : option string
}.

(** An entry of [paymentHistory], as stored. *)
Record Payment := {
  amount : Qc;
  paymentCurrency : string;
  paymentMethod : PaymentMethod;
  transactionId : option string;
  outcome : PaymentOutcome;
  paidAt : JSDate.Date;
  paymentNotes : option string
}.

(** The argument of [addPayment]: only [amount] and [paymentMethod] are
    required by the schema. *)
Record PaymentData := {
  data_amount : Qc;
  data_currency : option string;
  data_paymentMethod : PaymentMethod;
  data_transactionId : option string;
  data_status : option PaymentOutcome;
  data_paidAt : option JSDate.Date;
  data_notes : option string
}.

Record Metadata := {
  source : Source;
  notes : option string
}.

Record t := {
  userId : string;
  services : list LineItem;
  planName : option string;
  pricing : Pricing;
  billingCycle : Service.BillingCycle;
  status : Status;
  paymentStatus : PaymentStatus;
  dates : Dates;
  installation : Installation;
  address : Address;
  paymentHistory : list Payment;
  metadata : Metadata
}.

(** A document in memory: its fields, whether it was never saved, and the
    paths assigned since it was loaded or last saved. *)
Record Doc := {
  fields : t;
  isNew : bool;
  modifiedPaths : list string
}.

Definition isModified (path : string) (d : Doc) : bool :=
  existsb (String.eqb path) (modifiedPaths d).

(** The document [findById] returns. *)
Definition loaded (s : t) : Doc :=
  {| fields := s; isNew := false; modifiedPaths := [] |}.

(** *** Field assignments *)

Definition with_status (v : Status) (s : t) : t :=
  {| userId := userId s; services := services s; planName := planName s;
     pricing := pricing s; billingCycle := billingCycle s; status := v;
     paymentStatus := paymentStatus s; dates := dates s;
     installation := installation s; address := address s;
     paymentHistory := paymentHistory s; metadata := metadata s |}.

Definition with_paymentStatus (v : PaymentStatus) (s : t) : t :=
  {| userId := userId s; services := services s; planName := planName s;
     pricing := pricing s; billingCycle := billingCycle s; status := status s;
     paymentStatus := v; dates := dates s;
     installation := installation s; address := address s;
     paymentHistory := paymentHistory s; metadata := metadata s |}.

Definition with_dates (v : Dates) (s : t) : t :=
  {| userId := userId s; services := services s; planName := planName s;
     pricing := pricing s; billingCycle := billingCycle s; status := status s;
     paymentStatus := paymentStatus s; dates := v;
     installation := installation s; address := address s;
     paymentHistory := paymentHistory s; metadata := metadata s |}.

Definition with_paymentHistory (v : list Payment) (s : t) : t :=
  {| userId := userId s; services := services s; planName := planName s;
     pricing := pricing s; billingCycle := billingCycle s; status := status s;
     paymentStatus := paymentStatus s; dates := dates s;
     installation := installation s; address := address s;
     paymentHistory := v; metadata := metadata s |}.

Definition with_metadata (v : Metadata) (s : t) : t :=
  {| userId := userId s; services := services s; planName := planName s;
     pricing := pricing s; billingCycle := billingCycle s; status := status s;
     paymentStatus := paymentStatus s; dates := dates s;
     installation := installation s; address := address s;
     paymentHistory := paymentHistory s; metadata := v |}.

Definition with_nextBillingDate (v : option JSDate.Date) (d : Dates) : Dates :=
  {| startDate := startDate d; endDate := endDate d; nextBillingDate := v;
     lastPaymentDate := lastPaymentDate d; cancelledDate := cancelledDate d;
     pausedDate := pausedDate d |}.

Definition with_lastPaymentDate (v : option JSDate.Date) (d : Dates) : Dates :=
  {| startDate := startDate d; endDate := endDate d;
     nextBillingDate := nextBillingDate d; lastPaymentDate := v;
     cancelledDate := cancelledDate d; pausedDate := pausedDate d |}.

Definition with_cancelledDate (v : option JSDate.Date) (d : Dates) : Dates :=
  {| startDate := startDate d; endDate := endDate d;
     nextBillingDate := nextBillingDate d;
     lastPaymentDate := lastPaymentDate d; cancelledDate := v;
     pausedDate := pausedDate d |}.

Definition with_pausedDate (v : option JSDate.Date) (d : Dates) : Dates :=
  {| startDate := startDate d; endDate := endDate d;
     nextBillingDate := nextBillingDate d;
     lastPaymentDate := lastPaymentDate d; cancelledDate := cancelledDate d;
     pausedDate := v |}.

Definition with_notes (v : option string) (m : Metadata) : Metadata :=
  {| source := source m; notes := v |}.

(** [this.<path> = ...] on a document: the field changes and the path is
    marked modified. *)
Definition assign (path : string) (f : t -> t) (d : Doc) : Doc :=
  {| fields := f (fields d); isNew := isNew d;
     modifiedPaths := path :: modifiedPaths d |}.

(** *** [subscriptionSchema.pre('save')] *)

Definition nextBilling (tza : Z) (start : JSDate.Date)
    (cycle : Service.BillingCycle) : option JSDate.Date :=
  match cycle with
  | Service.monthly =>
      Some (JSDate.setMonth tza start (JSDate.getMonth tza start + 1))
  | Service.quarterly =>
      Some (JSDate.setMonth tza start (JSDate.getMonth tza start + 3))
  | Service.yearly =>
      Some (JSDate.setFullYear tza start (JSDate.getFullYear tza start + 1))
  | Service.one_time => None
  end.

Definition preSave (env : Platform.Env) (d : Doc) : t :=
  if isNew d || isModified "dates.startDate" d || isModified "billingCycle" d
  then
    let start := default (Platform.now env) (startDate (dates (fields d))) in
    with_dates
      (with_nextBillingDate
         (nextBilling (Platform.tza env) start (billingCycle (fields d)))
         (dates (fields d)))
      (fields d)
  else fields d.

(** [this.save()] once validation has passed: the hook runs, the document is
    written, and it is no longer new nor modified. *)
Definition save (env : Platform.Env) (d : Doc) : Doc :=
  {| fields := preSave env d; isNew := false; modifiedPaths := [] |}.

(** *** Instance methods *)

Definition appendNote (label reason : string) (prior : option string) : string :=
  if JS.truthyStr prior
  then default "" prior +:+ JS.newline +:+ label +:+ reason
  else label +:+ reason.

(** [subscriptionSchema.methods.cancel] *)
Definition cancel (env : Platform.Env) (reason : string) (d : Doc) : Doc :=
  let d := assign "status" (with_status cancelled) d in
  let d := assign "dates.cancelledDate"
             (fun s => with_dates
                (with_cancelledDate (Some (Platform.now env)) (dates s)) s) d in
  let d := assign "metadata.notes"
             (fun s => with_metadata
                (with_notes
                   (Some (appendNote "Cancelled: " reason (notes (metadata s))))
                   (metadata s)) s) d in
  save env d.

(** [subscriptionSchema.methods.pause] *)
Definition pause (env : Platform.Env) (reason : string) (d : Doc) : Doc :=
  let d := assign "status" (with_status paused) d in
  let d := assign "dates.pausedDate"
             (fun s => with_dates
                (with_pausedDate (Some (Platform.now env)) (dates s)) s) d in
  let d := assign "metadata.notes"
             (fun s => with_metadata
                (with_notes
                   (Some (appendNote "Paused: " reason (notes (metadata s))))
                   (metadata s)) s) d in
  save env d.

(** [subscriptionSchema.methods.resume] *)
Definition resume (env : Platform.Env) (d : Doc) : Doc :=
  let d := assign "status" (with_status active) d in
  let d := assign "dates.pausedDate"
             (fun s => with_dates (with_pausedDate None (dates s)) s) d in
  save env d.

(** The sub-document [paymentHistory.push] stores: the schema defaults fill
    the properties the argument lacks. *)
Definition castPayment (env : Platform.Env) (p : PaymentData) : Payment :=
  {| amount := data_amount p;
     paymentCurrency := default "INR" (data_currency p);
     paymentMethod := data_paymentMethod p;
     transactionId := data_transactionId p;
     outcome := default outcome_pending (data_status p);
     paidAt := default (Platform.now env) (data_paidAt p);
     paymentNotes := data_notes p |}.

(** [subscriptionSchema.methods.addPayment] *)
Definition addPayment (env : Platform.Env) (paymentData : PaymentData)
    (d : Doc) : Doc :=
  let d := assign "paymentHistory"
             (fun s => with_paymentHistory
                (paymentHistory s ++ [castPayment env paymentData]) s) d in
  let d :=
    if bool_decide (data_status paymentData = Some success) then
      let d := assign "paymentStatus" (with_paymentStatus paid) d in
      assign "dates.lastPaymentDate"
        (fun s => with_dates
           (with_lastPaymentDate
              (Some (default (Platform.now env) (data_paidAt paymentData)))
              (dates s)) s) d
    else d in
  save env d.

(** [subscriptionSchema.virtual('totalPaid')] *)
Definition totalPaid (s : t) : Qc :=
  foldl (fun acc p => (acc + amount p)%Qc) 0%Qc
    (filter (fun p => outcome p = success) (paymentHistory s)).

(** *** Schema validation of a new document

    The validators of the schema that can still fail for a document built by
    the creation route: [maxlength] of [planName], [min] of the quantities and
    of the pricing, [required] and [match] of the address. *)

Definition validPincode (p : string) : bool :=
  (String.length p =? 6)%nat && JS.all JS.isDigit p.

Definition validate (s : t) : bool :=
  (String.length (default "" (planName s)) <=? 100)%nat
  && forallb (fun li => 1 <=? quantity li) (services s)
  && bool_decide (0 <= subtotal (pricing s))%Qc
  && bool_decide (0 <= taxes (pricing s))%Qc
  && bool_decide (0 <= discounts (pricing s))%Qc
  && bool_decide (0 <= total (pricing s))%Qc
  && negb (String.eqb (street (address s)) "")
  && negb (String.eqb (city (address s)) "")
  && negb (String.eqb (state (address s)) "")
  && validPincode (pincode (address s)).

(** The setters of the schema ([trim]) applied to an address. *)
Definition castAddress (a : Address) : Address :=
  {| street := JS.trim (street a); city := JS.trim (city a);
     state := JS.trim (state a); pincode := JS.trim (pincode a);
     landmark := JS.trim <$> landmark a |}.

End Subscription.

(** ** models/User *)

Module User.

(** Modelled from the spec: the User model is not among the sources; this
    record holds the properties the middleware and the routes read from
    [req.user], its [_id], its [role] and its [isActive] flag. *)
Record t := {
  _id : string;
  role : string;
  isActive : bool
}.

End User.

(** ** The document store and the replies of the routes *)

Module Store.

Record t := {
  subscriptions : gmap string Subscription.t;
  services : gmap string Service.t
}.

Definition with_subscriptions (m : gmap string Subscription.t) (st : t) : t :=
  {| subscriptions := m; services := services st |}.

Definition with_services (m : gmap string Service.t) (st : t) : t :=
  {| subscriptions := subscriptions st; services := m |}.

End Store.

Module Http.

(** One constructor per [res.status(...).json(...)] of the modelled
    middleware and routes, with the values its message interpolates. *)
Inductive Reply :=
  | Unauthorized            (* 401, from [authenticate] or a missing [req.user] *)
  | Forbidden               (* 403 *)
  | LimitExceeded (activeSubscriptions : nat)
                            (* 400 'You cannot subscribe to more than 5 services...' *)
  | ValidationFailed        (* 400 'Validation failed' *)
  | ServicesUnavailable     (* 400 'One or more services are not available' *)
  | QuantityExceeded (maxQuantityPerUser : Z) (serviceName : string)
                            (* 400 'Maximum ... quantity allowed for ...' *)
  | ServiceNotAvailable (serviceName : string)
                            (* 400 '... is currently not available' *)
  | QuoteRequired (maxOnlineOrderValue : Qc)
                            (* 400 'Silver service orders above ... require a quote' *)
  | InvalidId               (* 400, CastError *)
  | NotFound                (* 404 *)
  | AlreadyClosed           (* 400 'Subscription is already cancelled or expired' *)
  | OnlyActiveCanPause      (* 400 'Only active subscriptions can be paused' *)
  | OnlyPausedCanResume     (* 400 'Only paused subscriptions can be resumed' *)
  | ServerError             (* 500 *)
  | Created (subscription : Subscription.t)   (* 201 *)
  | Ok (subscription : Subscription.t).       (* 200 *)

(** A route: from the store before the request to the reply and the store
    after it. *)
Definition Handler : Type := Store.t -> Reply * Store.t.

(** [return res.status(...).json(...)]: reply, the store as it is. *)
Definition reject (r : Reply) : Handler := fun st => (r, st).

End Http.

(** ** middleware/auth.js *)

Module Auth.

(** [authenticate].  [resolved] is the user the bearer token decodes to and
    [User.findById] finds, if any; the reply is the same 401 for a missing
    token, an invalid one and an unknown user. *)
Definition authenticate (resolved : option User.t) : Http.Reply + User.t :=
  match resolved with
  | None => inl Http.Unauthorized
  | Some user =>
      if negb (User.isActive user) then inl Http.Unauthorized else inr user
  end.

(** [requireAdmin] *)
Definition requireAdmin (user : option User.t) : option Http.Reply :=
  match user with
  | None => Some Http.Unauthorized
  | Some u =>
      if negb (String.eqb (User.role u) "admin") then Some Http.Forbidden
      else None
  end.

(** [requireCustomerOrAdmin] *)
Definition requireCustomerOrAdmin (user : option User.t) : option Http.Reply :=
  match user with
  | None => Some Http.Unauthorized
  | Some u =>
      if negb (existsb (String.eqb (User.role u)) ["customer"; "admin"])
      then Some Http.Forbidden
      else None
  end.

(** [Subscription.countDocuments({ userId, status: 'active' })] *)
Definition countActive (st : Store.t) (uid : string) : nat :=
  size (filter (fun kv : string * Subscription.t =>
                  Subscription.userId kv.2 = uid
                  /\ Subscription.status kv.2 = Subscription.active)
               (Store.subscriptions st)).

(** [validateSubscriptionLimits]; [requested] is
    [(req.body.services || []).length]. *)
Definition validateSubscriptionLimits (st : Store.t) (user : option User.t)
    (requested : nat) : option Http.Reply :=
  match user with
  | None => Some Http.Unauthorized
  | Some u =>
      let activeSubscriptions := countActive st (User._id u) in
      let totalServices := (activeSubscriptions + requested)%nat in
      if (5 <? totalServices)%nat
      then Some (Http.LimitExceeded activeSubscriptions)
      else None
  end.

End Auth.

(** ** routes/subscriptions *)

Module Routes.

(** An element of [req.body.services]. *)
Record RequestedService := {
  serviceId : string;
  quantity : option Z;
  customizations : option (gmap string string)
}.

(** [req.body] of [POST /api/subscriptions].  A missing [services] is the
    empty list and a missing address property the empty string: the
    validators treat them alike. *)
Record Body := {
  services : list RequestedService;
  planName : option string;
  address : Subscription.Address;
  billingCycle : option string
}.

Record CreateRequest := {
  bearer : option User.t;
  body : Body
}.

(** *** The validation chain of [POST /] *)

Definition isMongoId (s : string) : bool :=
  (String.length s =? 24)%nat && JS.all JS.isHexDigit s.

(** [validationResult(req).isEmpty()] *)
Definition validBody (b : Body) : bool :=
  (1 <=? length (services b))%nat
  && forallb (fun rs => isMongoId (serviceId rs)) (services b)
  && forallb (fun rs => match quantity rs with
                        | Some q => 1 <=? q
                        | None => true
                        end) (services b)
  && match planName b with
     | Some p => (String.length (JS.trim p) <=? 100)%nat
     | None => true
     end
  && negb (String.eqb (Subscription.street (address b)) "")
  && negb (String.eqb (Subscription.city (address b)) "")
  && negb (String.eqb (Subscription.state (address b)) "")
  && Subscription.validPincode (Subscription.pincode (address b)).

(** [req.body] after the sanitizers of the chain ([trim]). *)
Definition sanitize (b : Body) : Body :=
  {| services := services b;
     planName := JS.trim <$> planName b;
     address :=
       {| Subscription.street := JS.trim (Subscription.street (address b));
          Subscription.city := JS.trim (Subscription.city (address b));
          Subscription.state := JS.trim (Subscription.state (address b));
          Subscription.pincode := Subscription.pincode (address b);
          Subscription.landmark := Subscription.landmark (address b) |};
     billingCycle := billingCycle b |}.

(** The [enum] of [billingCycle]. *)
Definition parseBillingCycle (s : string) : option Service.BillingCycle :=
  if String.eqb s "one-time" then Some Service.one_time
  else if String.eqb s "monthly" then Some Service.monthly
  else if String.eqb s "quarterly" then Some Service.quarterly
  else if String.eqb s "yearly" then Some Service.yearly
  else None.

(** *** The body of [POST /] *)

(** [Service.find({ _id: { $in: serviceIds }, 'availability.isActive': true })] *)
Definition findActive (st : Store.t) (serviceIds : list string)
    : gmap string Service.t :=
  filter (fun kv : string * Service.t =>
            kv.1 ∈ serviceIds
            /\ Service.isActive (Service.availability kv.2) = true)
         (Store.services st).

(** [requestedService.quantity > n]; with [quantity] undefined the
    comparison is false. *)
Definition quantityAbove (q : option Z) (n : Z) : bool :=
  match q with
  | Some q => n <? q
  | None => false
  end.

(** [service.price.amount * requestedService.quantity > limit]; with
    [quantity] undefined the product is NaN and the comparison is false. *)
Definition orderValueAbove (amount : Qc) (q : option Z) (limit : Qc) : bool :=
  match q with
  | Some q => bool_decide (limit < amount * JS.ofZ q)%Qc
  | None => false
  end.

(** The checks the first loop makes on one requested service. *)
Definition checkService (requestedService : RequestedService)
    (service : Service.t) : option Http.Reply :=
  if quantityAbove (quantity requestedService)
       (Service.maxQuantityPerUser (Service.constraints service))
  then Some (Http.QuantityExceeded
               (Service.maxQuantityPerUser (Service.constraints service))
               (Service.name service))
  else if JS.truthyZ (Service.maxSubscriptions (Service.availability service))
          && (default 0 (Service.maxSubscriptions (Service.availability service))
                <=? Service.currentSubscriptions (Service.availability service))
  then Some (Http.ServiceNotAvailable (Service.name service))
  else if bool_decide (Service.category service = Service.Silver)
          && JS.truthyQc (Service.maxOnlineOrderValue (Service.constraints service))
  then
    if orderValueAbove (Service.amount (Service.price service))
         (quantity requestedService)
         (default 0%Qc (Service.maxOnlineOrderValue (Service.constraints service)))
    then Some (Http.QuoteRequired
                 (default 0%Qc
                    (Service.maxOnlineOrderValue (Service.constraints service))))
    else None
  else None.

(** The first loop over [services]: the reply it returns, if it returns.
    [foundServices.find] yields undefined for an id that was not found; the
    property access then throws and the route answers 500. *)
Fixpoint checkServices (foundServices : gmap string Service.t)
    (services : list RequestedService) : option Http.Reply :=
  match services with
  | [] => None
  | requestedService :: rest =>
      match foundServices !! serviceId requestedService with
      | None => Some Http.ServerError
      | Some service =>
          match checkService requestedService service with
          | Some reply => Some reply
          | None => checkServices foundServices rest
          end
      end
  end.

(** [requestedService.quantity || 1] *)
Definition quantityOrOne (q : option Z) : Z :=
  match q with
  | Some q => if q =? 0 then 1 else q
  | None => 1
  end.

(** The second loop: [subtotal] and [subscriptionServices], accumulated in
    the order of the request from [(subtotal, items)]. *)
Fixpoint priceServices (foundServices : gmap string Service.t)
    (services : list RequestedService)
    (acc : Qc * list Subscription.LineItem)
    : option (Qc * list Subscription.LineItem) :=
  match services with
  | [] => Some acc
  | requestedService :: rest =>
      match foundServices !! serviceId requestedService with
      | None => None
      | Some service =>
          let quantity := quantityOrOne (quantity requestedService) in
          let serviceTotal := (Service.amount (Service.price service)
                               * JS.ofZ quantity)%Qc in
          priceServices foundServices rest
            ((acc.1 + serviceTotal)%Qc,
             acc.2 ++
             [ {| Subscription.serviceId := serviceId requestedService;
                  Subscription.quantity := quantity;
                  Subscription.customizations :=
                    default ∅ (customizations requestedService);
                  Subscription.priceAtSubscription :=
                    {| Service.amount := Service.amount (Service.price service);
                       Service.currency := Service.currency (Service.price service);
                       Service.billingCycle :=
                         Service.billingCycle (Service.price service) |} |} ])
      end
  end.

(** 18% GST. *)
Definition taxRate : Qc := Q2Qc (18 # 100).

(** [{ subtotal, taxes, total, currency: 'INR' }]; [discounts] takes the
    default of the schema. *)
Definition computePricing (subtotal : Qc) : Subscription.Pricing :=
  let taxes := JS.Math_round (subtotal * taxRate)%Qc in
  let total := (subtotal + JS.ofZ taxes)%Qc in
  {| Subscription.subtotal := subtotal;
     Subscription.taxes := JS.ofZ taxes;
     Subscription.discounts := 0%Qc;
     Subscription.total := total;
     Subscription.currency := "INR" |}.

(** [foundServices.some(s => ['Cable', 'Internet'].includes(s.category))] *)
Definition needsInstallation (foundServices : gmap string Service.t) : bool :=
  existsb (fun kv : string * Service.t =>
             match Service.category kv.2 with
             | Service.Cable | Service.Internet => true
             | _ => false
             end)
          (map_to_list foundServices).

(** [new Subscription({...})]: the properties the route passes, the defaults
    of the schema for the others, strings trimmed by their setters. *)
Definition newSubscription (env : Platform.Env) (user : User.t) (b : Body)
    (cycle : Service.BillingCycle)
    (subscriptionServices : list Subscription.LineItem) (subtotal : Qc)
    (foundServices : gmap string Service.t) : Subscription.Doc :=
  {| Subscription.fields :=
       {| Subscription.userId := User._id user;
          Subscription.services := subscriptionServices;
          Subscription.planName :=
            Some (JS.trim
                    (if JS.truthyStr (planName b) then default "" (planName b)
                     else "Custom Plan - " +:+ Platform.localeDate env));
          Subscription.pricing := computePricing subtotal;
          Subscription.billingCycle := cycle;
          Subscription.status := Subscription.pending;
          Subscription.paymentStatus := Subscription.payment_pending;
          Subscription.dates :=
            {| Subscription.startDate := Some (Platform.now env);
               Subscription.endDate := None;
               Subscription.nextBillingDate := None;
               Subscription.lastPaymentDate := None;
               Subscription.cancelledDate := None;
               Subscription.pausedDate := None |};
          Subscription.installation :=
            {| Subscription.isRequired := needsInstallation foundServices;
               Subscription.scheduledDate := None;
               Subscription.installationStatus := Subscription.not_required |};
          Subscription.address := Subscription.castAddress (address b);
          Subscription.paymentHistory := [];
          Subscription.metadata :=
            {| Subscription.source := Subscription.web;
               Subscription.notes := None |} |};
     Subscription.isNew := true;
     Subscription.modifiedPaths := [] |}.

(** [for (const service of foundServices) await service.incrementSubscriptions()] *)
Definition incrementAll (foundServices : gmap string Service.t)
    (st : Store.t) : Store.t :=
  Store.with_services
    ((Service.incrementSubscriptions <$> foundServices) ∪ Store.services st) st.

(** The [async (req, res)] of [POST /], after the middleware. *)
Definition createHandler (env : Platform.Env) (user : User.t) (b : Body)
    : Http.Handler := fun st =>
  if negb (validBody b) then (Http.ValidationFailed, st) else
  let b := sanitize b in
  let serviceIds := map serviceId (services b) in
  let foundServices := findActive st serviceIds in
  if negb (size foundServices =? length serviceIds)%nat
  then (Http.ServicesUnavailable, st) else
  match checkServices foundServices (services b) with
  | Some reply => (reply, st)
  | None =>
  match priceServices foundServices (services b) (0%Qc, []) with
  | None => (Http.ServerError, st)
  | Some (subtotal, subscriptionServices) =>
  match parseBillingCycle (default "monthly" (billingCycle b)) with
  | None => (Http.ServerError, st)            (* the enum validator throws *)
  | Some cycle =>
  let subscription :=
    newSubscription env user b cycle subscriptionServices subtotal
      foundServices in
  if negb (Subscription.validate (Subscription.fields subscription))
  then (Http.ServerError, st) else
  match Store.subscriptions st !! Platform.freshId env with
  | Some _ => (Http.ServerError, st)          (* duplicate key *)
  | None =>
  let saved := Subscription.save env subscription in
  let st := Store.with_subscriptions
              (<[Platform.freshId env := Subscription.fields saved]>
                 (Store.subscriptions st)) st in
  (Http.Created (Subscription.fields saved), incrementAll foundServices st)
  end end end end.

(** [router.post('/', [authenticate, requireCustomerOrAdmin,
    validateSubscriptionLimits, ...validators], handler)] *)
Definition create (env : Platform.Env) (req : CreateRequest) : Http.Handler :=
  fun st =>
  match Auth.authenticate (bearer req) with
  | inl reply => (reply, st)
  | inr user =>
  match Auth.requireCustomerOrAdmin (Some user) with
  | Some reply => (reply, st)
  | None =>
  match Auth.validateSubscriptionLimits st (Some user)
          (length (services (body req))) with
  | Some reply => (reply, st)
  | None => createHandler env user (body req) st
  end end end.

(** *** [PUT /:id/cancel], [PUT /:id/pause], [PUT /:id/resume] *)

Record LifecycleRequest := {
  lc_bearer : option User.t;
  lc_id : string;                 (* [req.params.id] *)
  lc_reason : option string       (* [req.body.reason] *)
}.

(** The steps the three routes share: the middleware, [findById] (a CastError
    for a malformed id), the 404 and the ownership check.  The continuation
    gets the subscription found. *)
Definition withSubscription (req : LifecycleRequest)
    (k : Subscription.t -> Http.Handler) : Http.Handler := fun st =>
  match Auth.authenticate (lc_bearer req) with
  | inl reply => (reply, st)
  | inr user =>
  match Auth.requireCustomerOrAdmin (Some user) with
  | Some reply => (reply, st)
  | None =>
  if negb (isMongoId (lc_id req)) then (Http.InvalidId, st) else
  match Store.subscriptions st !! lc_id req with
  | None => (Http.NotFound, st)
  | Some subscription =>
      if negb (String.eqb (User.role user) "admin")
         && negb (String.eqb (Subscription.userId subscription) (User._id user))
      then (Http.Forbidden, st)
      else k subscription st
  end end end.

(** The document a method saved, written to the collection. *)
Definition persist (id : string) (d : Subscription.Doc) (st : Store.t) : Store.t :=
  Store.with_subscriptions
    (<[id := Subscription.fields d]> (Store.subscriptions st)) st.

(** One turn of the loop of the cancel route:
    [Service.findById(service.serviceId)], then [decrementSubscriptions()]. *)
Definition decrementOne (st : Store.t) (item : Subscription.LineItem) : Store.t :=
  match Store.services st !! Subscription.serviceId item with
  | Some serviceDoc =>
      Store.with_services
        (<[Subscription.serviceId item :=
             Service.decrementSubscriptions serviceDoc]> (Store.services st)) st
  | None => st
  end.

Definition cancelRoute (env : Platform.Env) (req : LifecycleRequest)
    : Http.Handler :=
  withSubscription req (fun subscription st =>
    if bool_decide (Subscription.status subscription
                      ∈ [Subscription.cancelled; Subscription.expired])
    then (Http.AlreadyClosed, st)
    else
      let reason :=
        default "User requested cancellation" (JS.trim <$> lc_reason req) in
      let saved :=
        Subscription.cancel env reason (Subscription.loaded subscription) in
      let st := persist (lc_id req) saved st in
      (Http.Ok (Subscription.fields saved),
       foldl decrementOne st (Subscription.services (Subscription.fields saved)))).

Definition pauseRoute (env : Platform.Env) (req : LifecycleRequest)
    : Http.Handler :=
  withSubscription req (fun subscription st =>
    if negb (bool_decide (Subscription.status subscription = Subscription.active))
    then (Http.OnlyActiveCanPause, st)
    else
      let reason := default "User requested pause" (JS.trim <$> lc_reason req) in
      let saved :=
        Subscription.pause env reason (Subscription.loaded subscription) in
      (Http.Ok (Subscription.fields saved), persist (lc_id req) saved st)).

Definition resumeRoute (env : Platform.Env) (req : LifecycleRequest)
    : Http.Handler :=
  withSubscription req (fun subscription st =>
    if negb (bool_decide (Subscription.status subscription = Subscription.paused))
    then (Http.OnlyPausedCanResume, st)
    else
      let saved := Subscription.resume env (Subscription.loaded subscription) in
      (Http.Ok (Subscription.fields saved), persist (lc_id req) saved st)).

(** The request passes the middleware of a lifecycle route as [user], names
    the stored subscription [s], and [user] may act on it. *)
Definition serves (st : Store.t) (req : LifecycleRequest) (user : User.t)
    (s : Subscription.t) : Prop :=
  Auth.authenticate (lc_bearer req) = inr user
  /\ Auth.requireCustomerOrAdmin (Some user) = None
  /\ isMongoId (lc_id req) = true
  /\ Store.subscriptions st !! lc_id req = Some s
  /\ (String.eqb (User.role user) "admin"
      || String.eqb (Subscription.userId s) (User._id user)) = true.

(** The request passes the middleware of [POST /] as [user]. *)
Definition reachesHandler (st : Store.t) (req : CreateRequest) (user : User.t)
    : Prop :=
  Auth.authenticate (bearer req) = inr user
  /\ Auth.requireCustomerOrAdmin (Some user) = None
  /\ Auth.validateSubscriptionLimits st (Some user)
       (length (services (body req))) = None.

End Routes.

(** ** routes/admin: [PUT /subscriptions/:id/status] *)

Module Admin.

Record StatusRequest := {
  bearer : option User.t;
  id : string;
  status : Subscription.Status;   (* [req.body.status], past its [isIn] validator *)
  reason : option string
}.

Definition updateStatus (env : Platform.Env) (req : StatusRequest)
    : Http.Handler := fun st =>
  match Auth.authenticate (bearer req) with
  | inl reply => (reply, st)
  | inr user =>
  match Auth.requireAdmin (Some user) with
  | Some reply => (reply, st)
  | None =>
  if negb (match reason req with
           | Some r => (String.length (JS.trim r) <=? 500)%nat
           | None => true
           end)
  then (Http.ValidationFailed, st) else
  let reason := default "Admin action" (JS.trim <$> reason req) in
  if negb (Routes.isMongoId (id req)) then (Http.InvalidId, st) else
  match Store.subscriptions st !! id req with
  | None => (Http.NotFound, st)
  | Some subscription =>
      let doc := Subscription.loaded subscription in
      let saved :=
        match status req with
        | Subscription.cancelled => Subscription.cancel env reason doc
        | Subscription.paused => Subscription.pause env reason doc
        | Subscription.active =>
            if bool_decide (Subscription.status subscription = Subscription.paused)
            then Subscription.resume env doc
            else Subscription.save env
                   (Subscription.assign "status"
                      (Subscription.with_status (status req)) doc)
        | _ => Subscription.save env
                 (Subscription.assign "status"
                    (Subscription.with_status (status req)) doc)
        end in
      (Http.Ok (Subscription.fields saved), Routes.persist (id req) saved st)
  end end end.

End Admin.

(** ** Sequences of requests *)

Module System.

(** The two requests that write [availability.currentSubscriptions]. *)
Inductive Operation :=
  | Create (env : Platform.Env) (req : Routes.CreateRequest)
  | Cancel (env : Platform.Env) (req : Routes.LifecycleRequest).

(** The store after one request, served to completion. *)
Definition step (st : Store.t) (op : Operation) : Store.t :=
  match op with
  | Create env req => (Routes.create env req st).2
  | Cancel env req => (Routes.cancelRoute env req st).2
  end.

Definition run (ops : list Operation) (st : Store.t) : Store.t :=
  foldl step st ops.

End System.

(** ** The order guard, in the words of its description

    These definitions follow the prose description of the guard, not the
    route; they are what the route is compared with. *)

Module Guard.

Inductive Rejection :=
  | ServiceUnavailable
  | QuantityExceedsMaximum
  | CapacityExceeded
  | RequiresManualQuote.

(** The kind of rejection a reply of the creation route stands for. *)
Definition kindOf (r : Http.Reply) : option Rejection :=
  match r with
  | Http.ServicesUnavailable => Some ServiceUnavailable
  | Http.QuantityExceeded _ _ => Some QuantityExceedsMaximum
  | Http.ServiceNotAvailable _ => Some CapacityExceeded
  | Http.QuoteRequired _ => Some RequiresManualQuote
  | _ => None
  end.

(** The categories whose orders may need a manual quote. *)
Definition requiresQuoteCategory (c : Service.Category) : bool :=
  bool_decide (c = Service.Silver).

(** Checks 1 to 4 on one line item, in that order; a limit is "set" when it
    is present. *)
Definition itemAsDescribed (services : gmap string Service.t)
    (id : string) (quantity : Z) : option Rejection :=
  match services !! id with
  | None => Some ServiceUnavailable
  | Some s =>
      if negb (Service.isActive (Service.availability s))
      then Some ServiceUnavailable
      else if Service.maxQuantityPerUser (Service.constraints s) <? quantity
      then Some QuantityExceedsMaximum
      else if match Service.maxSubscriptions (Service.availability s) with
              | Some m => m <=? Service.currentSubscriptions (Service.availability s)
              | None => false
              end
      then Some CapacityExceeded
      else if requiresQuoteCategory (Service.category s)
              && match Service.maxOnlineOrderValue (Service.constraints s) with
                 | Some v => bool_decide
                     (v < Service.amount (Service.price s) * JS.ofZ quantity)%Qc
                 | None => false
                 end
      then Some RequiresManualQuote
      else None
  end.

(** Fail-fast over the line items, in the order of the request. *)
Fixpoint asDescribed (services : gmap string Service.t)
    (items : list (string * Z)) : option Rejection :=
  match items with
  | [] => None
  | (id, quantity) :: rest =>
      match itemAsDescribed services id quantity with
      | Some r => Some r
      | None => asDescribed services rest
      end
  end.

(** Checks 2 to 4 on one line item whose service is known; a limit is in
    force when it is present and not zero. *)
Definition itemInForce (s : Service.t) (quantity : Z) : option Rejection :=
  if Service.maxQuantityPerUser (Service.constraints s) <? quantity
  then Some QuantityExceedsMaximum
  else if match Service.maxSubscriptions (Service.availability s) with
          | Some m => negb (m =? 0)
                      && (m <=? Service.currentSubscriptions (Service.availability s))
          | None => false
          end
  then Some CapacityExceeded
  else if requiresQuoteCategory (Service.category s)
          && match Service.maxOnlineOrderValue (Service.constraints s) with
             | Some v => negb (Qc_eq_bool v 0%Qc)
                         && bool_decide
                              (v < Service.amount (Service.price s) * JS.ofZ quantity)%Qc
             | None => false
             end
  then Some RequiresManualQuote
  else None.

Fixpoint itemsInForce (services : gmap string Service.t)
    (items : list (string * Z)) : option Rejection :=
  match items with
  | [] => None
  | (id, quantity) :: rest =>
      match services !! id with
      | None => None
      | Some s =>
          match itemInForce s quantity with
          | Some r => Some r
          | None => itemsInForce services rest
          end
      end
  end.

Definition available (services : gmap string Service.t) (id : string) : bool :=
  match services !! id with
  | Some s => Service.isActive (Service.availability s)
  | None => false
  end.

(** Check 1 on the whole request first, then checks 2 to 4 item by item. *)
Definition batchFirst (services : gmap string Service.t)
    (items : list (string * Z)) : option Rejection :=
  if negb (forallb (fun it => available services it.1) items)
  then Some ServiceUnavailable
  else itemsInForce services items.

(** The line items of a request, with the quantity each one carries. *)
Definition lineItems (rs : list Routes.RequestedService) : list (string * Z) :=
  map (fun r => (Routes.serviceId r, Routes.quantityOrOne (Routes.quantity r))) rs.

End Guard.

(** ** Pricing, billing cycles and counters, in the words of their description *)

Module Described.

(** The sum of a list of amounts. *)
Definition sumQc (l : list Qc) : Qc := foldr Qcplus 0%Qc l.

(** The unit price of a requested service: the price the store holds for it. *)
Definition unitPrice (st : Store.t) (r : Routes.RequestedService) : Qc :=
  match Store.services st !! Routes.serviceId r with
  | Some s => Service.amount (Service.price s)
  | None => 0%Qc
  end.

(** [unitPrice * quantity] of each line item, a missing quantity being 1. *)
Definition lineTotals (st : Store.t) (rs : list Routes.RequestedService)
    : list Qc :=
  map (fun r => (unitPrice st r
                 * JS.ofZ (Routes.quantityOrOne (Routes.quantity r)))%Qc) rs.

(** [unitPrice * quantity] of each line item of a subscription, the unit
    price being the price recorded with the line item. *)
Definition itemTotals (items : list Subscription.LineItem) : list Qc :=
  map (fun li => (Service.amount (Subscription.priceAtSubscription li)
                  * JS.ofZ (Subscription.quantity li))%Qc) items.

(** The length of a billing cycle in calendar months; a one-time purchase
    has none. *)
Definition cycleMonths (c : Service.BillingCycle) : option Z :=
  match c with
  | Service.monthly => Some 1
  | Service.quarterly => Some 3
  | Service.yearly => Some 12
  | Service.one_time => None
  end.

(** Calendar months since year 0 of the local date of [d]. *)
Definition monthIndex (tza : Z) (d : JSDate.Date) : Z :=
  12 * JSDate.getFullYear tza d + JSDate.getMonth tza d.

(** The counter of a service is not negative. *)
Definition nonNegative (s : Service.t) : bool :=
  0 <=? Service.currentSubscriptions (Service.availability s).

(** The counter does not exceed the cap, whenever a cap is present. *)
Definition withinCap (s : Service.t) : bool :=
  match Service.maxSubscriptions (Service.availability s) with
  | Some m => Service.currentSubscriptions (Service.availability s) <=? m
  | None => true
  end.

(** The counter does not exceed the cap, whenever a cap is present and not
    zero. *)
Definition withinCapInForce (s : Service.t) : bool :=
  match Service.maxSubscriptions (Service.availability s) with
  | Some m => (m =? 0)
              || (Service.currentSubscriptions (Service.availability s) <=? m)
  | None => true
  end.

End Described.

(** ** Sample data *)

Module Fixtures.

Definition fibreId : string := "64b7f0a1c2d3e4f5a6b7c801".
Definition otherId : string := "64b7f0a1c2d3e4f5a6b7c802".
Definition customerId : string := "64b7f0a1c2d3e4f5a6b7c8c1".
Definition subscriptionId : string := "64b7f0a1c2d3e4f5a6b7c8f1".

(** A service priced at [amount] rupees a month. *)
Definition service (category : Service.Category) (amount : Z)
    (maxQuantityPerUser : Z) (maxSubscriptions : option Z)
    (currentSubscriptions : Z) : Service.t :=
  {| Service.name := "Fibre 100";
     Service.category := category;
     Service.price :=
       {| Service.amount := JS.ofZ amount;
          Service.currency := "INR";
          Service.billingCycle := Service.monthly |};
     Service.availability :=
       {| Service.isActive := true;
          Service.maxSubscriptions := maxSubscriptions;
          Service.currentSubscriptions := currentSubscriptions |};
     Service.constraints :=
       {| Service.maxQuantityPerUser := maxQuantityPerUser;
          Service.minSubscriptionPeriod := 1;
          Service.maxOnlineOrderValue := None;
          Service.requiresQuote := false |} |}.

(** 500 rupees a month, at most 5 per user, no cap. *)
Definition fibre : Service.t := service Service.Internet 500 5 None 0.

(** The same service with a cap of 0 and no subscription yet. *)
Definition zeroCap : Service.t := service Service.Internet 500 5 (Some 0) 0.

(** The same service with a cap of 1. *)
Definition capOne : Service.t := service Service.Internet 500 5 (Some 1) 0.

(** At most 3 per user. *)
Definition upToThree : Service.t := service Service.Internet 500 3 None 0.

(** A Silver service at 20000 rupees; online orders stop at 10000. *)
Definition silver : Service.t :=
  {| Service.name := "Silver Care";
     Service.category := Service.Silver;
     Service.price :=
       {| Service.amount := JS.ofZ 20000;
          Service.currency := "INR";
          Service.billingCycle := Service.one_time |};
     Service.availability :=
       {| Service.isActive := true;
          Service.maxSubscriptions := None;
          Service.currentSubscriptions := 0 |};
     Service.constraints :=
       {| Service.maxQuantityPerUser := 1;
          Service.minSubscriptionPeriod := 1;
          Service.maxOnlineOrderValue := Some (JS.ofZ 10000);
          Service.requiresQuote := true |} |}.

Definition administrator : User.t :=
  {| User._id := "64b7f0a1c2d3e4f5a6b7c8ad";
     User.role := "admin";
     User.isActive := true |}.

Definition customer : User.t :=
  {| User._id := customerId; User.role := "customer"; User.isActive := true |}.

Definition home : Subscription.Address :=
  {| Subscription.street := "12 Lake Road";
     Subscription.city := "Chennai";
     Subscription.state := "Tamil Nadu";
     Subscription.pincode := "600001";
     Subscription.landmark := None |}.

(** 2024-01-15T10:00:00Z, on a server whose local time is UTC. *)
Definition morning : Platform.Env :=
  {| Platform.tza := 0;
     Platform.now := 1705312800000;
     Platform.freshId := subscriptionId;
     Platform.localeDate := "1/15/2024" |}.

(** An order of [quantity] units of the service [fibreId]. *)
Definition order (quantity : Z) : Routes.CreateRequest :=
  {| Routes.bearer := Some customer;
     Routes.body :=
       {| Routes.services :=
            [ {| Routes.serviceId := fibreId;
                 Routes.quantity := Some quantity;
                 Routes.customizations := None |} ];
          Routes.planName := None;
          Routes.address := home;
          Routes.billingCycle := None |} |}.

(** An order whose line items are given one by one. *)
Definition orderOf (items : list Routes.RequestedService) : Routes.CreateRequest :=
  {| Routes.bearer := Some customer;
     Routes.body :=
       {| Routes.services := items;
          Routes.planName := None;
          Routes.address := home;
          Routes.billingCycle := None |} |}.

Definition item (id : string) (quantity : option Z) : Routes.RequestedService :=
  {| Routes.serviceId := id;
     Routes.quantity := quantity;
     Routes.customizations := None |}.

(** An order of six services. *)
Definition orderOfSix : Routes.CreateRequest :=
  {| Routes.bearer := Some customer;
     Routes.body :=
       {| Routes.services :=
            replicate 6 {| Routes.serviceId := fibreId;
                           Routes.quantity := Some 1;
                           Routes.customizations := None |};
          Routes.planName := None;
          Routes.address := home;
          Routes.billingCycle := None |} |}.

(** A store that holds one service and no subscription. *)
Definition catalogue (s : Service.t) : Store.t :=
  {| Store.subscriptions := ∅; Store.services := {[ fibreId := s ]} |}.

(** A subscription of the customer to two units of [fibre]. *)
Definition subscription (status : Subscription.Status)
    (cycle : Service.BillingCycle) (notes : option string) : Subscription.t :=
  {| Subscription.userId := customerId;
     Subscription.services :=
       [ {| Subscription.serviceId := fibreId;
            Subscription.quantity := 2;
            Subscription.customizations := ∅;
            Subscription.priceAtSubscription := Service.price fibre |} ];
     Subscription.planName := Some "Home";
     Subscription.pricing := Routes.computePricing (JS.ofZ 1000);
     Subscription.billingCycle := cycle;
     Subscription.status := status;
     Subscription.paymentStatus := Subscription.payment_pending;
     Subscription.dates :=
       {| Subscription.startDate := Some 1705312800000;
          Subscription.endDate := None;
          Subscription.nextBillingDate := None;
          Subscription.lastPaymentDate := None;
          Subscription.cancelledDate := None;
          Subscription.pausedDate := Some 1705312800000 |};
     Subscription.installation :=
       {| Subscription.isRequired := true;
          Subscription.scheduledDate := None;
          Subscription.installationStatus := Subscription.not_required |};
     Subscription.address := home;
     Subscription.paymentHistory := [];
     Subscription.metadata :=
       {| Subscription.source := Subscription.web;
          Subscription.notes := notes |} |}.

(** A store that holds [fibre] and one subscription. *)
Definition account (s : Subscription.t) : Store.t :=
  {| Store.subscriptions := {[ subscriptionId := s ]};
     Store.services := {[ fibreId := fibre ]} |}.

(** A lifecycle request of the customer on that subscription. *)
Definition request (reason : option string) : Routes.LifecycleRequest :=
  {| Routes.lc_bearer := Some customer;
     Routes.lc_id := subscriptionId;
     Routes.lc_reason := reason |}.

End Fixtures.

(** * More of the models and routes *)

(** ** models/Service: the slug of a service *)

Module Slug.

Definition hyphen : Ascii.ascii := Ascii.ascii_of_nat 45.

Definition isHyphen (c : Ascii.ascii) : bool := Ascii.eqb c hyphen.

(** The class [[a-z0-9]]. *)
Definition isSlugChar (c : Ascii.ascii) : bool :=
  let n := Ascii.nat_of_ascii c in
  ((97 <=? n)%nat && (n <=? 122)%nat) || ((48 <=? n)%nat && (n <=? 57)%nat).

(** [toLowerCase] on one code unit: the letters A to Z go to a to z, every
    other code unit stays. *)
Definition toLowerAscii (c : Ascii.ascii) : Ascii.ascii :=
  let n := Ascii.nat_of_ascii c in
  if (65 <=? n)%nat && (n <=? 90)%nat then Ascii.ascii_of_nat (n + 32) else c.

Definition toLowerCase (l : list Ascii.ascii) : list Ascii.ascii :=
  map toLowerAscii l.

(** [replace(/[^a-z0-9]+/g, '-')]: each maximal run of other characters
    becomes one hyphen.  [inRun] tells that the run the next character would
    belong to has its hyphen already. *)
Fixpoint replaceRuns (inRun : bool) (l : list Ascii.ascii) : list Ascii.ascii :=
  match l with
  | [] => []
  | c :: rest =>
      if isSlugChar c then c :: replaceRuns false rest
      else if inRun then replaceRuns true rest
      else hyphen :: replaceRuns true rest
  end.

(** The alternative [^-+] of [replace(/^-+|-+$/g, '')]. *)
Fixpoint dropHyphens (l : list Ascii.ascii) : list Ascii.ascii :=
  match l with
  | c :: rest => if isHyphen c then dropHyphens rest else l
  | [] => []
  end.

(** The alternative [-+$]. *)
Fixpoint dropHyphensEnd (l : list Ascii.ascii) : list Ascii.ascii :=
  match l with
  | [] => []
  | c :: rest =>
      match dropHyphensEnd rest with
      | [] => if isHyphen c then [] else [c]
      | kept => c :: kept
      end
  end.

Definition slugChars (name : list Ascii.ascii) : list Ascii.ascii :=
  dropHyphensEnd (dropHyphens (replaceRuns false (toLowerCase name))).

(** [name.toLowerCase().replace(/[^a-z0-9]+/g, '-').replace(/^-+|-+$/g, '')] *)
Definition slugify (name : string) : string :=
  String.string_of_list_ascii (slugChars (String.list_ascii_of_string name)).

(** [serviceSchema.pre('save')]: the value of [seo.slug] after the hook. *)
Definition preSave (nameModified : bool) (name : string) (slug : option string)
    : option string :=
  if nameModified || negb (JS.truthyStr slug) then Some (slugify name) else slug.

(** A letter or a digit. *)
Definition isAlnum (c : Ascii.ascii) : bool := isSlugChar (toLowerAscii c).

Fixpoint noDoubleHyphen (l : list Ascii.ascii) : bool :=
  match l with
  | c1 :: rest =>
      match rest with
      | c2 :: _ => negb (isHyphen c1 && isHyphen c2) && noDoubleHyphen rest
      | [] => true
      end
  | [] => true
  end.

Definition startsWithHyphen (l : list Ascii.ascii) : bool :=
  match l with
  | c :: _ => isHyphen c
  | [] => false
  end.

Fixpoint endsWithHyphen (l : list Ascii.ascii) : bool :=
  match l with
  | [] => false
  | c :: rest =>
      match rest with
      | [] => isHyphen c
      | _ :: _ => endsWithHyphen rest
      end
  end.

(** Lower-case letters, digits and single hyphens between them. *)
Definition wellFormed (l : list Ascii.ascii) : bool :=
  forallb (fun c => isSlugChar c || isHyphen c) l
  && negb (startsWithHyphen l)
  && negb (endsWithHyphen l)
  && noDoubleHyphen l.

End Slug.

(** ** models/Subscription: virtuals and statics *)

Module Virtuals.

(** [Math.ceil(ms / (1000 * 60 * 60 * 24))] for a difference of time values. *)
Definition ceilDays (ms : Z) : Z := - ((- ms) / JSDate.msPerDay).

(** [subscriptionSchema.virtual('durationInDays')]; [createdAt] is the
    timestamp Mongoose keeps for the document. *)
Definition durationInDays (createdAt : JSDate.Date) (s : Subscription.t)
    : option Z :=
  match Subscription.endDate (Subscription.dates s) with
  | None => None
  | Some e =>
      let start := default createdAt
                     (Subscription.startDate (Subscription.dates s)) in
      Some (ceilDays (e - start))
  end.

(** [subscriptionSchema.virtual('daysRemaining')] *)
Definition daysRemaining (now : JSDate.Date) (s : Subscription.t) : option Z :=
  match Subscription.endDate (Subscription.dates s) with
  | None => None
  | Some e =>
      if negb (bool_decide (Subscription.status s = Subscription.active))
      then None
      else
        let diff := ceilDays (e - now) in
        Some (if 0 <? diff then diff else 0)
  end.

End Virtuals.

Module DateMethods.

(** [d.setDate(date)]: the time value [d] holds afterwards. *)
Definition setDate (tza : Z) (d : JSDate.Date) (date : Z) : JSDate.Date :=
  let t := JSDate.LocalTime tza d in
  JSDate.UTC tza
    (JSDate.MakeDate
       (JSDate.MakeDay (JSDate.YearFromTime t) (JSDate.MonthFromTime t) date)
       (JSDate.TimeWithinDay t)).

End DateMethods.

Module Statics.

(** [subscriptionSchema.statics.findActive] *)
Definition findActive (st : Store.t) : gmap string Subscription.t :=
  filter (fun kv : string * Subscription.t =>
            Subscription.status kv.2 = Subscription.active)
         (Store.subscriptions st).

(** [subscriptionSchema.statics.findByUser] *)
Definition findByUser (userId : string) (st : Store.t)
    : gmap string Subscription.t :=
  filter (fun kv : string * Subscription.t => Subscription.userId kv.2 = userId)
         (Store.subscriptions st).

(** [{ status: 'active', 'dates.endDate': { $lte: futureDate, $gte: now } }];
    a document without an end date matches neither bound. *)
Definition expiring (now futureDate : JSDate.Date) (s : Subscription.t) : bool :=
  bool_decide (Subscription.status s = Subscription.active)
  && match Subscription.endDate (Subscription.dates s) with
     | Some e => (e <=? futureDate) && (now <=? e)
     | None => false
     end.

(** [subscriptionSchema.statics.findExpiring]; [days] defaults to 7. *)
Definition findExpiring (env : Platform.Env) (days : option Z) (st : Store.t)
    : gmap string Subscription.t :=
  let days := default 7 days in
  let futureDate :=
    DateMethods.setDate (Platform.tza env) (Platform.now env)
      (JSDate.getDate (Platform.tza env) (Platform.now env) + days) in
  filter (fun kv : string * Subscription.t =>
            expiring (Platform.now env) futureDate kv.2 = true)
         (Store.subscriptions st).

(** [{ status: 'active', 'dates.nextBillingDate': { $lte: now } }] *)
Definition dueForBilling (now : JSDate.Date) (s : Subscription.t) : bool :=
  bool_decide (Subscription.status s = Subscription.active)
  && match Subscription.nextBillingDate (Subscription.dates s) with
     | Some n => n <=? now
     | None => false
     end.

(** [subscriptionSchema.statics.findDueForBilling] *)
Definition findDueForBilling (env : Platform.Env) (st : Store.t)
    : gmap string Subscription.t :=
  filter (fun kv : string * Subscription.t =>
            dueForBilling (Platform.now env) kv.2 = true)
         (Store.subscriptions st).

End Statics.

(** ** Pagination of the list routes

    [GET /api/subscriptions], [GET /api/admin/subscriptions],
    [GET /api/users/:id/subscriptions] and [GET /api/services] compute their
    page the same way.  [docs] is what the query selects, in the order of the
    sort; [page] and [limit] are [parseInt(page)] and [parseInt(limit)]. *)

Module Pagination.

(** [(parseInt(page) - 1) * parseInt(limit)] *)
Definition skip (page limit : Z) : Z := (page - 1) * limit.

(** [find(query).sort(...).skip(skip).limit(parseInt(limit))] *)
Definition pageOf {A : Type} (page limit : Z) (docs : list A) : list A :=
  take (Z.to_nat limit) (drop (Z.to_nat (skip page limit)) docs).

(** [Math.ceil(total / parseInt(limit))] *)
Definition totalPages (total limit : Z) : Z := - ((- total) / limit).

Record Info := {
  currentPage : Z;
  pages : Z;
  total : Z;
  hasNextPage : bool;
  hasPrevPage : bool
}.

(** The [pagination] object of the reply; [total] is
    [countDocuments(query)]. *)
Definition info {A : Type} (page limit : Z) (docs : list A) : Info :=
  let total := Z.of_nat (length docs) in
  let totalPages := totalPages total limit in
  {| currentPage := page;
     pages := totalPages;
     total := total;
     hasNextPage := page <? totalPages;
     hasPrevPage := 1 <? page |}.

(** The pages 1 to [n], one after the other. *)
Definition firstPages {A : Type} (n : nat) (limit : Z) (docs : list A) : list A :=
  concat (map (fun i => pageOf (Z.of_nat i + 1) limit docs) (seq 0 n)).

End Pagination.

(** ** routes/services and the admin route that deactivates a service *)

Module ServiceRoutes.

Inductive Reply :=
  | Unauthorized
  | Forbidden
  | InvalidId
  | NotFound
  | ServerError
  | Ok (service : Service.t).

(** [optionalAuth]: [req.user] afterwards. *)
Definition optionalAuth (resolved : option User.t) : option User.t :=
  match resolved with
  | Some user => if User.isActive user then Some user else None
  | None => None
  end.

(** The [isAvailable] property [GET /api/services] adds to each service. *)
Definition listedAvailability (s : Service.t) : bool :=
  Service.isActive (Service.availability s)
  && (negb (JS.truthyZ (Service.maxSubscriptions (Service.availability s)))
      || (Service.currentSubscriptions (Service.availability s)
            <? default 0 (Service.maxSubscriptions (Service.availability s)))).

(** [GET /api/services/:id]; a malformed id makes [findById] throw, and the
    route answers 500. *)
Definition getById (resolved : option User.t) (id : string) (st : Store.t)
    : Reply :=
  let user := optionalAuth resolved in
  if negb (Routes.isMongoId id) then ServerError else
  match Store.services st !! id with
  | None => NotFound
  | Some service =>
      if negb (Service.isActive (Service.availability service))
         && match user with
            | None => true
            | Some u => negb (String.eqb (User.role u) "admin")
            end
      then NotFound
      else Ok service
  end.

Definition setActive (b : bool) (s : Service.t) : Service.t :=
  {| Service.name := Service.name s;
     Service.category := Service.category s;
     Service.price := Service.price s;
     Service.availability :=
       {| Service.isActive := b;
          Service.maxSubscriptions :=
            Service.maxSubscriptions (Service.availability s);
          Service.currentSubscriptions :=
            Service.currentSubscriptions (Service.availability s) |};
     Service.constraints := Service.constraints s |}.

(** [DELETE /api/admin/services/:id]:
    [findByIdAndUpdate(id, { 'availability.isActive': false, ... })]. *)
Definition deactivate (resolved : option User.t) (id : string) (st : Store.t)
    : Reply * Store.t :=
  match Auth.authenticate resolved with
  | inl _ => (Unauthorized, st)
  | inr user =>
  match Auth.requireAdmin (Some user) with
  | Some Http.Forbidden => (Forbidden, st)
  | Some _ => (Unauthorized, st)
  | None =>
  if negb (Routes.isMongoId id) then (InvalidId, st) else
  match Store.services st !! id with
  | None => (NotFound, st)
  | Some service =>
      (Ok (setActive false service),
       Store.with_services
         (<[id := setActive false service]> (Store.services st)) st)
  end end end.

End ServiceRoutes.

(** ** What a request leaves alone *)

Module Frame.

(** What the lifecycle methods leave alone: the owner, the line items, the
    amounts, the billing and payment data, the address and every date but
    [cancelledDate] and [pausedDate]. *)
Definition sameOrder (s s' : Subscription.t) : Prop :=
  Subscription.userId s' = Subscription.userId s
  /\ Subscription.services s' = Subscription.services s
  /\ Subscription.planName s' = Subscription.planName s
  /\ Subscription.pricing s' = Subscription.pricing s
  /\ Subscription.billingCycle s' = Subscription.billingCycle s
  /\ Subscription.paymentStatus s' = Subscription.paymentStatus s
  /\ Subscription.paymentHistory s' = Subscription.paymentHistory s
  /\ Subscription.installation s' = Subscription.installation s
  /\ Subscription.address s' = Subscription.address s
  /\ Subscription.startDate (Subscription.dates s')
     = Subscription.startDate (Subscription.dates s)
  /\ Subscription.endDate (Subscription.dates s')
     = Subscription.endDate (Subscription.dates s)
  /\ Subscription.nextBillingDate (Subscription.dates s')
     = Subscription.nextBillingDate (Subscription.dates s)
  /\ Subscription.lastPaymentDate (Subscription.dates s')
     = Subscription.lastPaymentDate (Subscription.dates s).

(** A lifecycle route that answers 200 has rewritten the subscription it
    names, leaving its order as it was, and no other subscription. *)
Definition touchesOne (req : Routes.LifecycleRequest) (h : Http.Handler)
    (st : Store.t) : Prop :=
  forall s' st', h st = (Http.Ok s', st') ->
    exists s, Store.subscriptions st !! Routes.lc_id req = Some s
      /\ sameOrder s s'
      /\ Store.subscriptions st'
         = <[Routes.lc_id req := s']> (Store.subscriptions st).

End Frame.

(** ** More sample data *)

Module Samples.

(** The subscription of the fixtures, active, ending three days after
    2024-01-15T10:00:00Z. *)
Definition expiringSoon : Subscription.t :=
  Subscription.with_dates
    {| Subscription.startDate := Some 1705312800000;
       Subscription.endDate := Some 1705572000000;
       Subscription.nextBillingDate := None;
       Subscription.lastPaymentDate := None;
       Subscription.cancelledDate := None;
       Subscription.pausedDate := None |}
    (Fixtures.subscription Subscription.active Service.monthly None).

(** A document that has not been saved yet. *)
Definition unsaved (status : Subscription.Status)
    (cycle : Service.BillingCycle) : Subscription.Doc :=
  {| Subscription.fields := Fixtures.subscription status cycle None;
     Subscription.isNew := true;
     Subscription.modifiedPaths := [] |}.

(** The administrator sets the status of the stored subscription. *)
Definition override (status : Subscription.Status) : Admin.StatusRequest :=
  {| Admin.bearer := Some Fixtures.administrator;
     Admin.id := Fixtures.subscriptionId;
     Admin.status := status;
     Admin.reason := None |}.

(** Five documents, in the order of the sort. *)
Definition fiveDocs : list Z := [1; 2; 3; 4; 5].

End Samples.

(** * Properties *)

(** ** Calendar arithmetic *)

Module DateFacts.
Import JSDate.

Ltac split_tests :=
  repeat match goal with
  | |- context [?a =? ?b] => destruct (Z.eqb_spec a b)
  | |- context [?a <? ?b] => destruct (Z.ltb_spec a b)
  | |- context [?a <=? ?b] => destruct (Z.leb_spec a b)
  end; simpl.

Ltac arith := Z.div_mod_to_equations; lia.

Lemma DayFromYear_succ y : DayFromYear (y + 1) = DayFromYear y + DaysInYear y.
Proof. unfold DayFromYear, DaysInYear. split_tests; arith. Qed.

Lemma DayFromYear_mono a b : a <= b -> DayFromYear a <= DayFromYear b.
Proof. unfold DayFromYear. intros. arith. Qed.

(** [YearFromDay] is the year ECMA-262 defines: the largest one that starts
    on or before the day. *)
Lemma YearFromDay_bounds d :
  DayFromYear (YearFromDay d) <= d < DayFromYear (YearFromDay d + 1).
Proof.
  unfold YearFromDay. cbv zeta.
  split_tests; unfold DayFromYear in *; arith.
Qed.

Lemma YearFromDay_unique y d :
  DayFromYear y <= d < DayFromYear (y + 1) -> YearFromDay d = y.
Proof.
  intros Hy. pose proof (YearFromDay_bounds d) as Hd.
  destruct (Z.lt_trichotomy (YearFromDay d) y) as [Hlt | [Heq | Hgt]]; [| done |].
  - pose proof (DayFromYear_mono (YearFromDay d + 1) y ltac:(lia)). lia.
  - pose proof (DayFromYear_mono (y + 1) (YearFromDay d) ltac:(lia)). lia.
Qed.

Lemma DaysInYear_cases y : DaysInYear y = 365 \/ DaysInYear y = 366.
Proof. unfold DaysInYear. split_tests; auto. Qed.

Lemma Day_MakeDate day time :
  0 <= time < msPerDay -> Day (MakeDate day time) = day.
Proof. unfold Day, MakeDate, msPerDay. intros. arith. Qed.

Lemma TimeWithinDay_MakeDate day time :
  0 <= time < msPerDay -> TimeWithinDay (MakeDate day time) = time.
Proof. unfold TimeWithinDay, MakeDate, msPerDay. intros. arith. Qed.

Lemma TimeWithinDay_range t : 0 <= TimeWithinDay t < msPerDay.
Proof. unfold TimeWithinDay, msPerDay. arith. Qed.

Lemma DayWithinYear_range t : 0 <= DayWithinYear t < DaysInYear (YearFromTime t).
Proof.
  unfold DayWithinYear, YearFromTime.
  pose proof (YearFromDay_bounds (Day t)) as H.
  rewrite DayFromYear_succ in H. lia.
Qed.

Lemma MonthFromTime_range t : 0 <= MonthFromTime t <= 11.
Proof. unfold MonthFromTime. cbv zeta. split_tests; lia. Qed.

Lemma DateFromTime_pos t : 1 <= DateFromTime t.
Proof.
  pose proof (DayWithinYear_range t) as Hw.
  unfold DateFromTime, MonthFromTime, InLeapYear in *. cbv zeta.
  destruct (DaysInYear_cases (YearFromTime t)) as [-> | ->]; simpl;
    repeat match goal with
    | |- context [?a <? ?b] => destruct (Z.ltb_spec a b)
    end; unfold monthStart; simpl; lia.
Qed.

(** The calendar fields of the time value made from a year, a month (which
    may overflow into the next years) and a day that every month has. *)
Lemma civil_MakeDate year month date time :
  1 <= date <= 28 -> 0 <= time < msPerDay ->
  let t := MakeDate (MakeDay year month date) time in
  YearFromTime t = year + month / 12
  /\ MonthFromTime t = month mod 12
  /\ DateFromTime t = date
  /\ TimeWithinDay t = time.
Proof.
  intros Hd Ht t.
  assert (Hday : Day t = MakeDay year month date) by (by apply Day_MakeDate).
  assert (Hm : 0 <= month mod 12 < 12) by (apply Z.mod_pos_bound; lia).
  set (ym := year + month / 12) in *.
  assert (Hy : YearFromTime t = ym).
  { unfold YearFromTime. rewrite Hday. apply YearFromDay_unique.
    rewrite DayFromYear_succ. unfold MakeDay. fold ym.
    destruct (DaysInYear_cases ym) as [-> | ->]; simpl;
      unfold monthStart; split_tests; lia. }
  assert (Hw : DayWithinYear t
               = monthStart (month mod 12) (if DaysInYear ym =? 366 then 1 else 0)
                 + date - 1).
  { unfold DayWithinYear. rewrite Hy, Hday. unfold MakeDay. fold ym. lia. }
  assert (Hl : InLeapYear t = if DaysInYear ym =? 366 then 1 else 0).
  { unfold InLeapYear. by rewrite Hy. }
  assert (Hmo : MonthFromTime t = month mod 12).
  { unfold MonthFromTime. rewrite Hw, Hl. cbv zeta.
    destruct (DaysInYear_cases ym) as [-> | ->]; simpl;
      unfold monthStart; split_tests; lia. }
  repeat split; [done | done | | by apply TimeWithinDay_MakeDate].
  unfold DateFromTime. rewrite Hmo, Hw, Hl. lia.
Qed.

(** [setMonth] on a day of the month that every month has: the month moves,
    carrying into the year; the day and the time of day stay. *)
Lemma setMonth_fields tza d month :
  getDate tza d <= 28 ->
  let d' := setMonth tza d month in
  getFullYear tza d' = getFullYear tza d + month / 12
  /\ getMonth tza d' = month mod 12
  /\ getDate tza d' = getDate tza d
  /\ TimeWithinDay (LocalTime tza d') = TimeWithinDay (LocalTime tza d).
Proof.
  intros Hd d'. unfold getFullYear, getMonth, getDate in *.
  assert (Hl : LocalTime tza d'
               = MakeDate (MakeDay (YearFromTime (LocalTime tza d)) month
                                   (DateFromTime (LocalTime tza d)))
                          (TimeWithinDay (LocalTime tza d))).
  { subst d'. unfold setMonth, LocalTime, UTC. lia. }
  rewrite Hl. apply civil_MakeDate.
  - pose proof (DateFromTime_pos (LocalTime tza d)). lia.
  - apply TimeWithinDay_range.
Qed.

(** [setFullYear] on a day of the month that every month has. *)
Lemma setFullYear_fields tza d year :
  getDate tza d <= 28 ->
  let d' := setFullYear tza d year in
  getFullYear tza d' = year
  /\ getMonth tza d' = getMonth tza d
  /\ getDate tza d' = getDate tza d
  /\ TimeWithinDay (LocalTime tza d') = TimeWithinDay (LocalTime tza d).
Proof.
  intros Hd d'. unfold getFullYear, getMonth, getDate in *.
  assert (Hl : LocalTime tza d'
               = MakeDate (MakeDay year (MonthFromTime (LocalTime tza d))
                                   (DateFromTime (LocalTime tza d)))
                          (TimeWithinDay (LocalTime tza d))).
  { subst d'. unfold setFullYear, LocalTime, UTC. lia. }
  pose proof (MonthFromTime_range (LocalTime tza d)) as Hm.
  pose proof (DateFromTime_pos (LocalTime tza d)) as Hp.
  pose proof (TimeWithinDay_range (LocalTime tza d)) as Ht.
  destruct (civil_MakeDate year (MonthFromTime (LocalTime tza d))
              (DateFromTime (LocalTime tza d))
              (TimeWithinDay (LocalTime tza d)) ltac:(lia) Ht)
    as (Hy & Hmo & Hda & Hti).
  rewrite Hl, Hy, Hmo, Hda, Hti.
  rewrite Z.div_small, Z.mod_small by lia.
  repeat split; lia.
Qed.

End DateFacts.

(** ** Rounding *)

Module NumberFacts.

Ltac to_Q :=
  unfold Qcle, Qclt, Qcminus, Qcplus, Qcopp, Qcmult, JS.ofZ, Q2Qc in *;
  cbn [this] in *; rewrite ?Qred_correct in *.

(** [Math.round] returns the integer within one half of its argument, the
    half itself going up. *)
Lemma Math_round_half_up (x : Qc) :
  (JS.ofZ (JS.Math_round x) - Q2Qc (1 # 2) <= x)%Qc
  /\ (x < JS.ofZ (JS.Math_round x) + Q2Qc (1 # 2))%Qc.
Proof.
  unfold JS.Math_round.
  pose proof (Qfloor_le (x + Q2Qc (1 # 2))%Qc) as Hle.
  pose proof (Qlt_floor (x + Q2Qc (1 # 2))%Qc) as Hlt.
  rewrite inject_Z_plus in Hlt. change (inject_Z 1) with 1%Q in Hlt.
  set (z := Qfloor (x + Q2Qc (1 # 2))%Qc) in *. clearbody z.
  to_Q. split; lra.
Qed.

Lemma Math_round_unique (x : Qc) (t : Z) :
  (JS.ofZ t - Q2Qc (1 # 2) <= x)%Qc -> (x < JS.ofZ t + Q2Qc (1 # 2))%Qc ->
  JS.Math_round x = t.
Proof.
  intros H1 H2. pose proof (Math_round_half_up x) as [H3 H4].
  set (r := JS.Math_round x) in *. clearbody r. to_Q.
  assert (Hrt : (inject_Z r < inject_Z (t + 1))%Q).
  { rewrite inject_Z_plus. change (inject_Z 1) with 1%Q. lra. }
  assert (Htr : (inject_Z t < inject_Z (r + 1))%Q).
  { rewrite inject_Z_plus. change (inject_Z 1) with 1%Q. lra. }
  rewrite <- Zlt_Qlt in Hrt, Htr. lia.
Qed.

End NumberFacts.

(** ** Documents and routes *)

Module LifecycleFacts.
Import Subscription.

(** The hook leaves alone a document that is not new and whose start date
    and billing cycle were not assigned. *)
Lemma preSave_idle env d :
  isNew d = false -> isModified "dates.startDate" d = false ->
  isModified "billingCycle" d = false -> preSave env d = fields d.
Proof. intros H1 H2 H3. unfold preSave. by rewrite H1, H2, H3. Qed.

Lemma cancel_loaded env reason s :
  fields (cancel env reason (loaded s))
  = with_metadata
      (with_notes (Some (appendNote "Cancelled: " reason (notes (metadata s))))
         (metadata s))
      (with_dates (with_cancelledDate (Some (Platform.now env)) (dates s))
         (with_status cancelled s)).
Proof. reflexivity. Qed.

Lemma pause_loaded env reason s :
  fields (pause env reason (loaded s))
  = with_metadata
      (with_notes (Some (appendNote "Paused: " reason (notes (metadata s))))
         (metadata s))
      (with_dates (with_pausedDate (Some (Platform.now env)) (dates s))
         (with_status paused s)).
Proof. reflexivity. Qed.

Lemma resume_loaded env s :
  fields (resume env (loaded s))
  = with_dates (with_pausedDate None (dates s)) (with_status active s).
Proof. reflexivity. Qed.

End LifecycleFacts.

Module RouteFacts.
Import Routes.

Lemma withSubscription_serves st req user s k :
  serves st req user s -> withSubscription req k st = k s st.
Proof.
  intros (Ha & Hr & Hi & Hf & Ho). unfold withSubscription.
  rewrite Ha, Hr, Hi, Hf. simpl.
  destruct (String.eqb (User.role user) "admin"); simpl in *; [done |].
  by rewrite Ho.
Qed.

Lemma decrementOne_subscriptions st item :
  Store.subscriptions (decrementOne st item) = Store.subscriptions st.
Proof. unfold decrementOne. by destruct (Store.services st !! _). Qed.

Lemma foldl_decrementOne_subscriptions items st :
  Store.subscriptions (foldl decrementOne st items) = Store.subscriptions st.
Proof.
  revert st. induction items as [| i items IH]; intros st; simpl; [done |].
  by rewrite IH, decrementOne_subscriptions.
Qed.

End RouteFacts.

(** ** The services a request finds *)

Module FoundFacts.
Import Routes.

Lemma lookup_findActive st ids k s :
  findActive st ids !! k = Some s
  <-> Store.services st !! k = Some s /\ k ∈ ids
      /\ Service.isActive (Service.availability s) = true.
Proof. unfold findActive. rewrite map_lookup_filter_Some. simpl. tauto. Qed.

Lemma size_list_to_set_le (l : list string) :
  (size (list_to_set l : gset string) <= length l)%nat.
Proof.
  induction l as [| x l IH]; cbn [list_to_set length].
  - by rewrite size_empty.
  - rewrite size_union_alt, size_singleton.
    pose proof (subseteq_size (list_to_set l ∖ {[x]}) (list_to_set l : gset string)
                  ltac:(by apply subseteq_difference_l)). lia.
Qed.

Lemma size_list_to_set_NoDup (l : list string) :
  size (list_to_set l : gset string) = length l -> NoDup l.
Proof.
  induction l as [| x l IH]; cbn [list_to_set length]; intros Hsz;
    [constructor |].
  pose proof (size_list_to_set_le l) as Hle.
  destruct (decide (x ∈ l)) as [Hin | Hnin].
  - assert (({[x]} ∪ list_to_set l : gset string) = list_to_set l) as Heq
      by apply subseteq_union_1_L, singleton_subseteq_l, elem_of_list_to_set, Hin.
    rewrite Heq in Hsz. lia.
  - constructor; [done |]. apply IH.
    rewrite size_union in Hsz
      by (apply disjoint_singleton_l; by rewrite elem_of_list_to_set).
    rewrite size_singleton in Hsz. lia.
Qed.

Lemma dom_findActive_subseteq st ids :
  dom (findActive st ids) ⊆ (list_to_set ids : gset string).
Proof.
  intros k [s Hs]%elem_of_dom. apply lookup_findActive in Hs as (_ & Hin & _).
  by apply elem_of_list_to_set.
Qed.

Lemma available_lookup st ids k :
  k ∈ ids ->
  Guard.available (Store.services st) k = true
  <-> is_Some (findActive st ids !! k).
Proof.
  intros Hin. unfold Guard.available. split.
  - destruct (Store.services st !! k) as [s |] eqn:Hk; [| done].
    intros Ha. exists s. by apply lookup_findActive.
  - intros [s (Hk & _ & Ha)%lookup_findActive]. by rewrite Hk.
Qed.

(** The count of the documents found equals the count of the ids asked for
    exactly when the ids are pairwise distinct and each one names an active
    service. *)
Lemma size_findActive st ids :
  size (findActive st ids) = length ids
  <-> NoDup ids
      /\ Forall (fun k => Guard.available (Store.services st) k = true) ids.
Proof.
  pose proof (dom_findActive_subseteq st ids) as Hsub.
  pose proof (size_list_to_set_le ids) as Hle.
  pose proof (subseteq_size _ _ Hsub) as Hsz.
  rewrite size_dom in Hsz. split.
  - intros Heq.
    assert (Hnd : NoDup ids) by (apply size_list_to_set_NoDup; lia).
    split; [done |]. apply list.Forall_forall. intros k Hin.
    apply (available_lookup st ids k Hin), elem_of_dom.
    assert (Hdom : dom (findActive st ids) = list_to_set ids).
    { apply set_subseteq_size_eq; [done |]. rewrite size_dom. lia. }
    rewrite Hdom. by apply elem_of_list_to_set.
  - intros [Hnd Hall].
    rewrite <- (size_list_to_set (C := gset string) ids Hnd), <- size_dom.
    f_equal. apply set_eq. intros k. split; [apply Hsub |].
    intros Hin%elem_of_list_to_set. apply elem_of_dom.
    apply (available_lookup st ids k Hin).
    by apply (proj1 (list.Forall_forall _ _) Hall).
Qed.

End FoundFacts.

(** ** The creation route *)

Module CreateFacts.
Import Routes.

Lemma checkService_kind r s reply :
  checkService r s = Some reply -> is_Some (Guard.kindOf reply).
Proof.
  unfold checkService. intros H.
  repeat case_match; simplify_eq; simpl; eauto.
Qed.

Lemma checkServices_not_Created found rs reply s :
  checkServices found rs = Some reply -> reply <> Http.Created s.
Proof.
  induction rs as [| r rs IH]; simpl; [done |].
  destruct (found !! serviceId r) as [svc |]; [| by intros [= <-]].
  destruct (checkService r svc) as [rep |] eqn:Hc; [| done].
  intros [= <-]. apply checkService_kind in Hc as [k Hk]. by intros ->.
Qed.

(** What the route has done when it answers 201. *)
Lemma createHandler_Created env user b st s st' :
  createHandler env user b st = (Http.Created s, st') ->
  let found := findActive st (map serviceId (services b)) in
  exists subtotal items cycle,
    validBody b = true
    /\ size found = length (services b)
    /\ checkServices found (services b) = None
    /\ priceServices found (services b) (0%Qc, []) = Some (subtotal, items)
    /\ Store.subscriptions st !! Platform.freshId env = None
    /\ s = Subscription.fields
             (Subscription.save env
                (newSubscription env user (sanitize b) cycle items subtotal found))
    /\ st' = incrementAll found
               (Store.with_subscriptions
                  (<[Platform.freshId env := s]> (Store.subscriptions st)) st).
Proof.
  unfold createHandler. cbv zeta. cbn [services sanitize].
  destruct (validBody b) eqn:Hv; cbn [negb]; [| done].
  destruct (_ =? _)%nat eqn:Hsz; cbn [negb]; [| done].
  apply Nat.eqb_eq in Hsz. rewrite length_map in Hsz.
  destruct (checkServices _ _) as [reply |] eqn:Hc.
  { intros [= -> _]. by eapply checkServices_not_Created in Hc. }
  destruct (priceServices _ _ _) as [[subtotal items] |] eqn:Hp; [| done].
  destruct (parseBillingCycle _) as [cycle |]; [| done].
  destruct (Subscription.validate _); cbn [negb]; [| done].
  destruct (Store.subscriptions st !! Platform.freshId env) eqn:Hfresh; [done |].
  intros [= <- <-]. by exists subtotal, items, cycle.
Qed.

(** Any other answer leaves the store as it was. *)
Lemma createHandler_store env user b st :
  (exists s, (createHandler env user b st).1 = Http.Created s)
  \/ (createHandler env user b st).2 = st.
Proof.
  unfold createHandler. cbv zeta.
  repeat match goal with
  | |- context [if ?c then _ else _] => destruct c; [try by right |]
  | |- context [match ?c with Some _ => _ | None => _ end] =>
      destruct c; try (by right)
  | |- context [let '(_, _) := ?p in _] => destruct p
  end; try (by right); try (left; by eexists).
Qed.

Lemma create_reaches env req st user :
  reachesHandler st req user ->
  create env req st = createHandler env user (body req) st.
Proof. intros (Ha & Hr & Hl). unfold create. by rewrite Ha, Hr, Hl. Qed.

Lemma create_store env req st :
  (exists s, (create env req st).1 = Http.Created s) \/ (create env req st).2 = st.
Proof.
  unfold create.
  destruct (Auth.authenticate _) as [| user]; [by right |].
  destruct (Auth.requireCustomerOrAdmin _); [by right |].
  destruct (Auth.validateSubscriptionLimits _ _ _); [by right |].
  apply createHandler_store.
Qed.

Lemma create_Created env req st s st' :
  create env req st = (Http.Created s, st') ->
  exists user, reachesHandler st req user
    /\ createHandler env user (body req) st = (Http.Created s, st').
Proof.
  unfold create, reachesHandler.
  destruct (Auth.authenticate _) as [| user] eqn:Ha.
  { intros [= Hr _]. destruct (bearer req) as [u |]; simpl in Ha;
      [destruct (User.isActive u) |]; simplify_eq. }
  destruct (Auth.requireCustomerOrAdmin _) eqn:Hr.
  { intros [= -> _]. simpl in Hr. by destruct (negb _). }
  destruct (Auth.validateSubscriptionLimits _ _ _) eqn:Hl.
  { intros [= -> _]. simpl in Hl. by destruct (_ <? _)%nat. }
  intros H. by exists user.
Qed.

End CreateFacts.

Module PricingFacts.
Import Routes.

Lemma priceServices_subtotal st ids rs acc subtotal items :
  priceServices (findActive st ids) rs acc = Some (subtotal, items) ->
  subtotal = (acc.1 + Described.sumQc (Described.lineTotals st rs))%Qc.
Proof.
  revert acc. induction rs as [| r rs IH]; intros acc; simpl.
  - intros [= ->]. simpl. ring.
  - destruct (findActive st ids !! serviceId r) as [svc |] eqn:Hf; [| done].
    intros H%IH. rewrite H. cbn [fst].
    apply FoundFacts.lookup_findActive in Hf as (Hs & _).
    unfold Described.unitPrice. rewrite Hs. ring.
Qed.

Lemma sumQc_app l1 l2 :
  Described.sumQc (l1 ++ l2) = (Described.sumQc l1 + Described.sumQc l2)%Qc.
Proof.
  induction l1 as [| x l1 IH]; simpl; [ring |]. rewrite IH. ring.
Qed.

Lemma priceServices_items found rs acc subtotal items :
  priceServices found rs acc = Some (subtotal, items) ->
  (acc.1 = Described.sumQc (Described.itemTotals acc.2) ->
   subtotal = Described.sumQc (Described.itemTotals items))
  /\ length items = (length acc.2 + length rs)%nat.
Proof.
  revert acc. induction rs as [| r rs IH]; intros acc; simpl.
  - intros [= ->]. simpl. split; [done | lia].
  - destruct (found !! serviceId r) as [svc |]; [| done].
    intros [Hsum Hlen]%IH. cbn [fst snd] in Hsum, Hlen. split.
    + intros Hacc. apply Hsum. unfold Described.itemTotals.
      rewrite map_app, sumQc_app. fold (Described.itemTotals acc.2).
      rewrite <- Hacc. simpl. ring.
    + rewrite Hlen, length_app. simpl. lia.
Qed.

Lemma services_save env d :
  Subscription.services (Subscription.fields (Subscription.save env d))
  = Subscription.services (Subscription.fields d).
Proof.
  unfold Subscription.save, Subscription.preSave. simpl.
  by destruct (_ || _).
Qed.

Lemma pricing_save env d :
  Subscription.pricing (Subscription.fields (Subscription.save env d))
  = Subscription.pricing (Subscription.fields d).
Proof.
  unfold Subscription.save, Subscription.preSave. simpl.
  by destruct (_ || _).
Qed.

End PricingFacts.


(** ** The checks of the first loop *)

Module GuardFacts.
Import Routes.

Lemma checkService_inForce r svc q :
  quantity r = Some q ->
  from_option Guard.kindOf None (checkService r svc) = Guard.itemInForce svc q.
Proof.
  intros Hq. unfold checkService, Guard.itemInForce, quantityAbove,
    orderValueAbove, Guard.requiresQuoteCategory, JS.truthyZ, JS.truthyQc.
  rewrite Hq.
  destruct (_ <? q); [done |].
  destruct (Service.maxSubscriptions _) as [m |]; simpl.
  - destruct (negb (m =? 0) && _); [done |].
    destruct (bool_decide _); simpl; [| done].
    destruct (Service.maxOnlineOrderValue _) as [v |]; simpl; [| done].
    destruct (negb (Qc_eq_bool v 0)); simpl; [| done].
    by destruct (bool_decide _).
  - destruct (bool_decide _); simpl; [| done].
    destruct (Service.maxOnlineOrderValue _) as [v |]; simpl; [| done].
    destruct (negb (Qc_eq_bool v 0)); simpl; [| done].
    by destruct (bool_decide _).
Qed.

(** A capacity rejection names a service whose cap is present, not zero and
    reached. *)
Lemma checkService_capacity r svc n :
  checkService r svc = Some (Http.ServiceNotAvailable n) ->
  Service.name svc = n
  /\ exists m, Service.maxSubscriptions (Service.availability svc) = Some m
       /\ m <> 0
       /\ m <= Service.currentSubscriptions (Service.availability svc).
Proof.
  unfold checkService, JS.truthyZ.
  destruct (quantityAbove _ _); [done |].
  destruct (Service.maxSubscriptions _) as [m |]; simpl.
  - destruct (Z.eqb_spec m 0) as [-> | Hm]; simpl.
    + repeat case_match; done.
    + destruct (Z.leb_spec m (Service.currentSubscriptions (Service.availability svc))).
      * intros [= <-]. split; [done |]. by exists m.
      * repeat case_match; done.
  - repeat case_match; done.
Qed.

Lemma checkService_passes r svc :
  checkService r svc = None ->
  forall m, Service.maxSubscriptions (Service.availability svc) = Some m ->
    m <> 0 -> Service.currentSubscriptions (Service.availability svc) < m.
Proof.
  unfold checkService, JS.truthyZ. intros H m Hm Hne. rewrite Hm in H.
  simpl in H. destruct (quantityAbove _ _); [done |].
  destruct (Z.eqb_spec m 0); [done |]. simpl in H.
  destruct (Z.leb_spec m (Service.currentSubscriptions (Service.availability svc)));
    [done | lia].
Qed.

Lemma checkServices_capacity found rs n :
  checkServices found rs = Some (Http.ServiceNotAvailable n) ->
  exists r svc, r ∈ rs /\ found !! serviceId r = Some svc
    /\ checkService r svc = Some (Http.ServiceNotAvailable n).
Proof.
  induction rs as [| r rs IH]; simpl; [done |].
  destruct (found !! serviceId r) as [svc |] eqn:Hf; [| done].
  destruct (checkService r svc) as [reply |] eqn:Hc.
  - intros [= ->]. exists r, svc. split; [apply list_elem_of_here | done].
  - intros (r' & svc' & Hin & H)%IH. exists r', svc'.
    split; [by apply list_elem_of_further | done].
Qed.

Lemma checkServices_passes found rs :
  checkServices found rs = None ->
  forall r, r ∈ rs ->
    exists svc, found !! serviceId r = Some svc /\ checkService r svc = None.
Proof.
  induction rs as [| r rs IH]; simpl; intros H r' Hin.
  - by apply elem_of_nil in Hin.
  - destruct (found !! serviceId r) as [svc |] eqn:Hf; [| done].
    destruct (checkService r svc) as [reply |] eqn:Hc; [done |].
    apply elem_of_cons in Hin as [-> | Hin]; [by exists svc | by apply IH].
Qed.

(** The only reply of the handler that reports a service as not available
    is the one of the first loop. *)
Lemma createHandler_capacity env user b st n :
  (createHandler env user b st).1 = Http.ServiceNotAvailable n ->
  checkServices (findActive st (map serviceId (services b))) (services b)
  = Some (Http.ServiceNotAvailable n).
Proof.
  unfold createHandler. cbv zeta. cbn [services sanitize].
  destruct (validBody b); cbn [negb]; [| done].
  destruct (_ =? _)%nat; cbn [negb]; [| done].
  destruct (checkServices _ _) as [reply |]; [by intros [= ->] |].
  destruct (priceServices _ _ _) as [[subtotal items] |]; [| done].
  destruct (parseBillingCycle _); [| done].
  destruct (Subscription.validate _); cbn [negb]; [| done].
  by destruct (Store.subscriptions st !! Platform.freshId env).
Qed.

End GuardFacts.

Module CapacityFacts.
Import Routes.

Lemma create_capacity env req st n :
  (create env req st).1 = Http.ServiceNotAvailable n ->
  checkServices (findActive st (map serviceId (services (body req))))
    (services (body req))
  = Some (Http.ServiceNotAvailable n).
Proof.
  unfold create.
  destruct (Auth.authenticate _) as [reply | user] eqn:Ha.
  { intros Hr. simpl in Hr. subst reply.
    destruct (bearer req) as [u |]; simpl in Ha;
      [destruct (User.isActive u) |]; simplify_eq. }
  destruct (Auth.requireCustomerOrAdmin _) eqn:Hr.
  { simpl. intros ->. simpl in Hr. by destruct (negb _). }
  destruct (Auth.validateSubscriptionLimits _ _ _) eqn:Hl.
  { simpl. intros ->. simpl in Hl. by destruct (_ <? _)%nat. }
  apply GuardFacts.createHandler_capacity.
Qed.

Lemma checkService_zero_cap r svc c :
  Service.maxSubscriptions (Service.availability svc) = Some 0 ->
  checkService r (Service.setCurrentSubscriptions c svc) = checkService r svc.
Proof. intros H. unfold checkService. simpl. by rewrite H. Qed.

End CapacityFacts.


Module BatchFacts.
Import Routes.

Lemma forallb_available st rs :
  forallb (fun it => Guard.available (Store.services st) it.1) (Guard.lineItems rs)
  = true
  <-> Forall (fun k => Guard.available (Store.services st) k = true)
        (map serviceId rs).
Proof.
  induction rs as [| r rs IH]; simpl.
  - split; [constructor | done].
  - split.
    + intros [Ha Hr%IH]%andb_prop. by constructor.
    + intros [Ha Hr%IH]%list.Forall_cons. by rewrite Ha, Hr.
Qed.

Lemma validBody_quantities b :
  validBody b = true ->
  Forall (fun r => forall q, quantity r = Some q -> 1 <= q) (services b).
Proof.
  unfold validBody. rewrite !andb_true_iff.
  intros (((((((_ & _) & Hq) & _) & _) & _) & _) & _).
  apply list.Forall_forall. intros r Hin q Hr.
  rewrite forallb_forall in Hq. specialize (Hq r).
  rewrite Hr in Hq. apply Z.leb_le, Hq. by apply list_elem_of_In.
Qed.

(** With every requested service found and every quantity given, the first
    loop returns the first violation of checks 2 to 4. *)
Lemma checkServices_inForce st ids rs :
  Forall (fun r => is_Some (findActive st ids !! serviceId r)) rs ->
  Forall (fun r => exists q, quantity r = Some q /\ 1 <= q) rs ->
  match Guard.itemsInForce (Store.services st) (Guard.lineItems rs) with
  | Some rejection =>
      exists reply, checkServices (findActive st ids) rs = Some reply
        /\ Guard.kindOf reply = Some rejection
  | None => checkServices (findActive st ids) rs = None
  end.
Proof.
  induction rs as [| r rs IH]; intros Hf Hq; simpl; [done |].
  apply list.Forall_cons in Hf as [[svc Hsvc] Hf].
  apply list.Forall_cons in Hq as [(q & Hq0 & Hq1) Hq].
  rewrite Hsvc. apply FoundFacts.lookup_findActive in Hsvc as (Hst & _).
  rewrite Hst. unfold quantityOrOne. rewrite Hq0.
  destruct (Z.eqb_spec q 0); [lia |].
  pose proof (GuardFacts.checkService_inForce r svc q Hq0) as Hk.
  destruct (checkService r svc) as [reply |] eqn:Hc; simpl in Hk.
  - rewrite <- Hk.
    destruct (CreateFacts.checkService_kind _ _ _ Hc) as [k Hk'].
    rewrite Hk'. by exists reply.
  - rewrite <- Hk. by apply IH.
Qed.

End BatchFacts.


(** ** The subscription counter of a service *)

Module CounterFacts.
Import Routes.

Section Preserved.

(** A property of services that survives a decrement, and an increment of a
    service that has just passed the checks of the first loop. *)
Variable P : Service.t -> Prop.
Hypothesis P_decrement : forall s, P s -> P (Service.decrementSubscriptions s).
Hypothesis P_increment :
  forall r s, checkService r s = None -> P s -> P (Service.incrementSubscriptions s).

Lemma decrementOne_preserves st item :
  map_Forall (fun _ s => P s) (Store.services st) ->
  map_Forall (fun _ s => P s) (Store.services (decrementOne st item)).
Proof.
  intros Hinv. unfold decrementOne.
  destruct (Store.services st !! Subscription.serviceId item) as [svc |] eqn:Hs;
    [| done].
  simpl. apply map_Forall_insert_2; [| done].
  apply P_decrement. by apply (Hinv _ _ Hs).
Qed.

Lemma foldl_decrementOne_preserves items st :
  map_Forall (fun _ s => P s) (Store.services st) ->
  map_Forall (fun _ s => P s) (Store.services (foldl decrementOne st items)).
Proof.
  revert st. induction items as [| i items IH]; intros st Hinv; simpl; [done |].
  by apply IH, decrementOne_preserves.
Qed.

Lemma cancelRoute_preserves env req st :
  map_Forall (fun _ s => P s) (Store.services st) ->
  map_Forall (fun _ s => P s) (Store.services (cancelRoute env req st).2).
Proof.
  intros Hinv. unfold cancelRoute, withSubscription.
  destruct (Auth.authenticate _); [done |].
  destruct (Auth.requireCustomerOrAdmin _); [done |].
  destruct (negb (isMongoId _)); [done |].
  destruct (Store.subscriptions st !! lc_id req); [| done].
  destruct (_ && _); [done |].
  destruct (bool_decide _); [done |].
  cbn [snd]. by apply foldl_decrementOne_preserves.
Qed.

Lemma create_preserves env req st :
  map_Forall (fun _ s => P s) (Store.services st) ->
  map_Forall (fun _ s => P s) (Store.services (create env req st).2).
Proof.
  intros Hinv.
  destruct (CreateFacts.create_store env req st) as [[s Hs] | ->]; [| done].
  destruct (create env req st) as [reply st'] eqn:Hc. simpl in Hs. subst reply.
  apply CreateFacts.create_Created in Hc as (user & _ & Hc).
  apply CreateFacts.createHandler_Created in Hc
    as (subtotal & items & cycle & _ & _ & Hchk & _ & _ & _ & ->).
  cbn [snd]. unfold incrementAll.
  cbn [Store.services Store.with_services Store.with_subscriptions].
  intros k svc' [Hk | [_ Hk]]%lookup_union_Some_raw; [| by apply (Hinv _ _ Hk)].
  apply lookup_fmap_Some in Hk as (svc & <- & Hf).
  pose proof Hf as (Hst & Hin & _)%FoundFacts.lookup_findActive.
  apply list_elem_of_fmap in Hin as (r & -> & Hr).
  destruct (GuardFacts.checkServices_passes _ _ Hchk r Hr) as (svc2 & Hf2 & Hpass).
  rewrite Hf in Hf2. injection Hf2 as <-.
  apply (P_increment r); [done |]. by apply (Hinv _ _ Hst).
Qed.

Lemma run_preserves ops st :
  map_Forall (fun _ s => P s) (Store.services st) ->
  map_Forall (fun _ s => P s) (Store.services (System.run ops st)).
Proof.
  unfold System.run. revert st.
  induction ops as [| op ops IH]; intros st Hinv; simpl; [done |].
  apply IH. destruct op as [env req | env req]; simpl.
  - by apply create_preserves.
  - by apply cancelRoute_preserves.
Qed.

End Preserved.

Lemma nonNegative_decrement s :
  Described.nonNegative s = true ->
  Described.nonNegative (Service.decrementSubscriptions s) = true.
Proof.
  unfold Described.nonNegative, Service.decrementSubscriptions.
  destruct (Z.ltb_spec 0 (Service.currentSubscriptions (Service.availability s)));
    [| done].
  simpl. rewrite !Z.leb_le. lia.
Qed.

Lemma nonNegative_increment s :
  Described.nonNegative s = true ->
  Described.nonNegative (Service.incrementSubscriptions s) = true.
Proof. unfold Described.nonNegative. simpl. rewrite !Z.leb_le. lia. Qed.

Lemma withinCapInForce_spec s :
  Described.withinCapInForce s = true
  <-> forall m, Service.maxSubscriptions (Service.availability s) = Some m ->
        m <> 0 -> Service.currentSubscriptions (Service.availability s) <= m.
Proof.
  unfold Described.withinCapInForce.
  destruct (Service.maxSubscriptions _) as [m |]; [| done].
  rewrite orb_true_iff, Z.eqb_eq, Z.leb_le. split.
  - intros [-> | Hle] ? [= <-] ?; done.
  - intros H. destruct (decide (m = 0)); [by left | right; by apply H].
Qed.

Lemma withinCapInForce_decrement s :
  Described.withinCapInForce s = true ->
  Described.withinCapInForce (Service.decrementSubscriptions s) = true.
Proof.
  rewrite !withinCapInForce_spec. unfold Service.decrementSubscriptions.
  destruct (Z.ltb_spec 0 (Service.currentSubscriptions (Service.availability s)));
    [| done].
  simpl. intros Hcap m Hm Hne. specialize (Hcap m Hm Hne). lia.
Qed.

Lemma withinCapInForce_increment r s :
  checkService r s = None ->
  Described.withinCapInForce (Service.incrementSubscriptions s) = true.
Proof.
  intros Hpass. apply withinCapInForce_spec. simpl. intros m Hm Hne.
  pose proof (GuardFacts.checkService_passes _ _ Hpass m Hm Hne). lia.
Qed.

End CounterFacts.

(** * The stated properties *)

(** ** Pricing *)



(** ** Billing dates *)

Module BillingFacts.
Import JSDate.

(** Moving the year by one is moving the month by twelve. *)
Lemma setFullYear_next tza d :
  setFullYear tza d (getFullYear tza d + 1)
  = ofCivil tza (getFullYear tza d) (getMonth tza d + 12) (getDate tza d)
      (TimeWithinDay (LocalTime tza d)).
Proof.
  unfold setFullYear, ofCivil, getFullYear, getMonth, getDate, MakeDay.
  cbv zeta. pose proof (DateFacts.MonthFromTime_range (LocalTime tza d)) as Hm.
  set (m := MonthFromTime (LocalTime tza d)) in *.
  assert ((m + 12) / 12 = 1) as -> by DateFacts.arith.
  assert ((m + 12) mod 12 = m) as -> by DateFacts.arith.
  assert (m / 12 = 0) as -> by DateFacts.arith.
  assert (m mod 12 = m) as -> by DateFacts.arith.
  by rewrite Z.add_0_r.
Qed.

Lemma nextBilling_ofCivil tza start cycle :
  Subscription.nextBilling tza start cycle
  = (fun k => ofCivil tza (getFullYear tza start) (getMonth tza start + k)
                (getDate tza start) (TimeWithinDay (LocalTime tza start)))
    <$> Described.cycleMonths cycle.
Proof.
  destruct cycle; simpl; [done | done | done |].
  by rewrite setFullYear_next.
Qed.

(** On a day of the month that every month has, the next billing date is
    the same day and time of day, as many calendar months later as the cycle
    is long. *)
Lemma nextBilling_fields tza start cycle n k :
  getDate tza start <= 28 ->
  Subscription.nextBilling tza start cycle = Some n ->
  Described.cycleMonths cycle = Some k ->
  Described.monthIndex tza n = Described.monthIndex tza start + k
  /\ 0 <= getMonth tza n <= 11
  /\ getDate tza n = getDate tza start
  /\ TimeWithinDay (LocalTime tza n) = TimeWithinDay (LocalTime tza start).
Proof.
  intros Hd Hn Hk. unfold Described.monthIndex.
  assert (Hr : 0 <= getMonth tza n <= 11) by apply DateFacts.MonthFromTime_range.
  destruct cycle; simpl in Hn, Hk; simplify_eq.
  - destruct (DateFacts.setMonth_fields tza start (getMonth tza start + 1) Hd)
      as (Hy & Hm & Hda & Ht).
    rewrite Hy, Hm. repeat split; try done; try lia. DateFacts.arith.
  - destruct (DateFacts.setMonth_fields tza start (getMonth tza start + 3) Hd)
      as (Hy & Hm & Hda & Ht).
    rewrite Hy, Hm. repeat split; try done; try lia. DateFacts.arith.
  - destruct (DateFacts.setFullYear_fields tza start (getFullYear tza start + 1) Hd)
      as (Hy & Hm & Hda & Ht).
    rewrite Hy, Hm. repeat split; try done; lia.
Qed.

End BillingFacts.

(** C2.  When a subscription is saved and it is new, or its start date or
    its billing cycle was assigned, the hook replaces [nextBillingDate] by a
    value computed from the start date (the current time when there is none)
    and the billing cycle alone: the start date moved by 1 calendar month
    for monthly, 3 for quarterly and 12 (one calendar year) for yearly, by
    the date arithmetic of the platform, and [null] exactly when the cycle
    is one-time.  On a day of the month that every month has, the result is
    the same day and time of day that many calendar months later.  Nothing
    else in the document changes. *)
Theorem next_billing_date_recomputed env d :
  Subscription.isNew d
  || Subscription.isModified "dates.startDate" d
  || Subscription.isModified "billingCycle" d = true ->
  let tza := Platform.tza env in
  let start := default (Platform.now env)
                 (Subscription.startDate (Subscription.dates (Subscription.fields d))) in
  let cycle := Subscription.billingCycle (Subscription.fields d) in
  let next := Subscription.nextBillingDate
                (Subscription.dates (Subscription.preSave env d)) in
  next = (fun k =>
            JSDate.ofCivil tza (JSDate.getFullYear tza start)
              (JSDate.getMonth tza start + k) (JSDate.getDate tza start)
              (JSDate.TimeWithinDay (JSDate.LocalTime tza start)))
         <$> Described.cycleMonths cycle
  /\ (next = None <-> cycle = Service.one_time)
  /\ (JSDate.getDate tza start <= 28 ->
      forall n k, next = Some n -> Described.cycleMonths cycle = Some k ->
        Described.monthIndex tza n = Described.monthIndex tza start + k
        /\ 0 <= JSDate.getMonth tza n <= 11
        /\ JSDate.getDate tza n = JSDate.getDate tza start
        /\ JSDate.TimeWithinDay (JSDate.LocalTime tza n)
           = JSDate.TimeWithinDay (JSDate.LocalTime tza start))
  /\ Subscription.preSave env d
     = Subscription.with_dates
         (Subscription.with_nextBillingDate next
            (Subscription.dates (Subscription.fields d)))
         (Subscription.fields d).
Proof.
  intros Htrig tza start cycle next.
  assert (Hnext : next = Subscription.nextBilling tza start cycle).
  { subst next. unfold Subscription.preSave. by rewrite Htrig. }
  split; [| split; [| split]].
  - rewrite Hnext. apply BillingFacts.nextBilling_ofCivil.
  - rewrite Hnext. by destruct cycle.
  - intros Hd n k Hn Hk. rewrite Hnext in Hn.
    by apply (BillingFacts.nextBilling_fields tza start cycle).
  - rewrite Hnext. unfold Subscription.preSave. by rewrite Htrig.
Qed.

(** A yearly subscription that starts on 2024-01-15 at 10:00 is billed next
    on 2025-01-15 at 10:00. *)
Lemma next_billing_date_witness :
  let d := {| Subscription.fields :=
                Fixtures.subscription Subscription.pending Service.yearly None;
              Subscription.isNew := true;
              Subscription.modifiedPaths := [] |} in
  Subscription.nextBillingDate
    (Subscription.dates (Subscription.preSave Fixtures.morning d))
  = Some (JSDate.ofCivil 0 2025 0 15 36000000)
  /\ JSDate.ofCivil 0 2024 0 15 36000000 = Platform.now Fixtures.morning.
Proof.
  intros d.
  destruct (next_billing_date_recomputed Fixtures.morning d eq_refl) as (H & _).
  split; [rewrite H |]; vm_compute; reflexivity.
Defined.

(** ** Lifecycle *)





(** C9.  [PUT /:id/resume] on a subscription the caller may act on: when the
    status is paused, the status becomes active and [pausedDate] is cleared,
    nothing else changing; from every other status the request is rejected
    and the store is left as it was. *)
Theorem resume_route_guarded env req st user s :
  Routes.serves st req user s ->
  let s' :=
    Subscription.with_dates
      (Subscription.with_pausedDate None (Subscription.dates s))
      (Subscription.with_status Subscription.active s) in
  (Subscription.status s = Subscription.paused ->
   Routes.resumeRoute env req st
   = (Http.Ok s',
      Store.with_subscriptions
        (<[Routes.lc_id req := s']> (Store.subscriptions st)) st))
  /\ (Subscription.status s <> Subscription.paused ->
      Routes.resumeRoute env req st = (Http.OnlyPausedCanResume, st)).
Proof.
  intros Hs s'. unfold Routes.resumeRoute.
  rewrite (RouteFacts.withSubscription_serves _ _ _ _ _ Hs). split; intros Hst.
  - by rewrite bool_decide_eq_true_2.
  - by rewrite bool_decide_eq_false_2.
Qed.

(** A paused subscription resumes: it is active and has no paused date. *)
Lemma resume_route_witness :
  let s := Fixtures.subscription Subscription.paused Service.monthly None in
  exists s' st',
    Routes.resumeRoute Fixtures.morning (Fixtures.request None)
      (Fixtures.account s) = (Http.Ok s', st')
    /\ Subscription.status s' = Subscription.active
    /\ Subscription.pausedDate (Subscription.dates s') = None
    /\ Subscription.pausedDate (Subscription.dates s) = Some 1705312800000.
Proof.
  intros s.
  destruct (resume_route_guarded Fixtures.morning (Fixtures.request None)
              (Fixtures.account s) Fixtures.customer s) as [Hok _].
  - repeat split; reflexivity.
  - eexists _, _. split; [apply Hok; reflexivity |]. by repeat split.
Defined.


(** ** The order guard *)






(** ** The subscription counter *)




(** C10.  For a service whose [maxSubscriptions] is 0: the first loop never
    answers that the service is not available, its reply does not depend on
    [currentSubscriptions], the [isAvailable] virtual is true whenever the
    service is active, and no order whose line items all name that service
    is rejected for capacity, whatever the store and the request are. *)
Theorem zero_cap_never_rejects svc :
  Service.maxSubscriptions (Service.availability svc) = Some 0 ->
  (forall r n, Routes.checkService r svc <> Some (Http.ServiceNotAvailable n))
  /\ (forall r c,
        Routes.checkService r (Service.setCurrentSubscriptions c svc)
        = Routes.checkService r svc)
  /\ Service.isAvailable svc = Service.isActive (Service.availability svc)
  /\ (forall env req st id n,
        Store.services st !! id = Some svc ->
        (forall r, r ∈ Routes.services (Routes.body req) -> Routes.serviceId r = id) ->
        (Routes.create env req st).1 <> Http.ServiceNotAvailable n).
Proof.
  intros H0. split; [| split; [| split]].
  - intros r n (_ & m & Hm & Hne & _)%GuardFacts.checkService_capacity.
    congruence.
  - intros r c. by apply CapacityFacts.checkService_zero_cap.
  - unfold Service.isAvailable. rewrite H0. simpl.
    by destruct (Service.isActive _).
  - intros env req st id n Hsvc Hall Hrep%CapacityFacts.create_capacity.
    apply GuardFacts.checkServices_capacity in Hrep as (r & svc' & Hin & Hf & Hc).
    apply FoundFacts.lookup_findActive in Hf as (Hs & _).
    rewrite (Hall r Hin), Hsvc in Hs. injection Hs as <-.
    apply GuardFacts.checkService_capacity in Hc as (_ & m & Hm & Hne & _).
    congruence.
Qed.

(** A cap of 0 with 7 subscriptions counted: the service is available and an
    order for it is not rejected for capacity. *)
Lemma zero_cap_witness :
  let svc := Fixtures.service Service.Internet 500 5 (Some 0) 7 in
  Service.isAvailable svc = true
  /\ forall n,
       (Routes.create Fixtures.morning (Fixtures.order 2) (Fixtures.catalogue svc)).1
       <> Http.ServiceNotAvailable n.
Proof.
  intros svc.
  destruct (zero_cap_never_rejects svc eq_refl) as (_ & _ & Hav & Hreq).
  split; [exact Hav |]. intros n.
  apply (Hreq Fixtures.morning (Fixtures.order 2) (Fixtures.catalogue svc)
           Fixtures.fibreId n).
  - apply lookup_singleton_eq.
  - intros r Hin. apply list_elem_of_singleton in Hin. by subst r.
Defined.

(** * Further observations on the sample data *)

(** The scenario of an order of two units at 500 rupees a month: the
    subscription is pending, billed next one month after its start, and the
    counter of the service goes up by one, not by the quantity. *)
Example order_of_two_units :
  exists s st',
    Routes.create Fixtures.morning (Fixtures.order 2)
      (Fixtures.catalogue Fixtures.fibre) = (Http.Created s, st')
    /\ Subscription.status s = Subscription.pending
    /\ Subscription.nextBillingDate (Subscription.dates s)
       = Some (JSDate.ofCivil 0 2024 1 15 36000000)
    /\ (Service.currentSubscriptions ∘ Service.availability)
         <$> (Store.services st' !! Fixtures.fibreId) = Some 1.
Proof.
  eexists _, _. split; [vm_compute; reflexivity |].
  repeat split; vm_compute; reflexivity.
Qed.

(** A monthly cycle that starts on 2024-01-31: February has no 31st, and the
    excess days carry over; the next billing date is 2024-03-02. *)
Example month_overflow :
  Subscription.nextBilling 0 (JSDate.ofCivil 0 2024 0 31 0) Service.monthly
  = Some (JSDate.ofCivil 0 2024 2 2 0).
Proof. vm_compute. reflexivity. Qed.

(** A service with a cap of 1 that is reached rejects the next order. *)
Example cap_reached :
  let st := Fixtures.catalogue
              (Fixtures.service Service.Internet 500 5 (Some 1) 1) in
  Routes.create Fixtures.morning (Fixtures.order 1) st
  = (Http.ServiceNotAvailable "Fibre 100", st).
Proof. vm_compute. reflexivity. Qed.

(** The existence check covers the whole request before any line item is
    looked at: a first line item above its quantity limit, followed by one
    for an unknown service, is answered "not available". *)
Example unknown_service_reported_first :
  let st := Fixtures.catalogue Fixtures.upToThree in
  let req := Fixtures.orderOf [Fixtures.item Fixtures.fibreId (Some 4);
                               Fixtures.item Fixtures.otherId (Some 1)] in
  Routes.create Fixtures.morning req st = (Http.ServicesUnavailable, st)
  /\ Guard.asDescribed (Store.services st)
       (Guard.lineItems (Routes.services (Routes.body req)))
     = Some Guard.QuantityExceedsMaximum.
Proof. split; vm_compute; reflexivity. Qed.

(** Two line items for the same active service: one document is found for
    two ids, and the request is answered "not available". *)
Example repeated_service_unavailable :
  let st := Fixtures.catalogue Fixtures.fibre in
  let req := Fixtures.orderOf [Fixtures.item Fixtures.fibreId (Some 1);
                               Fixtures.item Fixtures.fibreId (Some 1)] in
  Routes.create Fixtures.morning req st = (Http.ServicesUnavailable, st).
Proof. vm_compute. reflexivity. Qed.

(** A line item without a quantity is priced as one unit, but the
    comparisons of the first loop are false for it: a Silver service priced
    above its online limit is ordered without a quote. *)
Example missing_quantity_not_compared :
  let st := Fixtures.catalogue Fixtures.silver in
  let req := Fixtures.orderOf [Fixtures.item Fixtures.fibreId None] in
  (exists s st',
     Routes.create Fixtures.morning req st = (Http.Created s, st')
     /\ Subscription.subtotal (Subscription.pricing s) = JS.ofZ 20000)
  /\ exists reply,
       Routes.create Fixtures.morning
         (Fixtures.orderOf [Fixtures.item Fixtures.fibreId (Some 1)]) st
       = (reply, st)
       /\ Guard.kindOf reply = Some Guard.RequiresManualQuote.
Proof.
  split.
  - eexists _, _. split; vm_compute; reflexivity.
  - eexists. split; vm_compute; reflexivity.
Qed.

(** The methods [cancel] and [pause] have no guard of their own.  The admin
    status override calls them directly: it cancels a subscription that is
    already cancelled, appending a second line to the notes, and it pauses a
    pending one. *)
Example admin_override_not_guarded :
  let cancelled := Fixtures.subscription Subscription.cancelled Service.monthly
                     (Some "Cancelled: moving") in
  let pending := Fixtures.subscription Subscription.pending Service.monthly None in
  let override status :=
    {| Admin.bearer := Some Fixtures.administrator;
       Admin.id := Fixtures.subscriptionId;
       Admin.status := status;
       Admin.reason := None |} in
  (exists s st',
     Admin.updateStatus Fixtures.morning (override Subscription.cancelled)
       (Fixtures.account cancelled) = (Http.Ok s, st')
     /\ Subscription.notes (Subscription.metadata s)
        = Some ("Cancelled: moving" +:+ JS.newline +:+ "Cancelled: Admin action"))
  /\ exists s st',
       Admin.updateStatus Fixtures.morning (override Subscription.paused)
         (Fixtures.account pending) = (Http.Ok s, st')
       /\ Subscription.status s = Subscription.paused.
Proof.
  split; eexists _, _; split; vm_compute; reflexivity.
Qed.

(** * More properties of the models and routes *)

(** ** The slug of a service *)

Module SlugFacts.
Import Slug.

Lemma isHyphen_eq c : isHyphen c = true <-> c = hyphen.
Proof. unfold isHyphen. apply Ascii.eqb_eq. Qed.

Lemma isSlugChar_not_hyphen c : isSlugChar c = true -> isHyphen c = false.
Proof.
  intros Hc. destruct (isHyphen c) eqn:Hh; [| done].
  apply isHyphen_eq in Hh. subst c. vm_compute in Hc. done.
Qed.

Lemma toLowerAscii_slug c :
  isSlugChar c || isHyphen c = true -> toLowerAscii c = c.
Proof.
  intros Hc. unfold toLowerAscii. cbv zeta.
  destruct (_ && _)%nat eqn:Hup; [| done].
  apply andb_true_iff in Hup as [H1%Nat.leb_le H2%Nat.leb_le].
  apply orb_true_iff in Hc as [Hc | Hc].
  - unfold isSlugChar in Hc. cbv zeta in Hc.
    rewrite orb_true_iff, !andb_true_iff, !Nat.leb_le in Hc. lia.
  - apply isHyphen_eq in Hc. subst c. vm_compute in H1. lia.
Qed.

(** What [replaceRuns] returns: slug characters and hyphens, no two hyphens
    in a row, and no hyphen first when a run is under way. *)
Lemma replaceRuns_shape b l :
  forallb (fun c => isSlugChar c || isHyphen c) (replaceRuns b l) = true
  /\ noDoubleHyphen (replaceRuns b l) = true
  /\ (b = true -> startsWithHyphen (replaceRuns b l) = false).
Proof.
  revert b. induction l as [| c l IH]; intros b; cbn [replaceRuns]; [done |].
  destruct (isSlugChar c) eqn:Hc.
  - destruct (IH false) as (Hall & Hnd & _).
    cbn [forallb noDoubleHyphen startsWithHyphen]. rewrite Hc, Hall.
    split; [done |]. split; [| intros _; by apply isSlugChar_not_hyphen].
    destruct (replaceRuns false l); [done |].
    by rewrite (isSlugChar_not_hyphen c Hc), Hnd.
  - destruct (IH true) as (Hall & Hnd & Hst). specialize (Hst eq_refl).
    destruct b; [done |].
    cbn [forallb noDoubleHyphen startsWithHyphen]. rewrite Hall.
    split; [reflexivity |]. split; [| done].
    destruct (replaceRuns true l) as [| c2 r]; [done |].
    cbn [startsWithHyphen] in Hst. rewrite Hst, andb_false_r. exact Hnd.
Qed.

Lemma dropHyphens_shape l :
  forallb (fun c => isSlugChar c || isHyphen c) l = true ->
  noDoubleHyphen l = true ->
  forallb (fun c => isSlugChar c || isHyphen c) (dropHyphens l) = true
  /\ noDoubleHyphen (dropHyphens l) = true
  /\ startsWithHyphen (dropHyphens l) = false.
Proof.
  induction l as [| c l IH]; simpl; [done |].
  intros [Hc Hall]%andb_prop Hnd.
  destruct (isHyphen c) eqn:Hh.
  - apply IH; [done |]. destruct l; [done |]. by apply andb_prop in Hnd as [_ ?].
  - cbn [forallb startsWithHyphen]. rewrite Hh, Hc, Hall.
    repeat split; try done. cbn [noDoubleHyphen]. rewrite Hh. exact Hnd.
Qed.

Lemma dropHyphensEnd_nil l :
  dropHyphensEnd l = [] <-> forallb isHyphen l = true.
Proof.
  induction l as [| c l IH]; simpl; [done |].
  destruct (dropHyphensEnd l) as [| k ks] eqn:Hd.
  - destruct (isHyphen c); simpl; [| done]. by rewrite <- IH.
  - split; [done |]. intros [_ Hl]%andb_prop. by apply IH in Hl.
Qed.

Lemma dropHyphensEnd_parts l :
  forallb (fun c => isSlugChar c || isHyphen c) l = true ->
  noDoubleHyphen l = true ->
  forallb (fun c => isSlugChar c || isHyphen c) (dropHyphensEnd l) = true
  /\ noDoubleHyphen (dropHyphensEnd l) = true
  /\ endsWithHyphen (dropHyphensEnd l) = false
  /\ startsWithHyphen (dropHyphensEnd l)
     = startsWithHyphen l && negb (forallb isHyphen l).
Proof.
  induction l as [| c l IH]; [done |].
  cbn [forallb noDoubleHyphen dropHyphensEnd startsWithHyphen].
  intros [Hc Hall]%andb_prop Hnd.
  assert (Hnd' : noDoubleHyphen l = true).
  { destruct l; [done |]. by apply andb_prop in Hnd as [_ ?]. }
  destruct (IH Hall Hnd') as (IH1 & IH2 & IH3 & IH4).
  pose proof (dropHyphensEnd_nil l) as Hnil.
  destruct (dropHyphensEnd l) as [| k ks] eqn:Hd.
  - rewrite (proj1 Hnil eq_refl), andb_true_r.
    destruct (isHyphen c) eqn:Hh; [done |].
    cbn [forallb noDoubleHyphen endsWithHyphen startsWithHyphen].
    rewrite ?Hh. rewrite ?Hh in Hc. by rewrite Hc.
  - assert (Hf : forallb isHyphen l = false).
    { destruct (forallb isHyphen l) eqn:Hf; [| done].
      by pose proof (proj2 Hnil eq_refl). }
    rewrite Hf, andb_false_r, andb_true_r.
    split; [| split; [| split]].
    + cbn [forallb] in *. by rewrite Hc, IH1.
    + change (negb (isHyphen c && isHyphen k) && noDoubleHyphen (k :: ks) = true).
      rewrite IH2, andb_true_r.
      destruct l as [| c2 l2]; [done |].
      cbn [startsWithHyphen] in IH4. rewrite Hf, andb_true_r in IH4.
      rewrite IH4. by apply andb_prop in Hnd as [Hnd _].
    + exact IH3.
    + done.
Qed.

Lemma dropHyphensEnd_shape l :
  forallb (fun c => isSlugChar c || isHyphen c) l = true ->
  noDoubleHyphen l = true ->
  startsWithHyphen l = false ->
  wellFormed (dropHyphensEnd l) = true.
Proof.
  unfold wellFormed. intros Hall Hnd Hst.
  destruct (dropHyphensEnd_parts l Hall Hnd) as (H1 & H2 & H3 & H4).
  by rewrite H1, H2, H3, H4, Hst.
Qed.

Lemma slugChars_wellFormed name : wellFormed (slugChars name) = true.
Proof.
  unfold slugChars.
  destruct (replaceRuns_shape false (toLowerCase name)) as (Hall & Hnd & _).
  destruct (dropHyphens_shape _ Hall Hnd) as (Hall' & Hnd' & Hst).
  by apply dropHyphensEnd_shape.
Qed.

Lemma toLowerCase_fixed l :
  forallb (fun c => isSlugChar c || isHyphen c) l = true -> toLowerCase l = l.
Proof.
  induction l as [| c l IH]; [done |]. cbn [forallb toLowerCase map].
  intros [Hc Hall]%andb_prop. rewrite (toLowerAscii_slug c Hc).
  f_equal. by apply IH.
Qed.

Lemma replaceRuns_fixed b l :
  forallb (fun c => isSlugChar c || isHyphen c) l = true ->
  noDoubleHyphen l = true ->
  (b = true -> startsWithHyphen l = false) ->
  replaceRuns b l = l.
Proof.
  revert b. induction l as [| c l IH]; intros b; [done |].
  cbn [forallb replaceRuns startsWithHyphen].
  intros [Hc Hall]%andb_prop Hnd Hst.
  assert (Hnd' : noDoubleHyphen l = true).
  { destruct l; [done |]. by apply andb_prop in Hnd as [_ ?]. }
  destruct (isSlugChar c) eqn:Hs.
  - f_equal. by apply IH.
  - simpl in Hc. destruct b; [by rewrite Hst in Hc |].
    apply isHyphen_eq in Hc as Heq. rewrite <- Heq. f_equal.
    apply IH; [done | done |]. intros _.
    destruct l as [| c2 l2]; [done |]. cbn [startsWithHyphen].
    apply andb_prop in Hnd as [Hnd _]. rewrite Hc in Hnd.
    by destruct (isHyphen c2).
Qed.

Lemma dropHyphens_fixed l : startsWithHyphen l = false -> dropHyphens l = l.
Proof. destruct l as [| c l]; [done |]. simpl. by intros ->. Qed.

Lemma dropHyphensEnd_fixed l : endsWithHyphen l = false -> dropHyphensEnd l = l.
Proof.
  induction l as [| c l IH]; [done |]. cbn [endsWithHyphen dropHyphensEnd].
  destruct l as [| c2 l2].
  - simpl. by intros ->.
  - intros H. by rewrite (IH H).
Qed.

(** A well-formed slug is the slug of itself. *)
Lemma slugChars_fixed l : wellFormed l = true -> slugChars l = l.
Proof.
  unfold wellFormed, slugChars.
  intros [[[Hall Hst%negb_true_iff]%andb_prop Hend%negb_true_iff]%andb_prop
            Hnd]%andb_prop.
  rewrite (toLowerCase_fixed l Hall), (replaceRuns_fixed false l Hall Hnd);
    [| done].
  by rewrite (dropHyphens_fixed l Hst), (dropHyphensEnd_fixed l Hend).
Qed.

Lemma forallb_isHyphen_dropHyphens l :
  forallb isHyphen (dropHyphens l) = forallb isHyphen l.
Proof.
  induction l as [| c l IH]; [done |]. cbn [dropHyphens].
  destruct (isHyphen c) eqn:Hh; [| done]. cbn [forallb]. by rewrite Hh, IH.
Qed.

Lemma forallb_isHyphen_replaceRuns b l :
  forallb isHyphen (replaceRuns b (toLowerCase l))
  = forallb (fun c => negb (isAlnum c)) l.
Proof.
  revert b. induction l as [| c l IH]; intros b; [done |].
  cbn [toLowerCase map replaceRuns forallb]. unfold isAlnum at 1.
  fold (toLowerCase l).
  destruct (isSlugChar (toLowerAscii c)) eqn:Hs.
  - cbn [forallb negb]. by rewrite (isSlugChar_not_hyphen _ Hs).
  - cbn [negb]. destruct b; cbn [forallb]; by rewrite IH.
Qed.

(** The slug is empty exactly when the name has no letter and no digit. *)
Lemma slugChars_nil l :
  slugChars l = [] <-> forallb (fun c => negb (isAlnum c)) l = true.
Proof.
  unfold slugChars.
  by rewrite dropHyphensEnd_nil, forallb_isHyphen_dropHyphens,
    forallb_isHyphen_replaceRuns.
Qed.

End SlugFacts.

(** X1.  When the name of a service has changed, or the service has no slug
    yet, saving it sets the slug to a string of lower-case letters, digits and
    single hyphens that neither starts nor ends with a hyphen; the slug is
    empty exactly when the name holds no letter and no digit. *)
Theorem slug_well_formed nameModified name slug :
  nameModified || negb (JS.truthyStr slug) = true ->
  Slug.preSave nameModified name slug = Some (Slug.slugify name)
  /\ Slug.wellFormed (String.list_ascii_of_string (Slug.slugify name)) = true
  /\ (Slug.slugify name = ""
      <-> forallb (fun c => negb (Slug.isAlnum c))
            (String.list_ascii_of_string name) = true).
Proof.
  intros Htrig. unfold Slug.preSave. rewrite Htrig. split; [done |].
  unfold Slug.slugify. rewrite String.list_ascii_of_string_of_list_ascii.
  split; [apply SlugFacts.slugChars_wellFormed |].
  rewrite <- SlugFacts.slugChars_nil. split.
  - intros H.
    apply (f_equal String.list_ascii_of_string) in H.
    by rewrite String.list_ascii_of_string_of_list_ascii in H.
  - by intros ->.
Qed.

(** A name with capitals, blanks and punctuation, saved for the first time. *)
Lemma slug_well_formed_witness :
  Slug.preSave false "  Fibre 100 -- Mbps!! " None = Some "fibre-100-mbps"
  /\ Slug.wellFormed (String.list_ascii_of_string "fibre-100-mbps") = true.
Proof.
  destruct (slug_well_formed false "  Fibre 100 -- Mbps!! " None eq_refl)
    as (Hslug & Hwell & _).
  split; [rewrite Hslug | rewrite <- Hwell]; vm_compute; reflexivity.
Defined.

(** X2.  Making the slug of a slug changes nothing, and a string that is
    already a well-formed slug is its own slug. *)
Theorem slug_fixed_point :
  (forall name, Slug.slugify (Slug.slugify name) = Slug.slugify name)
  /\ (forall s, Slug.wellFormed (String.list_ascii_of_string s) = true ->
               Slug.slugify s = s).
Proof.
  assert (Hfix : forall s,
    Slug.wellFormed (String.list_ascii_of_string s) = true -> Slug.slugify s = s).
  { intros s Hw. unfold Slug.slugify.
    rewrite (SlugFacts.slugChars_fixed _ Hw).
    apply String.string_of_list_ascii_of_string. }
  split; [| exact Hfix]. intros name. apply Hfix. unfold Slug.slugify.
  rewrite String.list_ascii_of_string_of_list_ascii.
  apply SlugFacts.slugChars_wellFormed.
Qed.

(** ** Counters, availability and the online order limit *)

Module ServiceFacts.

Lemma setCurrentSubscriptions_same s :
  Service.setCurrentSubscriptions
    (Service.currentSubscriptions (Service.availability s)) s = s.
Proof. by destruct s as [? ? ? [? ? ?] ?]. Qed.

Lemma setCurrentSubscriptions_twice a b s :
  Service.setCurrentSubscriptions a (Service.setCurrentSubscriptions b s)
  = Service.setCurrentSubscriptions a s.
Proof. done. Qed.

Lemma iter_decrement n s :
  0 <= Service.currentSubscriptions (Service.availability s) ->
  Nat.iter n Service.decrementSubscriptions s
  = Service.setCurrentSubscriptions
      (Z.max 0 (Service.currentSubscriptions (Service.availability s)
                - Z.of_nat n)) s.
Proof.
  intros H0. induction n as [| n IH].
  - simpl. rewrite Z.sub_0_r, Z.max_r by lia.
    by rewrite setCurrentSubscriptions_same.
  - rewrite Nat.iter_succ, IH. unfold Service.decrementSubscriptions.
    cbn [Service.setCurrentSubscriptions Service.availability
         Service.currentSubscriptions].
    destruct (Z.ltb_spec 0
      (Z.max 0 (Service.currentSubscriptions (Service.availability s)
                - Z.of_nat n))).
    + change (Service.setCurrentSubscriptions ?a (Service.setCurrentSubscriptions ?b s))
        with (Service.setCurrentSubscriptions a s).
      f_equal. lia.
    + f_equal. lia.
Qed.

End ServiceFacts.



(** X4.  The availability [GET /api/services] lists is the model's virtual
    [isAvailable]; the creation route answers that a service is not available
    only when the virtual is false, and does so for every active service
    whose virtual is false once the quantity limit has passed. *)
Theorem availability_agrees s :
  ServiceRoutes.listedAvailability s = Service.isAvailable s
  /\ (forall r n,
        Routes.checkService r s = Some (Http.ServiceNotAvailable n) ->
        Service.isAvailable s = false)
  /\ (forall r,
        Service.isActive (Service.availability s) = true ->
        Service.isAvailable s = false ->
        Routes.quantityAbove (Routes.quantity r)
          (Service.maxQuantityPerUser (Service.constraints s)) = false ->
        Routes.checkService r s
        = Some (Http.ServiceNotAvailable (Service.name s))).
Proof.
  split; [| split].
  - unfold ServiceRoutes.listedAvailability, Service.isAvailable, JS.truthyZ.
    destruct (Service.isActive _); [| done]. simpl.
    destruct (Service.maxSubscriptions _) as [m |]; [| done]. simpl.
    destruct (Z.eqb_spec m 0); simpl; [done |].
    destruct (Z.leb_spec m (Service.currentSubscriptions (Service.availability s))),
      (Z.ltb_spec (Service.currentSubscriptions (Service.availability s)) m);
      done || lia.
  - intros r n (_ & m & Hm & Hne & Hle)%GuardFacts.checkService_capacity.
    unfold Service.isAvailable, JS.truthyZ. rewrite Hm. simpl.
    destruct (Service.isActive _); [| done]. simpl.
    destruct (Z.eqb_spec m 0); [done |]. simpl.
    by rewrite (proj2 (Z.leb_le _ _) Hle).
  - intros r Hact Hav Hq. unfold Service.isAvailable in Hav.
    unfold Routes.checkService. rewrite Hq. rewrite Hact in Hav. simpl in Hav.
    by destruct (_ && _).
Qed.

(** X5.  For an active service and a given quantity, the creation route asks
    for a quote only for a Silver service that [canOrderOnline] refuses at the
    value of the order, it never accepts a Silver service that
    [canOrderOnline] refuses, and it asks no quote for other categories. *)
Theorem online_order_limit_agrees r s q :
  Routes.quantity r = Some q ->
  Service.isActive (Service.availability s) = true ->
  let orderValue := (Service.amount (Service.price s) * JS.ofZ q)%Qc in
  (forall v, Routes.checkService r s = Some (Http.QuoteRequired v) ->
     Service.category s = Service.Silver
     /\ Service.maxOnlineOrderValue (Service.constraints s) = Some v
     /\ Service.canOrderOnline s orderValue = false)
  /\ (Service.category s = Service.Silver ->
      Service.canOrderOnline s orderValue = false ->
      Routes.checkService r s <> None)
  /\ (Service.category s <> Service.Silver ->
      forall v, Routes.checkService r s <> Some (Http.QuoteRequired v)).
Proof.
  intros Hq Hact orderValue. subst orderValue.
  unfold Routes.checkService, Service.canOrderOnline, Routes.orderValueAbove.
  rewrite Hq, Hact. cbn [negb].
  split; [| split].
  - intros v. destruct (Routes.quantityAbove _ _); [done |].
    destruct (_ && _); [done |].
    destruct (bool_decide_reflect (Service.category s = Service.Silver))
      as [Hs | Hs]; cbn [andb]; [| done].
    destruct (Service.maxOnlineOrderValue _) as [w |]; [| by cbn].
    cbn [default]. destruct (JS.truthyQc (Some w)); [| by cbn]. cbn [andb].
    destruct (bool_decide _); [| by cbn]. by intros [= ->].
  - intros Hs Hcan. destruct (Routes.quantityAbove _ _); [done |].
    destruct (JS.truthyZ _ && (_ <=? _)); [done |].
    rewrite (bool_decide_eq_true_2 _ Hs). cbn [andb].
    destruct (JS.truthyQc _); cbn [andb] in *; [| done].
    by destruct (bool_decide _).
  - intros Hs v. destruct (Routes.quantityAbove _ _); [done |].
    destruct (_ && _); [done |].
    by rewrite (bool_decide_eq_false_2 _ Hs).
Qed.

(** One unit of a Silver service at 20000 rupees, with online orders up to
    10000. *)
Lemma online_order_limit_witness :
  Routes.checkService (Fixtures.item Fixtures.fibreId (Some 1)) Fixtures.silver
  = Some (Http.QuoteRequired (JS.ofZ 10000))
  /\ Service.canOrderOnline Fixtures.silver
       (Service.amount (Service.price Fixtures.silver) * JS.ofZ 1)%Qc = false.
Proof.
  assert (Hreply : Routes.checkService (Fixtures.item Fixtures.fibreId (Some 1))
                     Fixtures.silver
                   = Some (Http.QuoteRequired (JS.ofZ 10000)))
    by (vm_compute; reflexivity).
  split; [exact Hreply |].
  destruct (online_order_limit_agrees
              (Fixtures.item Fixtures.fibreId (Some 1)) Fixtures.silver 1
              eq_refl eq_refl) as (Hquote & _ & _).
  by destruct (Hquote _ Hreply) as (_ & _ & Hcan).
Defined.

(** ** Virtuals of a subscription *)

Module VirtualFacts.

(** [ceilDays] is the least number of whole days that covers the span. *)
Lemma ceilDays_bounds ms :
  (Virtuals.ceilDays ms - 1) * JSDate.msPerDay < ms
  <= Virtuals.ceilDays ms * JSDate.msPerDay.
Proof. unfold Virtuals.ceilDays, JSDate.msPerDay. DateFacts.arith. Qed.

Lemma ceilDays_pos ms : 0 < Virtuals.ceilDays ms <-> 0 < ms.
Proof. unfold Virtuals.ceilDays, JSDate.msPerDay. split; intros; DateFacts.arith. Qed.

Lemma ceilDays_mono a b : a <= b -> Virtuals.ceilDays a <= Virtuals.ceilDays b.
Proof. unfold Virtuals.ceilDays, JSDate.msPerDay. intros. DateFacts.arith. Qed.

Lemma ceilDays_whole n : Virtuals.ceilDays (n * JSDate.msPerDay) = n.
Proof. unfold Virtuals.ceilDays, JSDate.msPerDay. DateFacts.arith. Qed.

End VirtualFacts.

(** X6.  [addPayment] raises [totalPaid] by the amount of a successful
    payment and leaves it as it was for any other payment. *)
Theorem totalPaid_after_addPayment env paymentData d :
  Subscription.totalPaid
    (Subscription.fields (Subscription.addPayment env paymentData d))
  = if bool_decide (Subscription.data_status paymentData
                    = Some Subscription.success)
    then (Subscription.totalPaid (Subscription.fields d)
          + Subscription.data_amount paymentData)%Qc
    else Subscription.totalPaid (Subscription.fields d).
Proof.
  assert (Hcast : filter (fun p => Subscription.outcome p = Subscription.success)
                    [Subscription.castPayment env paymentData]
                  = if bool_decide (Subscription.data_status paymentData
                                    = Some Subscription.success)
                    then [Subscription.castPayment env paymentData] else []).
  { destruct (bool_decide_reflect
                (Subscription.data_status paymentData = Some Subscription.success))
      as [Hs | Hs].
    - rewrite filter_cons_True; [done |]. simpl. by rewrite Hs.
    - rewrite filter_cons_False; [done |]. simpl.
      destruct (Subscription.data_status paymentData) as [o |]; simpl;
        [congruence | done]. }
  assert (Hpaid : forall s,
    Subscription.totalPaid s
    = foldl (fun acc p => acc + Subscription.amount p)%Qc 0%Qc
        (filter (fun p => Subscription.outcome p = Subscription.success)
           (Subscription.paymentHistory s))) by done.
  assert (Hhist : Subscription.paymentHistory
                    (Subscription.fields (Subscription.addPayment env paymentData d))
                  = Subscription.paymentHistory (Subscription.fields d)
                    ++ [Subscription.castPayment env paymentData]).
  { unfold Subscription.addPayment.
    destruct (bool_decide _);
      unfold Subscription.save, Subscription.preSave, Subscription.assign;
      cbn [Subscription.fields Subscription.isNew Subscription.modifiedPaths];
      match goal with |- context [if ?c then _ else _] => destruct c end;
      reflexivity. }
  rewrite !Hpaid, Hhist, list.filter_app, foldl_app, Hcast.
  destruct (bool_decide _); simpl; [ring | done].
Qed.

(** X7.  [daysRemaining] is null without an end date or when the subscription
    is not active; otherwise it is 0 once the end date has passed and else the
    least number of whole days that covers the time left. *)
Theorem daysRemaining_range now s :
  match Virtuals.daysRemaining now s with
  | None =>
      Subscription.endDate (Subscription.dates s) = None
      \/ Subscription.status s <> Subscription.active
  | Some d =>
      Subscription.status s = Subscription.active
      /\ exists e,
           Subscription.endDate (Subscription.dates s) = Some e
           /\ 0 <= d
           /\ (e <= now -> d = 0)
           /\ (now < e ->
               (d - 1) * JSDate.msPerDay < e - now <= d * JSDate.msPerDay)
  end.
Proof.
  unfold Virtuals.daysRemaining.
  destruct (Subscription.endDate _) as [e |]; [| by left].
  destruct (bool_decide_reflect (Subscription.status s = Subscription.active))
    as [Ha | Ha]; cbn [negb]; [| by right].
  split; [done |]. exists e. split; [done |].
  pose proof (VirtualFacts.ceilDays_bounds (e - now)) as Hb.
  pose proof (VirtualFacts.ceilDays_pos (e - now)) as Hp.
  destruct (Z.ltb_spec 0 (Virtuals.ceilDays (e - now))) as [Hlt | Hge].
  - split; [lia |]. split; [intros; lia | done].
  - split; [done |]. split; [done | intros; lia].
Qed.

(** X8.  [durationInDays] is null without an end date; otherwise it is the
    least number of whole days that covers the time from the start date (the
    creation time when there is none) to the end date, positive exactly when
    the end date is later. *)
Theorem durationInDays_range createdAt s :
  match Virtuals.durationInDays createdAt s with
  | None => Subscription.endDate (Subscription.dates s) = None
  | Some d =>
      exists e,
        Subscription.endDate (Subscription.dates s) = Some e
        /\ let start := default createdAt
                          (Subscription.startDate (Subscription.dates s)) in
           (d - 1) * JSDate.msPerDay < e - start <= d * JSDate.msPerDay
           /\ (0 < d <-> start < e)
  end.
Proof.
  unfold Virtuals.durationInDays.
  destruct (Subscription.endDate _) as [e |]; [| done].
  exists e. split; [done |]. cbv zeta. split.
  - apply VirtualFacts.ceilDays_bounds.
  - rewrite VirtualFacts.ceilDays_pos. lia.
Qed.

(** ** The span to the next billing date *)

Module SpanFacts.
Import JSDate.

(** The fields of a time value make the day they came from. *)
Lemma MakeDay_fields t :
  MakeDay (YearFromTime t) (MonthFromTime t) (DateFromTime t) = Day t.
Proof.
  pose proof (DateFacts.MonthFromTime_range t) as Hm.
  unfold MakeDay. cbv zeta.
  rewrite Z.div_small, Z.mod_small, Z.add_0_r by lia.
  unfold DateFromTime, DayWithinYear, InLeapYear. lia.
Qed.

Lemma MakeDay_date year month date n :
  MakeDay year month (date + n) = MakeDay year month date + n.
Proof. unfold MakeDay. lia. Qed.

Lemma MakeDate_time t : MakeDate (Day t) (TimeWithinDay t) = t.
Proof. unfold MakeDate, Day, TimeWithinDay, msPerDay. DateFacts.arith. Qed.

(** Moving the day of the month by [n] moves the time value by [n] days. *)
Lemma setDate_days tza d n :
  DateMethods.setDate tza d (getDate tza d + n) = d + n * msPerDay.
Proof.
  unfold DateMethods.setDate, getDate. cbv zeta.
  rewrite MakeDay_date, MakeDay_fields.
  pose proof (MakeDate_time (LocalTime tza d)) as Ht.
  unfold MakeDate, UTC, LocalTime in *. lia.
Qed.

Lemma leap_cases y :
  (if DaysInYear y =? 366 then 1 else 0) = DaysInYear y - 365
  /\ (DaysInYear y = 365 \/ DaysInYear y = 366).
Proof. destruct (DateFacts.DaysInYear_cases y) as [-> | ->]; simpl; lia. Qed.

(** The days between the same day of the month, [k] months apart, for 1 or 3
    months. *)
Lemma MakeDay_months year month date k :
  0 <= month <= 11 -> 1 <= k <= 3 ->
  let span := MakeDay year (month + k) date - MakeDay year month date in
  (k = 1 -> 28 <= span <= 31) /\ (k = 3 -> 89 <= span <= 92).
Proof.
  intros Hm Hk span. subst span. unfold MakeDay. cbv zeta.
  rewrite (Z.div_small month), (Z.mod_small month), Z.add_0_r by lia.
  assert (Hq : month + k < 12
                /\ (month + k) / 12 = 0 /\ (month + k) mod 12 = month + k
               \/ 12 <= month + k
                  /\ (month + k) / 12 = 1 /\ (month + k) mod 12 = month + k - 12)
    by DateFacts.arith.
  destruct (leap_cases year) as [-> Hy]. destruct (leap_cases (year + 1)) as [Hl' Hy'].
  destruct Hq as [(Hlt & -> & ->) | (Hge & -> & ->)].
  - rewrite Z.add_0_r. destruct (leap_cases year) as [-> _].
    unfold monthStart. DateFacts.split_tests; lia.
  - rewrite Hl', DateFacts.DayFromYear_succ.
    unfold monthStart. DateFacts.split_tests; lia.
Qed.

Lemma MakeDay_year year month date :
  0 <= month <= 11 ->
  365 <= MakeDay (year + 1) month date - MakeDay year month date <= 366.
Proof.
  intros Hm. unfold MakeDay. cbv zeta.
  rewrite (Z.div_small month), (Z.mod_small month), !Z.add_0_r by lia.
  destruct (leap_cases year) as [-> Hy]. destruct (leap_cases (year + 1)) as [-> Hy'].
  rewrite DateFacts.DayFromYear_succ.
  assert (Hboth : ~ (DaysInYear year = 366 /\ DaysInYear (year + 1) = 366)).
  { unfold DaysInYear. DateFacts.split_tests; try lia; DateFacts.arith. }
  unfold monthStart. DateFacts.split_tests; lia.
Qed.

(** [setMonth] and [setFullYear] move a time value by whole days. *)
Lemma setMonth_span tza d month :
  setMonth tza d month
  = d + (MakeDay (getFullYear tza d) month (getDate tza d)
         - MakeDay (getFullYear tza d) (getMonth tza d) (getDate tza d))
        * msPerDay.
Proof.
  unfold setMonth, getFullYear, getMonth, getDate. cbv zeta.
  rewrite MakeDay_fields.
  pose proof (MakeDate_time (LocalTime tza d)) as Ht.
  unfold MakeDate, UTC, LocalTime in *. lia.
Qed.

Lemma setFullYear_span tza d year :
  setFullYear tza d year
  = d + (MakeDay year (getMonth tza d) (getDate tza d)
         - MakeDay (getFullYear tza d) (getMonth tza d) (getDate tza d))
        * msPerDay.
Proof.
  unfold setFullYear, getFullYear, getMonth, getDate. cbv zeta.
  rewrite MakeDay_fields.
  pose proof (MakeDate_time (LocalTime tza d)) as Ht.
  unfold MakeDate, UTC, LocalTime in *. lia.
Qed.

End SpanFacts.


(** ** Queries on the subscriptions *)

Module StaticsFacts.

(** The future date of [findExpiring] is [days] days after now. *)
Lemma expiring_spec env days s :
  Statics.expiring (Platform.now env)
    (DateMethods.setDate (Platform.tza env) (Platform.now env)
       (JSDate.getDate (Platform.tza env) (Platform.now env) + days)) s = true
  <-> Subscription.status s = Subscription.active
      /\ exists e, Subscription.endDate (Subscription.dates s) = Some e
           /\ Platform.now env <= e <= Platform.now env + days * JSDate.msPerDay.
Proof.
  unfold Statics.expiring. rewrite SpanFacts.setDate_days.
  rewrite andb_true_iff, bool_decide_eq_true.
  destruct (Subscription.endDate _) as [e |].
  - rewrite andb_true_iff, !Z.leb_le. split.
    + intros (? & ? & ?). split; [done |]. exists e. split; [done | lia].
    + intros (? & e' & [= <-] & ?). split; [done | lia].
  - split; [by intros [_ ?] | by intros (_ & e & ? & _)].
Qed.

(** The next billing date is at least 28 days after the start. *)
Lemma nextBilling_after tza start cycle next :
  Subscription.nextBilling tza start cycle = Some next ->
  start + 28 * JSDate.msPerDay <= next.
Proof.
  pose proof (DateFacts.MonthFromTime_range (JSDate.LocalTime tza start)) as Hm.
  fold (JSDate.getMonth tza start) in Hm.
  assert (0 < JSDate.msPerDay) by done.
  destruct cycle; simpl; intros [= <-].
  - rewrite SpanFacts.setMonth_span.
    pose proof (SpanFacts.MakeDay_months (JSDate.getFullYear tza start)
                  (JSDate.getMonth tza start) (JSDate.getDate tza start) 1 Hm
                  ltac:(lia)) as [H1 _].
    specialize (H1 eq_refl). nia.
  - rewrite SpanFacts.setMonth_span.
    pose proof (SpanFacts.MakeDay_months (JSDate.getFullYear tza start)
                  (JSDate.getMonth tza start) (JSDate.getDate tza start) 3 Hm
                  ltac:(lia)) as [_ H3].
    specialize (H3 eq_refl). nia.
  - rewrite SpanFacts.setFullYear_span.
    pose proof (SpanFacts.MakeDay_year (JSDate.getFullYear tza start)
                  (JSDate.getMonth tza start) (JSDate.getDate tza start) Hm).
    nia.
Qed.

End StaticsFacts.






(** ** The subscription [POST /api/subscriptions] creates *)

Module CreatedFacts.
Import Routes.

(** What a 201 of [POST /] tells about the request and the store. *)
Lemma create_found env req st s st' :
  create env req st = (Http.Created s, st') ->
  let ids := map serviceId (services (body req)) in
  let found := findActive st ids in
  exists user subtotal items cycle,
    bearer req = Some user
    /\ validBody (body req) = true
    /\ NoDup ids
    /\ (forall k, k ∈ ids ->
          exists svc, found !! k = Some svc /\ Store.services st !! k = Some svc)
    /\ checkServices found (services (body req)) = None
    /\ priceServices found (services (body req)) (0%Qc, []) = Some (subtotal, items)
    /\ Store.subscriptions st !! Platform.freshId env = None
    /\ s = Subscription.fields
             (Subscription.save env
                (newSubscription env user (sanitize (body req)) cycle items
                   subtotal found))
    /\ st' = incrementAll found
               (Store.with_subscriptions
                  (<[Platform.freshId env := s]> (Store.subscriptions st)) st).
Proof.
  intros (user & (Hauth & _) & Hrun)%CreateFacts.create_Created ids found.
  apply CreateFacts.createHandler_Created in Hrun
    as (subtotal & items & cycle & Hvalid & Hsize & Hcheck & Hprice & Hfresh
        & Hs & Hst).
  cbv zeta in *. fold ids in Hsize, Hcheck, Hprice, Hs, Hst.
  fold found in Hsize, Hcheck, Hprice, Hs, Hst.
  exists user, subtotal, items, cycle.
  assert (Hlen : size found = length ids) by (by unfold ids; rewrite length_map).
  apply FoundFacts.size_findActive in Hlen as [Hnodup Hall].
  split; [| split; [done | split; [done | split; [| done]]]].
  - unfold Auth.authenticate in Hauth.
    destruct (bearer req) as [u |]; [| done].
    destruct (negb _); [done |]. by injection Hauth as ->.
  - intros k Hk. rewrite list.Forall_forall in Hall.
    destruct (proj1 (FoundFacts.available_lookup st ids k Hk) (Hall k Hk))
      as [svc Hsvc].
    exists svc. split; [done |].
    by apply FoundFacts.lookup_findActive in Hsvc as (? & _).
Qed.

Lemma services_incrementAll st ids st0 k :
  Store.services st0 = Store.services st ->
  (forall k, k ∈ ids -> is_Some (findActive st ids !! k)) ->
  Store.services (incrementAll (findActive st ids) st0) !! k
  = if decide (k ∈ ids)
    then Service.incrementSubscriptions <$> Store.services st !! k
    else Store.services st !! k.
Proof.
  intros Hsame Hall. unfold incrementAll. cbn [Store.with_services Store.services].
  rewrite Hsame. destruct (decide (k ∈ ids)) as [Hk | Hk].
  - destruct (Hall k Hk) as [svc Hsvc].
    pose proof Hsvc as (Hst & _)%FoundFacts.lookup_findActive.
    rewrite Hst. simpl. apply lookup_union_Some_raw. left.
    by rewrite lookup_fmap, Hsvc.
  - assert (Hnone : findActive st ids !! k = None).
    { destruct (findActive st ids !! k) as [svc |] eqn:Hsvc; [| done].
      by apply FoundFacts.lookup_findActive in Hsvc as (_ & ? & _). }
    destruct (Store.services st !! k) as [svc |] eqn:Hst.
    + apply lookup_union_Some_raw. right. by rewrite lookup_fmap, Hnone.
    + apply lookup_union_None. by rewrite lookup_fmap, Hnone.
Qed.

(** The line items the second loop makes, one per requested service. *)
Lemma priceServices_snapshot found rs acc subtotal items :
  priceServices found rs acc = Some (subtotal, items) ->
  exists made,
    items = acc.2 ++ made
    /\ Forall2 (fun r item =>
         Subscription.serviceId item = serviceId r
         /\ Subscription.quantity item = quantityOrOne (quantity r)
         /\ Subscription.customizations item = default ∅ (customizations r)
         /\ exists svc, found !! serviceId r = Some svc
              /\ Subscription.priceAtSubscription item = Service.price svc)
       rs made.
Proof.
  revert acc. induction rs as [| r rs IH]; intros acc; simpl.
  - intros [= ->]. exists []. by rewrite app_nil_r.
  - destruct (found !! serviceId r) as [svc |] eqn:Hsvc; [| done].
    intros (made & -> & Hmade)%IH. simpl.
    eexists (_ :: made). rewrite <- app_assoc. split; [done |].
    constructor; [| done]. simpl. repeat split.
    exists svc. split; [done |]. by destruct (Service.price svc).
Qed.

End CreatedFacts.

Module CreatedValid.
Import Routes.

(** The document a 201 reports passed the validation of the schema before
    it was saved. *)
Lemma create_validated env req st s st' :
  create env req st = (Http.Created s, st') ->
  exists d, Subscription.validate (Subscription.fields d) = true
    /\ s = Subscription.fields (Subscription.save env d)
    /\ Subscription.pricing (Subscription.fields d)
       = computePricing (Subscription.subtotal
                           (Subscription.pricing (Subscription.fields d))).
Proof.
  intros (user & _ & Hrun)%CreateFacts.create_Created. revert Hrun.
  unfold createHandler. cbv zeta.
  destruct (validBody _); cbn [negb]; [| done].
  destruct (_ =? _)%nat; cbn [negb]; [| done].
  destruct (checkServices _ _) as [reply |] eqn:Hc.
  { intros [= -> _]. by eapply CreateFacts.checkServices_not_Created in Hc. }
  destruct (priceServices _ _ _) as [[subtotal items] |]; [| done].
  destruct (parseBillingCycle _) as [cycle |]; [| done].
  destruct (Subscription.validate _) eqn:Hv; cbn [negb]; [| done].
  destruct (Store.subscriptions st !! Platform.freshId env); [done |].
  intros [= <- _]. by eexists.
Qed.

End CreatedValid.

(** X13.  After a 201 of [POST /api/subscriptions] the new subscription is
    stored under an id that was free, and it alone is added; it belongs to the
    caller, is pending with a pending payment and an empty payment history,
    starts now and has no end date; the number of active subscriptions of
    every user is what it was. *)
Theorem created_subscription_stored env req st s st' :
  Routes.create env req st = (Http.Created s, st') ->
  Store.subscriptions st !! Platform.freshId env = None
  /\ Store.subscriptions st'
     = <[Platform.freshId env := s]> (Store.subscriptions st)
  /\ (exists user, Routes.bearer req = Some user
        /\ Subscription.userId s = User._id user)
  /\ Subscription.status s = Subscription.pending
  /\ Subscription.paymentStatus s = Subscription.payment_pending
  /\ Subscription.paymentHistory s = []
  /\ Subscription.startDate (Subscription.dates s) = Some (Platform.now env)
  /\ Subscription.endDate (Subscription.dates s) = None
  /\ forall uid, Auth.countActive st' uid = Auth.countActive st uid.
Proof.
  intros (user & subtotal & items & cycle & Hbearer & _ & _ & _ & _ & _ & Hfresh
          & Hs & ->)%CreatedFacts.create_found.
  assert (Hfields :
    Subscription.userId s = User._id user
    /\ Subscription.status s = Subscription.pending
    /\ Subscription.paymentStatus s = Subscription.payment_pending
    /\ Subscription.paymentHistory s = []
    /\ Subscription.startDate (Subscription.dates s) = Some (Platform.now env)
    /\ Subscription.endDate (Subscription.dates s) = None).
  { rewrite Hs. unfold Subscription.save, Subscription.preSave.
    cbn [Subscription.fields Subscription.isNew Routes.newSubscription orb].
    by repeat split. }
  destruct Hfields as (Huser & Hstatus & Hpay & Hhist & Hstart & Hend).
  repeat split; try done.
  - by exists user.
  - intros uid. unfold Auth.countActive, Routes.incrementAll.
    cbn [Store.subscriptions Store.with_services Store.with_subscriptions].
    rewrite map_filter_insert_False by (simpl; rewrite Hstatus; by intros [_ ?]).
    by rewrite delete_id.
Qed.

(** Two units of [fibre], ordered from an empty collection. *)
Lemma created_subscription_witness :
  exists s st',
    Routes.create Fixtures.morning (Fixtures.order 2)
      (Fixtures.catalogue Fixtures.fibre) = (Http.Created s, st')
    /\ Store.subscriptions st' = {[ Fixtures.subscriptionId := s ]}
    /\ Subscription.status s = Subscription.pending
    /\ Subscription.userId s = Fixtures.customerId.
Proof.
  eexists _, _. split; [vm_compute; reflexivity |].
  destruct (created_subscription_stored Fixtures.morning (Fixtures.order 2)
              (Fixtures.catalogue Fixtures.fibre) _ _ eq_refl)
    as (_ & Hstored & (user & [= <-] & Huser) & Hstatus & _).
  split; [exact Hstored |]. split; [exact Hstatus | exact Huser].
Defined.

(** X14.  After a 201, the counter of every requested service has gone up by
    one, whatever the quantity ordered; the service was stored and active; no
    other service has changed. *)
Theorem created_counters env req st s st' k :
  Routes.create env req st = (Http.Created s, st') ->
  if decide (k ∈ map Routes.serviceId (Routes.services (Routes.body req)))
  then exists svc,
         Store.services st !! k = Some svc
         /\ Service.isActive (Service.availability svc) = true
         /\ Store.services st' !! k
            = Some (Service.setCurrentSubscriptions
                      (Service.currentSubscriptions (Service.availability svc) + 1)
                      svc)
  else Store.services st' !! k = Store.services st !! k.
Proof.
  intros (user & subtotal & items & cycle & _ & _ & _ & Hall & _ & _ & _
          & _ & ->)%CreatedFacts.create_found.
  rewrite (CreatedFacts.services_incrementAll st _ _ k);
    [| done | intros k' Hk'; destruct (Hall k' Hk') as (svc & -> & _); by eexists].
  destruct (decide _) as [Hk | Hk]; [| done].
  destruct (Hall k Hk) as (svc & Hfound & Hst). exists svc.
  apply FoundFacts.lookup_findActive in Hfound as (_ & _ & Hact).
  by rewrite Hst.
Qed.

(** Two units raise the counter of [fibre] from 0 to 1. *)
Lemma created_counters_witness :
  exists s st',
    Routes.create Fixtures.morning (Fixtures.order 2)
      (Fixtures.catalogue Fixtures.fibre) = (Http.Created s, st')
    /\ Store.services st' !! Fixtures.fibreId
       = Some (Service.setCurrentSubscriptions 1 Fixtures.fibre).
Proof.
  eexists _, _. split; [vm_compute; reflexivity |].
  pose proof (created_counters Fixtures.morning (Fixtures.order 2)
                (Fixtures.catalogue Fixtures.fibre) _ _ Fixtures.fibreId eq_refl)
    as Hcount.
  rewrite decide_True in Hcount by (apply elem_of_cons; by left).
  destruct Hcount as (svc & Hsvc & _ & Hafter).
  assert (svc = Fixtures.fibre) as ->.
  { unfold Fixtures.catalogue in Hsvc. cbn [Store.services] in Hsvc.
    apply lookup_singleton_Some in Hsvc as [_ <-]. reflexivity. }
  exact Hafter.
Defined.

(** X15.  After a 201, the subscription holds one line item per requested
    service, in the order of the request: the same service id, the quantity
    requested (1 when none is given), at least 1, and the price the stored
    service had. *)
Theorem created_line_items env req st s st' :
  Routes.create env req st = (Http.Created s, st') ->
  Forall2 (fun r item =>
      Subscription.serviceId item = Routes.serviceId r
      /\ Subscription.quantity item = default 1 (Routes.quantity r)
      /\ 1 <= Subscription.quantity item
      /\ exists svc, Store.services st !! Routes.serviceId r = Some svc
           /\ Subscription.priceAtSubscription item = Service.price svc)
    (Routes.services (Routes.body req)) (Subscription.services s).
Proof.
  intros (user & subtotal & items & cycle & _ & Hvalid & _ & _ & _ & Hprice & _
          & -> & _)%CreatedFacts.create_found.
  rewrite PricingFacts.services_save.
  cbn [Subscription.fields Routes.newSubscription Subscription.services].
  apply CreatedFacts.priceServices_snapshot in Hprice as (made & -> & Hmade).
  apply BatchFacts.validBody_quantities in Hvalid. simpl.
  revert Hvalid. induction Hmade as [| r item rs made Hitem _ IH];
    intros Hvalid; [constructor |].
  apply list.Forall_cons in Hvalid as [Hq Hrest].
  constructor; [| by apply IH].
  destruct Hitem as (Hid & Hquantity & _ & svc & Hfound & Hsnap).
  assert (Hone : Routes.quantityOrOne (Routes.quantity r)
                 = default 1 (Routes.quantity r)
                 /\ 1 <= default 1 (Routes.quantity r)).
  { unfold Routes.quantityOrOne. destruct (Routes.quantity r) as [q |]; [| done].
    specialize (Hq q eq_refl). simpl. by destruct (Z.eqb_spec q 0); [lia |]. }
  destruct Hone as [Hone Hge]. rewrite Hquantity, Hone.
  repeat split; try done. exists svc. split; [| done].
  by apply FoundFacts.lookup_findActive in Hfound as (? & _).
Qed.

Lemma created_line_items_witness :
  exists s st',
    Routes.create Fixtures.morning (Fixtures.order 2)
      (Fixtures.catalogue Fixtures.fibre) = (Http.Created s, st')
    /\ Forall2 (fun r item =>
         Subscription.serviceId item = Routes.serviceId r
         /\ Subscription.quantity item = default 1 (Routes.quantity r)
         /\ 1 <= Subscription.quantity item
         /\ exists svc,
              Store.services (Fixtures.catalogue Fixtures.fibre)
                !! Routes.serviceId r = Some svc
              /\ Subscription.priceAtSubscription item = Service.price svc)
       (Routes.services (Routes.body (Fixtures.order 2)))
       (Subscription.services s).
Proof.
  eexists _, _. split; [vm_compute; reflexivity |].
  exact (created_line_items Fixtures.morning (Fixtures.order 2)
           (Fixtures.catalogue Fixtures.fibre) _ _ eq_refl).
Defined.

(** X16.  After a 201, installation is required exactly when a requested
    service is in the category Cable or Internet; no date is scheduled, and
    the installation status stays [not_required] either way. *)
Theorem created_installation env req st s st' :
  Routes.create env req st = (Http.Created s, st') ->
  (Subscription.isRequired (Subscription.installation s) = true
   <-> exists r svc,
         r ∈ Routes.services (Routes.body req)
         /\ Store.services st !! Routes.serviceId r = Some svc
         /\ (Service.category svc = Service.Cable
             \/ Service.category svc = Service.Internet))
  /\ Subscription.installationStatus (Subscription.installation s)
     = Subscription.not_required
  /\ Subscription.scheduledDate (Subscription.installation s) = None.
Proof.
  intros (user & subtotal & items & cycle & _ & _ & _ & Hall & _ & _ & _
          & -> & _)%CreatedFacts.create_found.
  unfold Subscription.save, Subscription.preSave.
  cbn [Subscription.fields Subscription.isNew Routes.newSubscription orb
       Subscription.with_dates Subscription.installation
       Subscription.isRequired Subscription.installationStatus
       Subscription.scheduledDate Routes.sanitize Routes.services].
  split; [| done]. unfold Routes.needsInstallation.
  rewrite existsb_exists. split.
  - intros ([k svc] & Hin & Hcat).
    apply list_elem_of_In, elem_of_map_to_list in Hin.
    apply FoundFacts.lookup_findActive in Hin as (Hst & Hk & _).
    apply list_elem_of_fmap in Hk as (r & -> & Hr).
    exists r, svc. split; [done |]. split; [done |].
    simpl in Hcat. destruct (Service.category svc); auto; done.
  - intros (r & svc & Hr & Hst & Hcat).
    destruct (Hall (Routes.serviceId r)) as (svc' & Hfound & Hst').
    { apply list_elem_of_fmap. by exists r. }
    assert (svc' = svc) as -> by congruence.
    exists (Routes.serviceId r, svc). split.
    + by apply list_elem_of_In, elem_of_map_to_list.
    + simpl. by destruct Hcat as [-> | ->].
Qed.

(** [fibre] is an Internet service: installation is required. *)
Lemma created_installation_witness :
  exists s st',
    Routes.create Fixtures.morning (Fixtures.order 2)
      (Fixtures.catalogue Fixtures.fibre) = (Http.Created s, st')
    /\ Subscription.isRequired (Subscription.installation s) = true
    /\ Subscription.installationStatus (Subscription.installation s)
       = Subscription.not_required.
Proof.
  eexists _, _. split; [vm_compute; reflexivity |].
  destruct (created_installation Fixtures.morning (Fixtures.order 2)
              (Fixtures.catalogue Fixtures.fibre) _ _ eq_refl)
    as (Hrequired & Hstatus & _).
  split; [| exact Hstatus]. apply Hrequired.
  exists (Fixtures.item Fixtures.fibreId (Some 2)), Fixtures.fibre.
  split; [apply elem_of_cons; by left |]. split; [reflexivity | by right].
Defined.

(** X17.  After a 201, the subtotal and the taxes are not negative, the
    total is not below the subtotal, the discounts are 0, the currency is INR
    and every line item has a quantity of at least 1. *)
Theorem created_pricing_valid env req st s st' :
  Routes.create env req st = (Http.Created s, st') ->
  let p := Subscription.pricing s in
  (0 <= Subscription.subtotal p)%Qc
  /\ (0 <= Subscription.taxes p)%Qc
  /\ (Subscription.subtotal p <= Subscription.total p)%Qc
  /\ Subscription.discounts p = 0%Qc
  /\ Subscription.currency p = "INR"
  /\ Forall (fun item => 1 <= Subscription.quantity item)
       (Subscription.services s).
Proof.
  intros (d & Hvalid & -> & Hp)%CreatedValid.create_validated p. subst p.
  rewrite PricingFacts.pricing_save, PricingFacts.services_save.
  unfold Subscription.validate in Hvalid.
  repeat match type of Hvalid with
  | _ && _ = true => apply andb_prop in Hvalid as [Hvalid ?]
  end.
  repeat match goal with
  | H : bool_decide _ = true |- _ => apply bool_decide_eq_true_1 in H
  end.
  assert (Htotal : Subscription.total (Subscription.pricing (Subscription.fields d))
                   = (Subscription.subtotal (Subscription.pricing (Subscription.fields d))
                      + Subscription.taxes (Subscription.pricing (Subscription.fields d)))%Qc
                   /\ Subscription.discounts (Subscription.pricing (Subscription.fields d)) = 0%Qc
                   /\ Subscription.currency (Subscription.pricing (Subscription.fields d)) = "INR").
  { by rewrite Hp. }
  destruct Htotal as (Htotal & Hdisc & Hcur).
  split; [done |]. split; [done |]. split.
  - rewrite Htotal.
    rewrite <- (Qcplus_0_r (Subscription.subtotal _)) at 1.
    by apply Qcplus_le_compat; [apply Qcle_refl |].
  - split; [done |]. split; [done |].
    apply list.Forall_forall. intros item Hitem.
    match goal with
    | H : forallb _ _ = true |- _ => rewrite forallb_forall in H;
        specialize (H item (proj1 (list_elem_of_In _ _) Hitem))
    end.
    lia.
Qed.

Lemma created_pricing_valid_witness :
  exists s st',
    Routes.create Fixtures.morning (Fixtures.order 2)
      (Fixtures.catalogue Fixtures.fibre) = (Http.Created s, st')
    /\ (0 <= Subscription.subtotal (Subscription.pricing s))%Qc
    /\ Subscription.discounts (Subscription.pricing s) = 0%Qc.
Proof.
  eexists _, _. split; [vm_compute; reflexivity |].
  destruct (created_pricing_valid Fixtures.morning (Fixtures.order 2)
              (Fixtures.catalogue Fixtures.fibre) _ _ eq_refl)
    as (Hsubtotal & _ & _ & Hdiscounts & _).
  split; [exact Hsubtotal | exact Hdiscounts].
Defined.

(** ** What the routes leave alone *)

Module FrameFacts.
Import Routes.

Lemma withSubscription_cases req k st :
  (exists reply, withSubscription req k st = (reply, st)
     /\ forall s, reply <> Http.Ok s)
  \/ exists user s, serves st req user s /\ withSubscription req k st = k s st.
Proof.
  unfold withSubscription, serves.
  destruct (Auth.authenticate (lc_bearer req)) as [reply | user] eqn:Hauth.
  { left. exists reply. split; [done |]. intros s ->.
    unfold Auth.authenticate in Hauth.
    destruct (lc_bearer req); [destruct (negb _) |]; done. }
  destruct (Auth.requireCustomerOrAdmin (Some user)) as [reply |] eqn:Hrole.
  { left. exists reply. split; [done |]. intros s ->.
    unfold Auth.requireCustomerOrAdmin in Hrole. by destruct (negb _). }
  destruct (isMongoId (lc_id req)); cbn [negb];
    [| left; exists Http.InvalidId; by split].
  destruct (Store.subscriptions st !! lc_id req) as [s |];
    [| left; exists Http.NotFound; by split].
  destruct (String.eqb (User.role user) "admin") eqn:Hadmin; cbn [negb andb].
  { right. exists user, s. by rewrite Hadmin. }
  destruct (String.eqb (Subscription.userId s) (User._id user)) eqn:Hown;
    cbn [negb].
  - right. exists user, s. by rewrite Hadmin, Hown.
  - left. exists Http.Forbidden. by split.
Qed.

Lemma sameOrder_cancel env reason s :
  Frame.sameOrder s
    (Subscription.fields (Subscription.cancel env reason (Subscription.loaded s))).
Proof. rewrite LifecycleFacts.cancel_loaded. by repeat split. Qed.

Lemma sameOrder_pause env reason s :
  Frame.sameOrder s
    (Subscription.fields (Subscription.pause env reason (Subscription.loaded s))).
Proof. rewrite LifecycleFacts.pause_loaded. by repeat split. Qed.

Lemma sameOrder_resume env s :
  Frame.sameOrder s
    (Subscription.fields (Subscription.resume env (Subscription.loaded s))).
Proof. rewrite LifecycleFacts.resume_loaded. by repeat split. Qed.

(** Either the shared steps reject the request, or the route goes on with
    the subscription the request names. *)
Ltac by_cases :=
  match goal with
  | |- context [withSubscription ?req ?k ?st] =>
      let Heq := fresh "Heq" in
      destruct (withSubscription_cases req k st)
        as [(? & Heq & ?) | (? & ? & ? & Heq)];
      rewrite Heq; [done |]
  end.

(** The counters after the loop of the cancel route. *)
Lemma lookup_decrementOne st item k :
  Store.services (decrementOne st item) !! k
  = if decide (k = Subscription.serviceId item)
    then Service.decrementSubscriptions <$> Store.services st !! k
    else Store.services st !! k.
Proof.
  unfold decrementOne. destruct (decide _) as [-> | Hk].
  - destruct (Store.services st !! _) as [svc |] eqn:Hsvc; simpl.
    + by rewrite lookup_insert_eq.
    + by rewrite Hsvc.
  - destruct (Store.services st !! Subscription.serviceId item); [| done].
    simpl. by rewrite lookup_insert_ne.
Qed.

Lemma lookup_foldl_decrementOne items st k :
  NoDup (map Subscription.serviceId items) ->
  Store.services (foldl decrementOne st items) !! k
  = if decide (k ∈ map Subscription.serviceId items)
    then Service.decrementSubscriptions <$> Store.services st !! k
    else Store.services st !! k.
Proof.
  revert st. induction items as [| item items IH]; intros st Hnodup;
    cbn [foldl List.map] in *.
  - rewrite decide_False; [done | apply not_elem_of_nil].
  - apply list.NoDup_cons in Hnodup as [Hnotin Hnodup].
    rewrite IH, lookup_decrementOne by done.
    destruct (decide (k = Subscription.serviceId item)) as [-> | Hk].
    + rewrite decide_False by done. rewrite decide_True; [done |].
      apply elem_of_cons. by left.
    + destruct (decide (k ∈ map Subscription.serviceId items)) as [Hin | Hin].
      * rewrite decide_True; [done |]. apply elem_of_cons. by right.
      * rewrite decide_False; [done |].
        intros [? | ?]%elem_of_cons; done.
Qed.

End FrameFacts.

(** X18.  A request that is not answered with a 201 (creation) or a 200
    (cancel, pause, resume, the administrator's status override, the
    deactivation of a service) leaves every collection as it was. *)
Theorem rejected_requests_change_nothing st :
  (forall env req,
     (forall s, (Routes.create env req st).1 <> Http.Created s) ->
     (Routes.create env req st).2 = st)
  /\ (forall env req,
        (forall s, (Routes.cancelRoute env req st).1 <> Http.Ok s) ->
        (Routes.cancelRoute env req st).2 = st)
  /\ (forall env req,
        (forall s, (Routes.pauseRoute env req st).1 <> Http.Ok s) ->
        (Routes.pauseRoute env req st).2 = st)
  /\ (forall env req,
        (forall s, (Routes.resumeRoute env req st).1 <> Http.Ok s) ->
        (Routes.resumeRoute env req st).2 = st)
  /\ (forall env req,
        (forall s, (Admin.updateStatus env req st).1 <> Http.Ok s) ->
        (Admin.updateStatus env req st).2 = st)
  /\ (forall resolved id,
        (forall s, (ServiceRoutes.deactivate resolved id st).1
                   <> ServiceRoutes.Ok s) ->
        (ServiceRoutes.deactivate resolved id st).2 = st).
Proof.
  repeat split.
  - intros env req Hno.
    destruct (CreateFacts.create_store env req st) as [[s Hs] |]; [| done].
    by destruct (Hno s).
  - intros env req. unfold Routes.cancelRoute. FrameFacts.by_cases.
    destruct (bool_decide _); [done |]. cbv zeta. intros Hno. by edestruct Hno.
  - intros env req. unfold Routes.pauseRoute. FrameFacts.by_cases.
    destruct (negb _); [done |]. cbv zeta. intros Hno. by edestruct Hno.
  - intros env req. unfold Routes.resumeRoute. FrameFacts.by_cases.
    destruct (negb _); [done |]. cbv zeta. intros Hno. by edestruct Hno.
  - intros env req. unfold Admin.updateStatus.
    destruct (Auth.authenticate _); [done |].
    destruct (Auth.requireAdmin _); [done |].
    destruct (negb _); [done |]. destruct (negb _); [done |].
    destruct (Store.subscriptions st !! Admin.id req); [| done].
    cbv zeta. intros Hno. by edestruct Hno.
  - intros resolved id. unfold ServiceRoutes.deactivate.
    destruct (Auth.authenticate _); [done |].
    destruct (Auth.requireAdmin _) as [[] |]; try done.
    destruct (negb _); [done |].
    destruct (Store.services st !! id); [| done].
    intros Hno. by edestruct Hno.
Qed.

(** X19.  A cancel, pause or resume request answered with a 200 rewrites
    the subscription it names and no other; owner, line items, amounts,
    billing cycle, payments, address and the start, end, next billing and
    last payment dates stay as they were.  Pause and resume never touch a
    service. *)
Theorem lifecycle_frame env req st :
  Frame.touchesOne req (Routes.cancelRoute env req) st
  /\ Frame.touchesOne req (Routes.pauseRoute env req) st
  /\ Frame.touchesOne req (Routes.resumeRoute env req) st
  /\ Store.services (Routes.pauseRoute env req st).2 = Store.services st
  /\ Store.services (Routes.resumeRoute env req st).2 = Store.services st.
Proof.
  unfold Frame.touchesOne, Routes.cancelRoute, Routes.pauseRoute,
    Routes.resumeRoute.
  split; [| split; [| split; [| split]]].
  all: match goal with
       | |- context [Routes.withSubscription ?r ?k ?s] =>
           destruct (FrameFacts.withSubscription_cases r k s)
             as [(reply & Heq & Hno) | (user & s0 & Hserves & Heq)]; rewrite Heq
       end.
  all: try (intros s' st' [= -> _]; by destruct (Hno s')).
  all: try done.
  - intros s' st'. destruct (bool_decide _); [done |]. cbv zeta. intros [= <- <-].
    exists s0. split; [apply Hserves |].
    split; [apply (FrameFacts.sameOrder_cancel env _ s0) |].
    by rewrite RouteFacts.foldl_decrementOne_subscriptions.
  - intros s' st'. destruct (negb _); [done |]. cbv zeta. intros [= <- <-].
    exists s0. split; [apply Hserves |].
    split; [apply (FrameFacts.sameOrder_pause env _ s0) | done].
  - intros s' st'. destruct (negb _); [done |]. cbv zeta. intros [= <- <-].
    exists s0. split; [apply Hserves |].
    split; [apply (FrameFacts.sameOrder_resume env s0) | done].
  - by destruct (negb _).
  - by destruct (negb _).
Qed.

Module ComposeFacts.
Import Subscription.

(** Resuming what [pause] saved gives the subscription back, with one more
    line in its notes. *)
Lemma resume_paused now note s :
  status s = active ->
  let paused :=
    with_metadata (with_notes note (metadata s))
      (with_dates (with_pausedDate (Some now) (dates s))
         (with_status paused s)) in
  with_dates (with_pausedDate None (dates paused)) (with_status active paused)
  = with_metadata (with_notes note (metadata s))
      (with_dates (with_pausedDate None (dates s)) s).
Proof.
  destruct s as [? ? ? ? ? ? ? [] ? ? ? []]. cbn. by intros ->.
Qed.

End ComposeFacts.

(** X20.  When a pause request has been answered with a 200, the
    subscription was active, and a resume request for it gives back the
    subscription as it was before the pause, with the line of the pause added
    to its notes and no paused date. *)
Theorem pause_then_resume env env' req st s1 st1 :
  Routes.pauseRoute env req st = (Http.Ok s1, st1) ->
  exists s,
    Store.subscriptions st !! Routes.lc_id req = Some s
    /\ Subscription.status s = Subscription.active
    /\ let s2 :=
         Subscription.with_metadata
           (Subscription.with_notes
              (Some (Subscription.appendNote "Paused: "
                       (default "User requested pause"
                          (JS.trim <$> Routes.lc_reason req))
                       (Subscription.notes (Subscription.metadata s))))
              (Subscription.metadata s))
           (Subscription.with_dates
              (Subscription.with_pausedDate None (Subscription.dates s)) s) in
       Routes.resumeRoute env' req st1
       = (Http.Ok s2,
          Store.with_subscriptions
            (<[Routes.lc_id req := s2]> (Store.subscriptions st)) st).
Proof.
  unfold Routes.pauseRoute.
  match goal with
  | |- context [Routes.withSubscription ?r ?k ?st0] =>
      destruct (FrameFacts.withSubscription_cases r k st0)
        as [(reply & Heq & Hno) | (user & s & Hserves & Heq)]; rewrite Heq
  end.
  { intros [= -> _]. by destruct (Hno s1). }
  destruct (bool_decide_reflect (Subscription.status s = Subscription.active))
    as [Hactive | ?]; cbn [negb]; [| done].
  cbv zeta. intros [= <- <-]. exists s.
  destruct Hserves as (Hauth & Hrole & Hid & Hfound & Hown).
  split; [done |]. split; [done |]. cbv zeta.
  unfold Routes.resumeRoute.
  rewrite (RouteFacts.withSubscription_serves
             (Routes.persist (Routes.lc_id req)
                (Subscription.pause env
                   (default "User requested pause"
                      (JS.trim <$> Routes.lc_reason req))
                   (Subscription.loaded s)) st)
             req user
             (Subscription.fields
                (Subscription.pause env
                   (default "User requested pause"
                      (JS.trim <$> Routes.lc_reason req))
                   (Subscription.loaded s)))).
  - rewrite LifecycleFacts.resume_loaded, LifecycleFacts.pause_loaded.
    cbn [Subscription.status Subscription.with_metadata Subscription.with_dates
         Subscription.with_status negb].
    rewrite bool_decide_eq_true_2 by done. cbn [negb].
    unfold Routes.persist, Store.with_subscriptions.
    cbn [Store.subscriptions Store.services]. rewrite insert_insert_eq.
    by rewrite LifecycleFacts.resume_loaded, ComposeFacts.resume_paused.
  - repeat split; try done.
    unfold Routes.persist. cbn [Store.subscriptions Store.with_subscriptions].
    by rewrite lookup_insert_eq.
Qed.

(** An active subscription, paused and resumed. *)
Lemma pause_then_resume_witness :
  let s := Fixtures.subscription Subscription.active Service.monthly None in
  exists s1 st1 s2 st2,
    Routes.pauseRoute Fixtures.morning (Fixtures.request (Some "travel"))
      (Fixtures.account s) = (Http.Ok s1, st1)
    /\ Routes.resumeRoute Fixtures.morning (Fixtures.request (Some "travel")) st1
       = (Http.Ok s2, st2)
    /\ Subscription.status s2 = Subscription.active
    /\ Subscription.notes (Subscription.metadata s2) = Some "Paused: travel".
Proof.
  intros s. eexists _, _, _, _. split; [vm_compute; reflexivity |].
  destruct (pause_then_resume Fixtures.morning Fixtures.morning
              (Fixtures.request (Some "travel")) (Fixtures.account s) _ _ eq_refl)
    as (s0 & Hs0 & Hactive & Hresume).
  unfold Fixtures.account in Hs0. cbn [Store.subscriptions] in Hs0.
  apply lookup_singleton_Some in Hs0 as [_ <-].
  split; [exact Hresume |]. split; [exact Hactive | reflexivity].
Defined.

Module RoundTripFacts.
Import Routes.

Lemma decrement_increment s :
  Described.nonNegative s = true ->
  Service.decrementSubscriptions (Service.incrementSubscriptions s) = s.
Proof.
  unfold Described.nonNegative. intros H0%Z.leb_le.
  destruct s as [name category price [active cap current] constraints].
  unfold Service.decrementSubscriptions, Service.incrementSubscriptions,
    Service.setCurrentSubscriptions. simpl in *.
  destruct (Z.ltb_spec 0 (current + 1)); [| lia]. simpl.
  do 2 f_equal. lia.
Qed.

Lemma priceServices_ids found rs subtotal items :
  priceServices found rs (0%Qc, []) = Some (subtotal, items) ->
  map Subscription.serviceId items = map serviceId rs.
Proof.
  intros (made & -> & Hmade)%CreatedFacts.priceServices_snapshot. simpl.
  induction Hmade as [| r item rs made (Hid & _) _ IH]; [done |].
  simpl. by rewrite Hid, IH.
Qed.

End RoundTripFacts.

(** X21.  When no counter is negative, the owner's cancellation of a
    subscription just created succeeds, and the services are then what they
    were before the creation. *)
Theorem create_then_cancel env env' req lreq st s st1 :
  Routes.create env req st = (Http.Created s, st1) ->
  map_Forall (fun _ svc => Described.nonNegative svc = true) (Store.services st) ->
  Routes.isMongoId (Platform.freshId env) = true ->
  Routes.lc_bearer lreq = Routes.bearer req ->
  Routes.lc_id lreq = Platform.freshId env ->
  exists s2 st2,
    Routes.cancelRoute env' lreq st1 = (Http.Ok s2, st2)
    /\ Subscription.status s2 = Subscription.cancelled
    /\ Store.services st2 = Store.services st.
Proof.
  intros Hrun Hcounters Hid Hbearer Hlc.
  pose proof Hrun as (u & (Hauth & Hrole & _) & _)%CreateFacts.create_Created.
  apply CreatedFacts.create_found in Hrun
    as (user & subtotal & items & cycle & Hsome & _ & Hnodup & Hall & _ & Hprice
        & _ & Hs & Hst1).
  assert (u = user) as ->.
  { rewrite Hsome in Hauth. unfold Auth.authenticate in Hauth.
    destruct (negb _); [done |]. by injection Hauth. }
  assert (Hfields : Subscription.userId s = User._id user
                    /\ Subscription.status s = Subscription.pending
                    /\ Subscription.services s = items).
  { rewrite Hs. unfold Subscription.save, Subscription.preSave.
    cbn [Subscription.fields Subscription.isNew Routes.newSubscription orb].
    by repeat split. }
  destruct Hfields as (Howner & Hpending & Hitems).
  assert (Hserves : Routes.serves st1 lreq user s).
  { unfold Routes.serves. rewrite Hbearer, Hlc, Hid, Howner, String.eqb_refl,
      orb_true_r.
    repeat split; try done.
    rewrite Hst1. unfold Routes.incrementAll.
    cbn [Store.subscriptions Store.with_services Store.with_subscriptions].
    by rewrite lookup_insert_eq. }
  unfold Routes.cancelRoute.
  rewrite (RouteFacts.withSubscription_serves _ _ _ _ _ Hserves).
  rewrite Hpending. cbn [bool_decide decide_rel]. 
  rewrite bool_decide_eq_false_2
    by (intros [? | [? | []%elem_of_nil]%elem_of_cons]%elem_of_cons; done).
  cbv zeta. eexists _, _. split; [done |].
  split; [by rewrite LifecycleFacts.cancel_loaded |].
  apply map_eq. intros k.
  destruct (FrameFacts.sameOrder_cancel env'
              (default "User requested cancellation"
                 (JS.trim <$> Routes.lc_reason lreq)) s) as (_ & -> & _).
  rewrite FrameFacts.lookup_foldl_decrementOne;
    rewrite Hitems, (RoundTripFacts.priceServices_ids _ _ _ _ Hprice); [| done].
  unfold Routes.persist. cbn [Store.services Store.with_subscriptions].
  rewrite Hst1.
  rewrite (CreatedFacts.services_incrementAll st _ _ k);
    [| done | intros k' Hk'; destruct (Hall k' Hk') as (svc & -> & _); by eexists].
  destruct (decide _) as [Hk | Hk]; [| done].
  destruct (Store.services st !! k) as [svc |] eqn:Hsvc; [| done].
  simpl. f_equal. apply RoundTripFacts.decrement_increment.
  by apply (Hcounters k svc).
Qed.

(** The order of two units of [fibre], cancelled by the customer. *)
Lemma create_then_cancel_witness :
  exists s st1 s2 st2,
    Routes.create Fixtures.morning (Fixtures.order 2)
      (Fixtures.catalogue Fixtures.fibre) = (Http.Created s, st1)
    /\ Routes.cancelRoute Fixtures.morning (Fixtures.request None) st1
       = (Http.Ok s2, st2)
    /\ Subscription.status s2 = Subscription.cancelled
    /\ Store.services st2 = Store.services (Fixtures.catalogue Fixtures.fibre).
Proof.
  eexists _, _. 
  assert (Hcounters : map_Forall (fun _ svc => Described.nonNegative svc = true)
                        (Store.services (Fixtures.catalogue Fixtures.fibre)))
    by (apply map_Forall_singleton; reflexivity).
  destruct (create_then_cancel Fixtures.morning Fixtures.morning
              (Fixtures.order 2) (Fixtures.request None)
              (Fixtures.catalogue Fixtures.fibre) _ _ eq_refl Hcounters
              eq_refl eq_refl eq_refl) as (s2 & st2 & Hcancel & Hstatus & Hservices).
  exists s2, st2. split; [vm_compute; reflexivity |].
  split; [exact Hcancel |]. split; [exact Hstatus | exact Hservices].
Defined.

(** ** The administrator's status override *)

Module AdminFacts.

(** What a 200 of the status override tells. *)
Lemma updateStatus_Ok env req st s' st' :
  Admin.updateStatus env req st = (Http.Ok s', st') ->
  exists s,
    Store.subscriptions st !! Admin.id req = Some s
    /\ st' = Store.with_subscriptions
               (<[Admin.id req := s']> (Store.subscriptions st)) st
    /\ s' = Subscription.fields
              (match Admin.status req with
               | Subscription.cancelled =>
                   Subscription.cancel env
                     (default "Admin action" (JS.trim <$> Admin.reason req))
                     (Subscription.loaded s)
               | Subscription.paused =>
                   Subscription.pause env
                     (default "Admin action" (JS.trim <$> Admin.reason req))
                     (Subscription.loaded s)
               | Subscription.active =>
                   if bool_decide (Subscription.status s = Subscription.paused)
                   then Subscription.resume env (Subscription.loaded s)
                   else Subscription.save env
                          (Subscription.assign "status"
                             (Subscription.with_status (Admin.status req))
                             (Subscription.loaded s))
               | _ => Subscription.save env
                        (Subscription.assign "status"
                           (Subscription.with_status (Admin.status req))
                           (Subscription.loaded s))
               end).
Proof.
  unfold Admin.updateStatus.
  destruct (Auth.authenticate _) as [reply | user] eqn:Hauth.
  { intros [= -> _]. unfold Auth.authenticate in Hauth.
    destruct (Admin.bearer req); [destruct (negb _) |]; done. }
  destruct (Auth.requireAdmin _) as [reply |] eqn:Hrole.
  { intros [= -> _]. unfold Auth.requireAdmin in Hrole. by destruct (negb _). }
  destruct (negb _); [done |]. destruct (negb _); [done |].
  destruct (Store.subscriptions st !! Admin.id req) as [s |]; [| done].
  cbv zeta. intros [= <- <-]. by exists s.
Qed.

Lemma sameOrder_status env status s :
  Subscription.fields
    (Subscription.save env
       (Subscription.assign "status" (Subscription.with_status status)
          (Subscription.loaded s)))
  = Subscription.with_status status s.
Proof.
  unfold Subscription.save. cbn [Subscription.fields].
  by rewrite LifecycleFacts.preSave_idle.
Qed.

End AdminFacts.



(** X23.  The administrator's override, answered with a 200, sets the
    status it was asked for on the subscription it names, changes no service
    and keeps the order as it was; unless it cancels, pauses, or resumes a
    paused subscription, the status is the only property it changes. *)
Theorem admin_status_write env req st s' st' :
  Admin.updateStatus env req st = (Http.Ok s', st') ->
  exists s,
    Store.subscriptions st !! Admin.id req = Some s
    /\ Store.subscriptions st'
       = <[Admin.id req := s']> (Store.subscriptions st)
    /\ Store.services st' = Store.services st
    /\ Subscription.status s' = Admin.status req
    /\ Frame.sameOrder s s'
    /\ (Admin.status req <> Subscription.cancelled ->
        Admin.status req <> Subscription.paused ->
        ~ (Admin.status req = Subscription.active
           /\ Subscription.status s = Subscription.paused) ->
        s' = Subscription.with_status (Admin.status req) s).
Proof.
  intros (s & Hfound & -> & Hs')%AdminFacts.updateStatus_Ok.
  exists s. split; [done |]. split; [done |]. split; [done |].
  destruct (Admin.status req) eqn:Hstatus;
    try (rewrite AdminFacts.sameOrder_status in Hs'; subst s';
         by repeat split).
  - destruct (bool_decide_reflect (Subscription.status s = Subscription.paused))
      as [Hpaused | Hnot].
    + rewrite LifecycleFacts.resume_loaded in Hs'. subst s'.
      repeat split; try done. intros _ _ []. by split.
    + rewrite AdminFacts.sameOrder_status in Hs'. subst s'. by repeat split.
  - rewrite LifecycleFacts.pause_loaded in Hs'. subst s'. by repeat split.
  - rewrite LifecycleFacts.cancel_loaded in Hs'. subst s'. by repeat split.
Qed.

(** The administrator marks an active subscription as expired. *)
Lemma admin_status_write_witness :
  let s := Fixtures.subscription Subscription.active Service.monthly None in
  exists s' st',
    Admin.updateStatus Fixtures.morning (Samples.override Subscription.expired)
      (Fixtures.account s) = (Http.Ok s', st')
    /\ s' = Subscription.with_status Subscription.expired s.
Proof.
  intros s. eexists _, _. split; [vm_compute; reflexivity |].
  destruct (admin_status_write Fixtures.morning
              (Samples.override Subscription.expired) (Fixtures.account s) _ _
              eq_refl) as (s0 & Hs0 & _ & _ & _ & _ & Hbare).
  unfold Fixtures.account in Hs0. cbn [Store.subscriptions] in Hs0.
  apply lookup_singleton_Some in Hs0 as [_ <-].
  apply Hbare; [done | done | by intros [? _]].
Defined.

(** ** A deactivated service *)

Module DeactivateFacts.
Import ServiceRoutes.

(** What a 200 of [DELETE /services/:id] tells. *)
Lemma deactivate_Ok resolved id st svc' st' :
  deactivate resolved id st = (Ok svc', st') ->
  exists user svc,
    resolved = Some user
    /\ User.isActive user = true
    /\ String.eqb (User.role user) "admin" = true
    /\ Routes.isMongoId id = true
    /\ Store.services st !! id = Some svc
    /\ svc' = setActive false svc
    /\ st' = Store.with_services (<[id := svc']> (Store.services st)) st.
Proof.
  unfold deactivate, Auth.authenticate, Auth.requireAdmin.
  destruct resolved as [user |]; [| done].
  destruct (User.isActive user) eqn:Hactive; cbn [negb]; [| done].
  destruct (String.eqb (User.role user) "admin") eqn:Hadmin; cbn [negb]; [| done].
  destruct (Routes.isMongoId id) eqn:Hid; cbn [negb]; [| done].
  destruct (Store.services st !! id) as [svc |] eqn:Hsvc; [| done].
  intros [= <- <-]. by exists user, svc.
Qed.

End DeactivateFacts.



(** ** Pages *)

Module PageFacts.
Import Pagination.

Section Pages.
Context {A : Type}.
Implicit Types docs : list A.

Lemma totalPages_bounds total limit :
  1 <= limit ->
  (totalPages total limit - 1) * limit < total <= totalPages total limit * limit.
Proof. unfold totalPages. intros. DateFacts.arith. Qed.

Lemma length_pageOf page limit docs :
  1 <= page -> 1 <= limit ->
  Z.of_nat (length (pageOf page limit docs))
  = Z.min limit (Z.max 0 (Z.of_nat (length docs) - skip page limit)).
Proof.
  intros Hpage Hlimit. unfold pageOf, skip.
  rewrite length_take, length_drop. nia.
Qed.

Lemma firstPages_take n limit docs :
  1 <= limit ->
  firstPages n limit docs = take (n * Z.to_nat limit) docs.
Proof.
  intros Hlimit. unfold firstPages. induction n as [| n IH]; [done |].
  rewrite seq_S, map_app, concat_app, IH. cbn [map concat Nat.add].
  rewrite app_nil_r. unfold pageOf, skip.
  replace (Z.to_nat ((Z.of_nat n + 1 - 1) * limit)) with (n * Z.to_nat limit)%nat
    by nia.
  rewrite take_take_drop. f_equal. lia.
Qed.

End Pages.
End PageFacts.

(** X25.  With a limit of at least 1, the pages 1 to [totalPages], one after
    the other, are the documents selected; no page is longer than the limit,
    a page is empty exactly when its number is above [totalPages], and every
    page before the last is full. *)
Theorem pages_partition {A : Type} (limit : Z) (docs : list A) :
  1 <= limit ->
  let pages := Pagination.totalPages (Z.of_nat (length docs)) limit in
  Pagination.firstPages (Z.to_nat pages) limit docs = docs
  /\ (forall page, 1 <= page ->
        (length (Pagination.pageOf page limit docs) <= Z.to_nat limit)%nat
        /\ (Pagination.pageOf page limit docs <> [] <-> page <= pages)
        /\ (page < pages ->
            length (Pagination.pageOf page limit docs) = Z.to_nat limit)).
Proof.
  intros Hlimit pages.
  pose proof (PageFacts.totalPages_bounds (Z.of_nat (length docs)) limit Hlimit)
    as Hbounds.
  fold pages in Hbounds. split.
  - rewrite PageFacts.firstPages_take by done. apply take_ge. nia.
  - intros page Hpage.
    pose proof (PageFacts.length_pageOf page limit docs Hpage Hlimit) as Hlen.
    unfold Pagination.skip in Hlen.
    split; [lia |]. split; [| nia].
    destruct (Pagination.pageOf page limit docs) as [| doc rest] eqn:Hpg;
      simpl in Hlen.
    + split; [done |]. intros Hle. exfalso. nia.
    + split; [| done]. intros _. nia.
Qed.

(** Five documents in pages of two: three pages, the last with one. *)
Lemma pages_partition_witness :
  Pagination.firstPages 3 2 Samples.fiveDocs = Samples.fiveDocs
  /\ Pagination.pageOf 3 2 Samples.fiveDocs = [5]
  /\ Pagination.pageOf 4 2 Samples.fiveDocs = [].
Proof.
  assert (Hlimit : 1 <= 2) by lia.
  destruct (pages_partition 2 Samples.fiveDocs Hlimit) as [Hall _].
  split; [exact Hall |]. split; reflexivity.
Defined.

(** X26.  [hasNextPage] is true exactly when the next page is not empty,
    that is when [page * limit] is below the total; [hasPrevPage] is true
    exactly from page 2 on; [totalPages] is 0 exactly when nothing is
    selected. *)
Theorem page_info {A : Type} (page limit : Z) (docs : list A) :
  1 <= page -> 1 <= limit ->
  let i := Pagination.info page limit docs in
  (Pagination.hasNextPage i = true
   <-> Pagination.pageOf (page + 1) limit docs <> [])
  /\ (Pagination.hasNextPage i = true
      <-> page * limit < Z.of_nat (length docs))
  /\ (Pagination.hasPrevPage i = true <-> 1 < page)
  /\ (Pagination.pages i = 0 <-> docs = [])
  /\ Pagination.total i = Z.of_nat (length docs).
Proof.
  intros Hpage Hlimit i. subst i. unfold Pagination.info.
  cbn [Pagination.hasNextPage Pagination.hasPrevPage Pagination.pages
       Pagination.total].
  pose proof (PageFacts.totalPages_bounds (Z.of_nat (length docs)) limit Hlimit)
    as Hbounds.
  pose proof (PageFacts.length_pageOf (page + 1) limit docs) as Hlen.
  unfold Pagination.skip in Hlen. rewrite Z.ltb_lt.
  split; [| split; [| split; [| split]]].
  - destruct (Pagination.pageOf (page + 1) limit docs) as [| doc rest];
      simpl in Hlen.
    + split; [| done]. intros Hlt. exfalso. nia.
    + split; [done |]. intros _. nia.
  - nia.
  - apply Z.ltb_lt.
  - destruct docs as [| doc docs]; simpl in *.
    + split; [done |]. intros _. unfold Pagination.totalPages. simpl.
      by rewrite Z.div_0_l by lia.
    + split; [| done]. intros Hz. rewrite Hz in Hbounds. lia.
  - done.
Qed.

Lemma page_info_witness :
  let i := Pagination.info 2 2 Samples.fiveDocs in
  Pagination.hasNextPage i = true
  /\ Pagination.hasPrevPage i = true
  /\ Pagination.pages i = 3.
Proof.
  intros i.
  assert (Hone : 1 <= 2) by lia.
  destruct (page_info 2 2 Samples.fiveDocs Hone Hone)
    as (_ & Hnext & Hprev & _).
  split; [apply Hnext; simpl; lia |]. split; [apply Hprev; lia | reflexivity].
Defined.
